(** * SupervIA AI service: the chat tool loop, the session store and the
      response cache

    A shallow embedding of
      - src/config/redis.js            (memoryCache, redisClient, aiCache),
      - src/controllers/cache.controller.js   (deleteKey, flushCache),
      - src/services/openai.service.js (callOpenAI, getFallbackResponse),
      - src/controllers/ops-assistant.controller.js (buildChatPrompt, chat,
        quickStatus), with the lookup in [availableTools] of
        src/services/tool.service.js,
      - src/controllers/dashboard.controller.js (generateDashboard,
        enrichDashboard, getDefaultLayout, validateDashboardStructure,
        suggestTemplates, recommendBlocks),
      - src/middlewares/errorHandler.js, src/middlewares/auth.js (requireRole)
        and the guarded routes of src/routes/cache.routes.js,
    followed by the properties of the specification that concern them
    (Part III) and by further properties of the code (Part IV).

    JavaScript values are a small untyped universe [jsval]; every handler
    is a state-passing function, and what the runtime or a collaborator
    decides (the completion endpoint, the tool back-ends, MD5, the text of
    a JSON document, identifiers, the calendar) is a field of [JsHost] or
    [Env], over which every statement quantifies. *)

From Stdlib Require Import String Ascii List ZArith Lia Bool.
From stdpp Require Import base option list gmap strings pretty fin_maps.

Local Open Scope Z_scope.

Set Warnings "-register-all".

(* ===================================================================== *)
(** * Part I.  The program *)
(* ===================================================================== *)

(** ** JavaScript values *)

Module Js.

(** Numbers are the integers (no claim depends on a fraction, NaN or an
    infinity).  An object is the list of its own properties, each key once,
    in the order of the literal that built it. *)
Inductive jsval : Type :=
| JUndefined
| JNull
| JBool (b : bool)
| JNum (n : Z)
| JStr (s : string)
| JArr (items : list jsval)
| JObj (fields : list (string * jsval)).

(** [!!v] *)
Definition truthy (v : jsval) : bool :=
  match v with
  | JUndefined | JNull => false
  | JBool b => b
  | JNum n => negb (n =? 0)
  | JStr s => negb (String.eqb s "")
  | JArr _ | JObj _ => true
  end.

Fixpoint assoc (k : string) (fields : list (string * jsval)) : jsval :=
  match fields with
  | [] => JUndefined
  | (k', v) :: rest => if String.eqb k k' then v else assoc k rest
  end.

(** [v.name] for the data properties the program reads.  Reading a property
    of [undefined] or [null] throws a TypeError ([None]); a primitive or an
    array has none of the names read here. *)
Definition prop (name : string) (v : jsval) : option jsval :=
  match v with
  | JUndefined | JNull => None
  | JObj fields => Some (assoc name fields)
  | _ => Some JUndefined
  end.

(** [v.name] where the caller has already tested [v] to be truthy. *)
Definition get_field (name : string) (v : jsval) : jsval :=
  match v with
  | JObj fields => assoc name fields
  | _ => JUndefined
  end.

(** [v[0]] *)
Definition index0 (v : jsval) : jsval :=
  match v with
  | JArr (x :: _) => x
  | JObj fields => assoc "0" fields
  | JStr (String c _) => JStr (String c "")
  | _ => JUndefined
  end.

(** What [JSON.parse (JSON.stringify v)] gives back for a defined [v]: the
    properties holding [undefined] are left out, and an [undefined] array
    item is written [null]. *)
Fixpoint json_norm (v : jsval) : jsval :=
  match v with
  | JArr items =>
      JArr (List.map (fun x => match x with
                               | JUndefined => JNull
                               | _ => json_norm x
                               end) items)
  | JObj fields =>
      JObj ((fix members (fs : list (string * jsval)) : list (string * jsval) :=
               match fs with
               | [] => []
               | (k, JUndefined) :: rest => members rest
               | (k, x) :: rest => (k, json_norm x) :: members rest
               end) fields)
  | _ => v
  end.

(** A value that JSON represents exactly: no [undefined] anywhere in it. *)
Fixpoint json_clean (v : jsval) : bool :=
  match v with
  | JUndefined => false
  | JArr items => forallb json_clean items
  | JObj fields =>
      (fix members (fs : list (string * jsval)) : bool :=
         match fs with
         | [] => true
         | (_, x) :: rest => json_clean x && members rest
         end) fields
  | _ => true
  end.

(** What the runtime and its libraries compute and this development does
    not look into. *)
Record JsHost : Type := {
  (** [crypto.createHash('md5').update(s).digest('hex')] *)
  md5hex : string -> string;
  (** the text [JSON.stringify] writes for a defined value *)
  JSON_text : jsval -> string;
  (** [JSON.parse] on a text received from outside: the value, or the
      message of the SyntaxError *)
  JSON_parse : string -> jsval + string;
  (** [String(v)] for a number, an array or an object *)
  ToString_other : jsval -> string;
  (** [v > 0] for a string or an array (they are first read as numbers) *)
  gt_zero_coerced : jsval -> bool;
  (** [new Date(t).toISOString()] *)
  toISOString : Z -> string;
  (** the message of the TypeError thrown when the property of
      [Object.prototype] under this name is called as a plain function
      (for [__proto__]: when a value that is no function is called) *)
  TypeError_message : string -> string
}.

Section WithHost.
Context (host : JsHost).

(** [String(v)], also the way a template literal and a property key read
    a value. *)
Definition ToString (v : jsval) : string :=
  match v with
  | JStr s => s
  | JUndefined => "undefined"
  | JNull => "null"
  | JBool true => "true"
  | JBool false => "false"
  | _ => ToString_other host v
  end.

(** [v > 0] *)
Definition gt_zero (v : jsval) : bool :=
  match v with
  | JNum n => 0 <? n
  | JBool b => b
  | JUndefined | JNull | JObj _ => false
  | JStr _ | JArr _ => gt_zero_coerced host v
  end.

(** [v.length > 0] for a truthy [v] *)
Definition length_positive (v : jsval) : bool :=
  match v with
  | JArr items => match items with [] => false | _ => true end
  | JStr s => negb (String.eqb s "")
  | JObj fields => gt_zero (assoc "length" fields)
  | _ => false
  end.

(** [JSON.stringify v] as a JavaScript value: a string, or [undefined]
    when [v] is. *)
Definition JSON_stringify (v : jsval) : jsval :=
  match v with
  | JUndefined => JUndefined
  | _ => JStr (JSON_text host v)
  end.

(** [const member = Object.prototype[name]; const output = await member (arg);
     typeof output === 'string' ? output : JSON.stringify (output)]
    for a [name] of [Object_prototype] below: the value of the conditional,
    or the message of the TypeError thrown.  Called this way the member has
    [undefined] for its receiver:
      - [toString] names the class of its receiver;
      - [constructor] is [Object], which returns [arg] when that is an
        object or an array, a new object for [null] or [undefined], and
        for any other primitive its wrapper object, which [JSON.stringify]
        writes as the primitive;
      - [isPrototypeOf] answers [false] for a primitive before it looks at
        its receiver;
      - every other function converts its receiver to an object, which
        throws, and [__proto__] holds [Object.prototype] itself, which is
        no function. *)
Definition call_inherited (name : string) (arg : jsval) : jsval + string :=
  if String.eqb name "toString" then inl (JStr "[object Undefined]")
  else if String.eqb name "constructor" then
    inl (JSON_stringify match arg with
                        | JUndefined | JNull => JObj []
                        | _ => arg
                        end)
  else if String.eqb name "isPrototypeOf" then
    match arg with
    | JArr _ | JObj _ => inr (TypeError_message host name)
    | _ => inl (JSON_stringify (JBool false))
    end
  else inr (TypeError_message host name).

End WithHost.

(** The names of the properties of [Object.prototype]: an object literal
    answers to them as it does to the names of its own properties. *)
Definition Object_prototype : list string :=
  ["constructor"; "__defineGetter__"; "__defineSetter__"; "hasOwnProperty";
   "__lookupGetter__"; "__lookupSetter__"; "isPrototypeOf";
   "propertyIsEnumerable"; "toString"; "valueOf"; "__proto__";
   "toLocaleString"].

(** [s.includes(sub)] *)
Fixpoint includes (sub s : string) : bool :=
  String.prefix sub s
  || match s with
     | EmptyString => false
     | String _ rest => includes sub rest
     end.

(** [s.startsWith(p)] *)
Definition startsWith (p s : string) : bool := String.prefix p s.

End Js.

Export Js.

(** ** src/config/redis.js *)

Module Redis.

(** [memoryCache]: a Map from key to what [setEx] was given, which is the
    text of a JSON document or [undefined] ([JSON.stringify undefined]).
    A text is kept as the document it denotes, [Some doc], so that
    [JSON.parse] on it is [doc]; [None] is a stored [undefined]. *)
Abbreviation memory_cache := (gmap string (option jsval)).

(** [redisClient.get] : [memoryCache.get(key)] *)
Definition redisClient_get (key : string) (memoryCache : memory_cache)
  : option (option jsval) :=
  memoryCache !! key.

(** [redisClient.setEx]: [memoryCache.set(key, value)]; [ttl] is not used. *)
Definition redisClient_setEx (key : string) (ttl : Z) (value : option jsval)
    (memoryCache : memory_cache) : memory_cache :=
  <[key := value]> memoryCache.

(** [redisClient.del] on one key *)
Definition redisClient_del (key : string) (memoryCache : memory_cache)
  : Z * memory_cache :=
  match memoryCache !! key with
  | Some _ => (1, delete key memoryCache)
  | None => (0, memoryCache)
  end.

(** [redisClient.del] on an array of keys *)
Fixpoint redisClient_del_all (keys : list string) (memoryCache : memory_cache)
  : Z * memory_cache :=
  match keys with
  | [] => (0, memoryCache)
  | k :: rest =>
      let '(n, m1) := redisClient_del k memoryCache in
      let '(count, m2) := redisClient_del_all rest m1 in
      (n + count, m2)
  end.

(** [pattern.replace('*', '.*')]: the first star only *)
Fixpoint replace_star (pattern : string) : string :=
  match pattern with
  | EmptyString => EmptyString
  | String c rest =>
      if Ascii.eqb c "*" then String "." (String "*" rest)
      else String c (replace_star rest)
  end.

(** The regular expressions [keys] can be asked for: literal characters,
    [.] and a postfix [*] (the module itself only asks for ['ai:*']). *)
Inductive atom : Type := AnyChar | Lit (c : ascii).

(** [new RegExp(source)]; [None] is the SyntaxError of a star with nothing
    to repeat. *)
Fixpoint RegExp (source : string) : option (list (atom * bool)) :=
  match source with
  | EmptyString => Some []
  | String c rest =>
      if Ascii.eqb c "*" then None
      else
        let a := if Ascii.eqb c "." then AnyChar else Lit c in
        match rest with
        | String "*"%char rest' => cons (a, true) <$> RegExp rest'
        | _ => cons (a, false) <$> RegExp rest
        end
  end.

(** [.] takes any character but a line terminator. *)
Definition atom_matches (a : atom) (c : ascii) : bool :=
  match a with
  | AnyChar => negb (Ascii.eqb c "010" || Ascii.eqb c "013")
  | Lit c' => Ascii.eqb c' c
  end.

(** The expression matches a prefix of [text]. *)
Fixpoint match_here (re : list (atom * bool)) (text : string) : bool :=
  match re with
  | [] => true
  | (a, false) :: re' =>
      match text with
      | EmptyString => false
      | String c rest => atom_matches a c && match_here re' rest
      end
  | (a, true) :: re' =>
      (fix star (t : string) : bool :=
         match_here re' t
         || match t with
            | EmptyString => false
            | String c rest => atom_matches a c && star rest
            end) text
  end.

(** [regex.test(text)]: the expression is not anchored, it may match
    anywhere in [text]. *)
Fixpoint regex_test (re : list (atom * bool)) (text : string) : bool :=
  match_here re text
  || match text with
     | EmptyString => false
     | String _ rest => regex_test re rest
     end.

(** [redisClient.keys]; [None] when [new RegExp] throws.  A Map lists its
    keys in insertion order; nothing modelled here depends on the order. *)
Definition redisClient_keys (pattern : string) (memoryCache : memory_cache)
  : option (list string) :=
  re ← RegExp (replace_star pattern);
  Some (List.filter (regex_test re) (fst <$> map_to_list memoryCache)).

(** [redisClient.ttl]: "Pas d'expiration en mode mémoire" *)
Definition redisClient_ttl (key : string) (memoryCache : memory_cache) : Z := -1.

Section WithHost.
Context (host : JsHost).

(** [aiCache.generateCacheKey]; [None] when [prompt] is [undefined]
    ([update(undefined)] throws). *)
Definition generateCacheKey (prompt : jsval) (agentType : string) : option string :=
  let promptStr := match prompt with
                   | JStr _ => prompt
                   | _ => JSON_stringify host prompt
                   end in
  match promptStr with
  | JStr s => Some ("ai:" +:+ agentType +:+ ":" +:+ md5hex host s)
  | _ => None
  end.

End WithHost.

(** [aiCache.get]: [cached ? JSON.parse(cached) : null].  A text written by
    [JSON.stringify] is never empty and always parses. *)
Definition aiCache_get (key : string) (memoryCache : memory_cache) : jsval :=
  match redisClient_get key memoryCache with
  | Some (Some doc) => doc
  | _ => JNull
  end.

(** The value [JSON.stringify data] that [aiCache.set] hands to [setEx]. *)
Definition stored_text (data : jsval) : option jsval :=
  match data with
  | JUndefined => None
  | _ => Some (json_norm data)
  end.

(** [aiCache.set] *)
Definition aiCache_set (key : string) (data : jsval) (ttlSeconds : Z)
    (memoryCache : memory_cache) : bool * memory_cache :=
  (true, redisClient_setEx key ttlSeconds (stored_text data) memoryCache).

(** [aiCache.del] *)
Definition aiCache_del (key : string) (memoryCache : memory_cache)
  : bool * memory_cache :=
  (true, snd (redisClient_del key memoryCache)).

(** [aiCache.flush] *)
Definition aiCache_flush (memoryCache : memory_cache) : bool * memory_cache :=
  match redisClient_keys "ai:*" memoryCache with
  | Some keys =>
      match keys with
      | [] => (true, memoryCache)
      | _ => (true, snd (redisClient_del_all keys memoryCache))
      end
  | None => (false, memoryCache)
  end.

End Redis.

Export Redis.

(** ** src/controllers/cache.controller.js *)

Module CacheController.

Inductive reply : Type :=
| Json (status : Z) (success : bool) (message : string).

(** [deleteKey] for [req.params.key = key] *)
Definition deleteKey (key : string) (memoryCache : memory_cache)
  : reply * memory_cache :=
  if negb (startsWith "ai:" key) then
    (Json 400 false "Seules les clés IA peuvent être supprimées via cette API",
     memoryCache)
  else
    let '(deleted, m) := redisClient_del key memoryCache in
    if 0 <? deleted then (Json 200 true "Clé supprimée avec succès", m)
    else (Json 404 false "Clé non trouvée", m).

(** [flushCache] *)
Definition flushCache (memoryCache : memory_cache) : reply * memory_cache :=
  let '(flushed, m) := aiCache_flush memoryCache in
  if flushed then (Json 200 true "Cache IA vidé avec succès", m)
  else (Json 500 false "Erreur lors du vidage du cache", m).

End CacheController.

(** ** The collaborators *)

Module World.

(** What [this.client.chat.completions.create] does: it answers, or throws
    an error carrying a [code] and a [message]. *)
Inductive engine_outcome : Type :=
| Completion (response : jsval)
| ApiError (code : option string) (message : string).

(** What awaiting a tool executor gives. *)
Inductive tool_outcome : Type :=
| ToolReturned (output : jsval)
| ToolThrew (message : string).

Record Env : Type := {
  (** the answer of the completion endpoint to its [n]-th request, with
      the [messages] of that request *)
  completions_create : nat -> list jsval -> engine_outcome;
  (** [this.useCache]: [process.env.USE_CACHE !== 'false'] *)
  useCache : bool;
  (** the [n]-th identifier [uuidv4()] returns *)
  uuidv4 : nat -> string;
  (** the executors the object literal [availableTools] of tool.service.js
      holds, by the name of the property: its own properties *)
  availableTools : string -> option (jsval -> tool_outcome)
}.

End World.

Export World.

(** ** src/services/openai.service.js *)

Module OpenAIService.

(** [memoryCache] of redis.js, the requests sent to the completion
    endpoint, and the [metrics.recordAICall (agentType, status, cached)]
    events, oldest first. *)
Record service_state : Type := {
  memoryCache : memory_cache;
  engineLog : list (list jsval);
  aiCalls : list (string * string * bool)
}.

(** The [options] argument, as far as it changes what is modelled
    (temperature, model, tools only shape the request). *)
Record call_options : Type := { cacheTTL : option Z }.

Inductive call_result : Type :=
| Returned (value : jsval)
| Threw (message : string).

Definition recordAICall (agentType status : string) (cached : bool)
    (s : service_state) : service_state :=
  {| memoryCache := memoryCache s;
     engineLog := engineLog s;
     aiCalls := aiCalls s ++ [(agentType, status, cached)] |}.

Definition with_cache (m : memory_cache) (s : service_state) : service_state :=
  {| memoryCache := m; engineLog := engineLog s; aiCalls := aiCalls s |}.

Definition log_request (messages : list jsval) (s : service_state) : service_state :=
  {| memoryCache := memoryCache s;
     engineLog := engineLog s ++ [messages];
     aiCalls := aiCalls s |}.

(** The two system prompts of [getSystemPrompt], by their first line (the
    literals go on in prose that no code reads). *)
Definition dashboard_prompt : string :=
  "Tu es un expert en génération de dashboards pour SupervIA, une plateforme de supervision d'infrastructure.".
Definition opsAssistant_prompt : string :=
  "Tu es un expert en infrastructure et supervision opérationnelle pour SupervIA.".

(** [getSystemPrompt]: [prompts[agentType] || prompts.opsAssistant] *)
Definition getSystemPrompt (agentType : string) : string :=
  if String.eqb agentType "dashboard" then dashboard_prompt
  else opsAssistant_prompt.

Definition fallback_dashboard_doc : jsval :=
  JObj [("dashboard",
         JObj [("title", JStr "Dashboard par défaut");
               ("description", JStr "Configuration générée en mode dégradé");
               ("layout", JStr "grid");
               ("blocks",
                JArr [JObj [("id", JStr "default-metric");
                            ("type", JStr "metric");
                            ("title", JStr "Métriques système");
                            ("position", JObj [("x", JNum 0); ("y", JNum 0);
                                               ("w", JNum 6); ("h", JNum 3)]);
                            ("config", JObj [("metric", JStr "cpu_usage")]);
                            ("datasource", JStr "prometheus")]])]);
        ("recommendations", JArr [JStr "Vérifiez la configuration des métriques"]);
        ("explanation",
         JStr "Dashboard généré en mode dégradé suite à une erreur API")].

Definition fallback_opsAssistant_text : string :=
  "Je rencontre actuellement des difficultés techniques. Veuillez vérifier:

• L'état des services critiques
• Les métriques de base (CPU, mémoire, stockage)
• Les logs d'erreur récents

Contactez l'équipe technique si le problème persiste.".

Definition fallback_chat_text : string :=
  "Je suis désolé, mais je rencontre des difficultés techniques pour traiter votre demande. Essayez de reformuler votre question ou contactez l'équipe technique si le problème persiste.".

Definition fallback_quick_status_text : string :=
  "Statut système: Indisponible. Impossible d'accéder aux métriques en temps réel. Veuillez vérifier manuellement l'état des services ou réessayer ultérieurement.".

Definition fallback_performance_insights_text : string :=
  "Analyse de performance indisponible. Le service de métriques semble inaccessible. Vérifiez l'état des services et les connexions réseau avant de réessayer.".

Definition fallback_of (content : jsval) : jsval :=
  JObj [("content", content); ("fallback", JBool true)].

Section WithHost.
Context (host : JsHost) (env : Env).

(** [getFallbackResponse]: the entry of [fallbacks] under [agentType], or
    else the chat, dashboard or opsAssistant one.  ([agentType] is taken
    not to name a property every object inherits.) *)
Definition getFallbackResponse (agentType : string) (prompt : jsval) : jsval :=
  let dashboard := fallback_of (JSON_stringify host fallback_dashboard_doc) in
  let opsAssistant := fallback_of (JStr fallback_opsAssistant_text) in
  let chat := fallback_of (JStr fallback_chat_text) in
  if String.eqb agentType "dashboard" then dashboard
  else if String.eqb agentType "opsAssistant" then opsAssistant
  else if String.eqb agentType "chat" then chat
  else if String.eqb agentType "quick-status" then
    fallback_of (JStr fallback_quick_status_text)
  else if String.eqb agentType "performance-insights" then
    fallback_of (JStr fallback_performance_insights_text)
  else if includes "chat" agentType then chat
  else if includes "dashboard" agentType then dashboard
  else opsAssistant.

(** The [catch] block of [callOpenAI] for an error with this [code]. *)
Definition on_error (code : option string) (message : string)
    (agentType : string) (prompt : jsval) (s : service_state)
  : call_result * service_state :=
  let s := recordAICall agentType "error" false s in
  let code_is c := match code with
                   | Some c' => String.eqb c' c
                   | None => false
                   end in
  if code_is "rate_limit_exceeded" then
    (Threw "Limite de taux API dépassée. Veuillez réessayer plus tard.", s)
  else if code_is "insufficient_quota" then
    (Threw "Quota API insuffisant.", s)
  else if code_is "invalid_request_error" then
    (Threw ("Requête invalide: " +:+ message), s)
  else (Returned (getFallbackResponse agentType prompt), s).

(** The first lines of the [try] block: the cache key; [None] is the throw
    of ['Format de prompt invalide']. *)
Definition cache_key_of (prompt : jsval) (agentType : string) : option string :=
  match prompt with
  | JStr _ => generateCacheKey host prompt agentType
  | JArr _ => generateCacheKey host (JSON_stringify host prompt) agentType
  | _ => None
  end.

(** The [messages] of the request; [prompt] is a string or an array here. *)
Definition messages_of (prompt : jsval) (agentType : string) : list jsval :=
  match prompt with
  | JArr items => items
  | _ => [JObj [("role", JStr "system");
                ("content", JStr (getSystemPrompt agentType))];
          JObj [("role", JStr "user"); ("content", prompt)]]
  end.

(** [!response || !response.choices || !response.choices[0] ||
     !response.choices[0].message] *)
Definition invalid_response (response : jsval) : bool :=
  negb (truthy response)
  || negb (truthy (get_field "choices" response))
  || negb (truthy (index0 (get_field "choices" response)))
  || negb (truthy (get_field "message" (index0 (get_field "choices" response)))).

(** The [result] object literal. *)
Definition result_of (response : jsval) (agentType : string) (now : Z) : jsval :=
  JObj [("content",
         get_field "content"
           (get_field "message" (index0 (get_field "choices" response))));
        ("choices", get_field "choices" response);
        ("model", get_field "model" response);
        ("usage", get_field "usage" response);
        ("timestamp", JStr (toISOString host now));
        ("agentType", JStr agentType)].

(** [callOpenAI (prompt, agentType, options)] run when the clock reads
    [now]. *)
Definition callOpenAI (prompt : jsval) (agentType : string)
    (options : call_options) (now : Z) (s : service_state)
  : call_result * service_state :=
  match cache_key_of prompt agentType with
  | None => on_error None "Format de prompt invalide" agentType prompt s
  | Some cacheKey =>
      let cached := aiCache_get cacheKey (memoryCache s) in
      if useCache env && truthy cached then
        (Returned cached, recordAICall agentType "success" true s)
      else
        let messages := messages_of prompt agentType in
        let outcome := completions_create env (List.length (engineLog s)) messages in
        let s := log_request messages s in
        match outcome with
        | ApiError code message => on_error code message agentType prompt s
        | Completion response =>
            if invalid_response response then
              on_error None "Réponse OpenAI invalide" agentType prompt s
            else
              let result := result_of response agentType now in
              let s :=
                if useCache env then
                  let ttl := match cacheTTL options with
                             | Some t => if t =? 0 then 3600 else t
                             | None => 3600
                             end in
                  with_cache (snd (aiCache_set cacheKey result ttl (memoryCache s))) s
                else s in
              let s := recordAICall agentType "success" false s in
              (* logger.info ({ ..., tokens: response.usage.total_tokens }) *)
              match prop "total_tokens" (get_field "usage" response) with
              | None =>
                  on_error None "Cannot read properties of undefined"
                    agentType prompt s
              | Some _ => (Returned result, s)
              end
        end
  end.

End WithHost.

End OpenAIService.

Export OpenAIService.

(** ** src/controllers/ops-assistant.controller.js *)

Module OpsAssistant.

(** The first line of the system instruction of [buildChatPrompt] (the
    literal goes on describing the tools and the policy). *)
Definition system_instruction : string :=
  "You are SupervIA, an expert-level AI operations assistant for a microservices monitoring platform.".

Definition systemPrompt : jsval :=
  JObj [("role", JStr "system"); ("content", JStr system_instruction)].

(** [buildChatPrompt]: [[systemPrompt, ...history]] *)
Definition buildChatPrompt (history : list jsval) : jsval :=
  JArr (systemPrompt :: history).

Definition maxToolCalls : nat := 5.

Definition apology : string :=
  "J'ai rencontré des difficultés techniques pour répondre à votre demande. Pourriez-vous la reformuler ? ".

(** The validated request: [req.body] and [req.user?.id]. *)
Record chat_request : Type := {
  sessionId : option string;
  message : string;
  context : jsval;
  user_id : option string
}.

(** What the handler does with [res] and [next]. *)
Inductive chat_outcome : Type :=
| ResJson (body : jsval)
| Next (error : string).

(** [chatSessions], the identifiers handed out so far, the clock, and the
    state of the service behind [openAIService]. *)
Record world (S : Type) : Type := {
  chatSessions : gmap string (list jsval);
  uuidCount : nat;
  now : Z;
  svc : S
}.
Arguments chatSessions {S} _.
Arguments uuidCount {S} _.
Arguments now {S} _.
Arguments svc {S} _.

(** One call of [openAIService.callOpenAI]: the prompt and the agent type
    it was given. *)
Definition call : Type := jsval * string.

Inductive loop_result : Type :=
| Finished (executionCount : nat) (responseMessage : jsval)
| Failed (error : string).

(** What a property of [availableTools] holds: an executor, or what every
    object inherits under that name. *)
Inductive tool_entry : Type :=
| Executor (executor : jsval -> tool_outcome)
| Inherited (name : string).

Section Chat.
Context (host : JsHost) (env : Env).
Context {S : Type}.
(** [openAIService.callOpenAI], given the clock reading *)
Context (callOpenAI : jsval -> string -> call_options -> Z -> S -> call_result * S).

Definition history_of (sid : string) (w : world S) : list jsval :=
  default [] (chatSessions w !! sid).

(** [history.push(m)], [history] being the array held under [sid] *)
Definition push (sid : string) (m : jsval) (w : world S) : world S :=
  {| chatSessions := <[sid := history_of sid w ++ [m]]> (chatSessions w);
     uuidCount := uuidCount w;
     now := now w;
     svc := svc w |}.

Definition with_svc (s : S) (w : world S) : world S :=
  {| chatSessions := chatSessions w;
     uuidCount := uuidCount w;
     now := now w;
     svc := s |}.

(** [{ temperature: 0.1, tools: tools, toolChoice: 'auto' }] *)
Definition chat_options : call_options := {| cacheTTL := None |}.

(** [await openAIService.callOpenAI (buildChatPrompt (history), ...)] *)
Definition ask (sid agentType : string) (calls : list call) (w : world S)
  : call_result * list call * world S :=
  let prompt := buildChatPrompt (history_of sid w) in
  let '(r, s) := callOpenAI prompt agentType chat_options (now w) (svc w) in
  (r, calls ++ [(prompt, agentType)], with_svc s w).

(** [toolCall.function.name]; [None] is a TypeError. *)
Definition function_name (toolCall : jsval) : option jsval :=
  f ← prop "function" toolCall; prop "name" f.

(** [availableTools[name]], when it is truthy: an executor or, as
    [availableTools] is an object literal, the property of
    [Object.prototype] under that name. *)
Definition lookup_tool (name : string) : option tool_entry :=
  match availableTools env name with
  | Some executor => Some (Executor executor)
  | None =>
      if bool_decide (name ∈ Object_prototype) then Some (Inherited name)
      else None
  end.

(** [const output = await functionToCall (functionArgs)] followed by
    [typeof output === 'string' ? output : JSON.stringify (output)]: the
    value of the conditional, or the message of what was thrown. *)
Definition call_tool (functionToCall : tool_entry) (functionArgs : jsval)
  : jsval + string :=
  match functionToCall with
  | Executor executor =>
      match executor functionArgs with
      | ToolReturned output =>
          inl match output with
              | JStr _ => output
              | _ => JSON_stringify host output
              end
      | ToolThrew error_message => inr error_message
      end
  | Inherited name => call_inherited host name functionArgs
  end.

(** The body of the callback mapped over [tool_calls]. *)
Definition run_tool_call (toolCall : jsval) : option jsval :=
  f ← prop "function" toolCall;
  functionName ← prop "name" f;
  id ← prop "id" toolCall;
  arguments ← prop "arguments" f;
  let content :=
    match lookup_tool (ToString host functionName) with
    | Some functionToCall =>
        match JSON_parse host (ToString host arguments) with
        | inl functionArgs =>
            match call_tool functionToCall functionArgs with
            | inl content => content
            | inr error_message => JStr ("Erreur: " +:+ error_message)
            end
        | inr error_message => JStr ("Erreur: " +:+ error_message)
        end
    | None =>
        JStr ("Erreur: outil " +:+ ToString host functionName +:+ " non trouvé")
    end in
  Some (JObj [("tool_call_id", id); ("role", JStr "tool");
              ("name", functionName); ("content", content)]).

(** The [while] loop.  [fuel] bounds the number of times the guard is
    evaluated; [None] is running out of it. *)
Fixpoint tool_loop (fuel : nat) (sid agentType : string) (executionCount : nat)
    (responseMessage : jsval) (calls : list call) (w : world S)
  : option (loop_result * list call * world S) :=
  match fuel with
  | O => None
  | Datatypes.S fuel' =>
      match prop "tool_calls" responseMessage with
      | None => Some (Failed "TypeError", calls, w)
      | Some tool_calls =>
          if truthy tool_calls && length_positive host tool_calls
             && (executionCount <? maxToolCalls)%nat
          then
            let executionCount := Datatypes.S executionCount in
            match tool_calls with
            | JArr toolCalls =>
                (* logger.info: tool_calls.map(t => t.function.name) *)
                match mapM function_name toolCalls with
                | None => Some (Failed "TypeError", calls, w)
                | Some _ =>
                    let w := push sid (JObj [("role", JStr "assistant");
                                             ("tool_calls", tool_calls)]) w in
                    match mapM run_tool_call toolCalls with
                    | None => Some (Failed "TypeError", calls, w)
                    | Some toolOutputs =>
                        let w := fold_left (fun w output => push sid output w)
                                   toolOutputs w in
                        let '(r, calls, w) := ask sid agentType calls w in
                        match r with
                        | Threw error => Some (Failed error, calls, w)
                        | Returned responseMessage =>
                            tool_loop fuel' sid agentType executionCount
                              responseMessage calls w
                        end
                    end
                end
            | _ => Some (Failed "TypeError", calls, w)
            end
          else Some (Finished executionCount responseMessage, calls, w)
      end
  end.

(** What [responseMessage.content] reads after
    [if (executionCount >= maxToolCalls) responseMessage.content = ...];
    [None] is the TypeError of setting a property of a primitive in strict
    code (a class body is). *)
Definition final_content (executionCount : nat) (responseMessage : jsval)
  : option jsval :=
  if (maxToolCalls <=? executionCount)%nat then
    match responseMessage with
    | JObj _ | JArr _ => Some (JStr apology)
    | _ => None
    end
  else Some (get_field "content" responseMessage).

(** [Math.ceil (n / 2)] *)
Definition half_up (n : nat) : Z := (Z.of_nat n + 1) / 2.

(** [req.user?.id || 'anonymous-dev'] *)
Definition userId_of (req : chat_request) : string :=
  match user_id req with
  | Some id => if String.eqb id "" then "anonymous-dev" else id
  | None => "anonymous-dev"
  end.

(** [uuidv4 ()] *)
Definition fresh_uuid (w : world S) : string * world S :=
  (uuidv4 env (uuidCount w),
   {| chatSessions := chatSessions w;
      uuidCount := Datatypes.S (uuidCount w);
      now := now w;
      svc := svc w |}).

(** [sessionId || uuidv4 ()] *)
Definition currentSession (req : chat_request) (w : world S) : string * world S :=
  match sessionId req with
  | Some sid => if String.eqb sid "" then fresh_uuid w else (sid, w)
  | None => fresh_uuid w
  end.

(** [{ role: 'user', content: message }] *)
Definition user_message (req : chat_request) : jsval :=
  JObj [("role", JStr "user"); ("content", JStr (message req))].

(** [`chat-${userId}`] *)
Definition agentType_of (req : chat_request) : string :=
  "chat-" +:+ userId_of req.

(** The body sent with [res.json]. *)
Definition response_body (currentSessionId id : string) (content : jsval)
    (timestamp : string) (historyLength : nat) (req : chat_request)
    (responseMessage : jsval) (executionCount : nat) : jsval :=
  JObj [("success", JBool true);
        ("sessionId", JStr currentSessionId);
        ("message",
         JObj [("id", JStr id);
               ("role", JStr "assistant");
               ("content", content);
               ("timestamp", JStr timestamp)]);
        ("metadata",
         JObj [("messageCount", JNum (half_up historyLength));
               ("hasContext", JBool (truthy (context req)));
               ("cached", JBool (truthy (get_field "cached" responseMessage)));
               ("toolsUsedCount", JNum (Z.of_nat executionCount))])].

(** The statements after the loop. *)
Definition conclude (req : chat_request) (currentSessionId : string)
    (executionCount : nat) (responseMessage : jsval) (calls : list call)
    (w : world S) : chat_outcome * list call * world S :=
  match final_content executionCount responseMessage with
  | None => (Next "TypeError", calls, w)
  | Some content =>
      if negb (truthy responseMessage) || negb (truthy content) then
        (Next "Réponse OpenAI invalide", calls, w)
      else
        let w := push currentSessionId
                   (JObj [("role", JStr "assistant"); ("content", content)]) w in
        let '(id, w') := fresh_uuid w in
        (ResJson (response_body currentSessionId id content
                    (toISOString host (now w))
                    (List.length (history_of currentSessionId w))
                    req responseMessage executionCount),
         calls, w')
  end.

(** [chat (req, res, next)]; [None] only if the loop ran out of fuel. *)
Definition chat (req : chat_request) (w : world S)
  : option (chat_outcome * list call * world S) :=
  let '(currentSessionId, w) := currentSession req w in
  let w := push currentSessionId (user_message req) w in
  let '(r, calls, w) := ask currentSessionId (agentType_of req) [] w in
  match r with
  | Threw error => Some (Next error, calls, w)
  | Returned responseMessage =>
      match tool_loop (Datatypes.S maxToolCalls) currentSessionId
              (agentType_of req) 0 responseMessage calls w with
      | None => None
      | Some (Failed error, calls, w) => Some (Next error, calls, w)
      | Some (Finished executionCount responseMessage, calls, w) =>
          Some (conclude req currentSessionId executionCount responseMessage
                  calls w)
      end
  end.

End Chat.

(** The handler wired to the service of openai.service.js. *)
Definition chat_service (host : JsHost) (env : Env) (req : chat_request)
    (w : world service_state)
  : option (chat_outcome * list call * world service_state) :=
  chat host env (callOpenAI host env) req w.

End OpsAssistant.

Export OpsAssistant.

(** ** The cache seen from a world with a clock *)

Module CacheClock.

(** [aiCache.set (key, data, ttlSeconds)] *)
Definition cache_set (key : string) (data : jsval) (ttlSeconds : Z)
    (w : world service_state) : world service_state :=
  {| chatSessions := chatSessions w;
     uuidCount := uuidCount w;
     now := now w;
     svc := with_cache (snd (aiCache_set key data ttlSeconds
                               (memoryCache (svc w)))) (svc w) |}.

(** [aiCache.get (key)] *)
Definition cache_get (key : string) (w : world service_state) : jsval :=
  aiCache_get key (memoryCache (svc w)).

(** The clock moves on by [seconds].  redis.js arms no timer and stores no
    instant, so nothing else changes. *)
Definition advance (seconds : Z) (w : world service_state) : world service_state :=
  {| chatSessions := chatSessions w;
     uuidCount := uuidCount w;
     now := now w + seconds;
     svc := svc w |}.

End CacheClock.

Export CacheClock.

(** ** src/controllers/ops-assistant.controller.js: quickStatus *)

Module OpsStatus.

(** [req.user?.id || 'anonymous-dev'] *)
Definition userId (user_id : option string) : string :=
  match user_id with
  | Some id => if String.eqb id "" then "anonymous-dev" else id
  | None => "anonymous-dev"
  end.

(** [const { name = true } = req.body]: the default stands for [undefined]
    only. *)
Definition or_true (v : jsval) : jsval :=
  match v with
  | JUndefined => JBool true
  | _ => v
  end.

Definition newline : string := String "010" "".

(** The template literal of [quickStatus]. *)
Definition quickStatus_prompt (includeMetrics includeAlerts : jsval) : string :=
  "Effectue une vérification rapide de l'état du système. " +:+ newline
  +:+ (if truthy includeMetrics then "Inclus les métriques de performance clés." else "")
  +:+ " " +:+ newline
  +:+ (if truthy includeAlerts then "Vérifie les alertes actives." else "")
  +:+ " " +:+ newline
  +:+ "Fournis un résumé bref et professionnel.".

(** [`quick-status-${userId}`] *)
Definition quickStatus_agentType (user_id : option string) : string :=
  "quick-status-" +:+ userId user_id.

Section WithHost.
Context (host : JsHost) (env : Env).

(** [quickStatus (req, res, next)] for [req.body = body] and
    [req.user?.id = user_id], run when the clock reads [now].  (The
    counter [metrics.recordOpsQuery] is not followed.) *)
Definition quickStatus (body : jsval) (user_id : option string) (now : Z)
    (s : service_state) : chat_outcome * service_state :=
  match prop "includeMetrics" body, prop "includeAlerts" body with
  | Some im, Some ia =>
      let includeMetrics := or_true im in
      let includeAlerts := or_true ia in
      let prompt := quickStatus_prompt includeMetrics includeAlerts in
      let '(r, s) := callOpenAI host env (JStr prompt)
                       (quickStatus_agentType user_id) {| cacheTTL := None |}
                       now s in
      match r with
      | Threw error => (Next error, s)
      | Returned aiResponse =>
          match prop "content" aiResponse, prop "cached" aiResponse with
          | Some content, Some cached =>
              (ResJson
                 (JObj [("success", JBool true);
                        ("status", content);
                        ("toolsUsed", JArr []);
                        ("metadata",
                         JObj [("includeMetrics", includeMetrics);
                               ("includeAlerts", includeAlerts);
                               ("cached", JBool (truthy cached))])]),
               s)
          | _, _ => (Next "TypeError", s)
          end
      end
  | _, _ => (Next "TypeError", s)
  end.

End WithHost.

End OpsStatus.

(** ** src/controllers/dashboard.controller.js *)

Module Dashboard.

(** [`metric-${index}`] *)
Definition metric_id (index : nat) : string := "metric-" +:+ pretty index.

(** The block [getDefaultLayout] makes of the metric at [index]; [None]
    is the TypeError of [metric.name] on [undefined] or [null]. *)
Definition default_block (index : nat) (metric : jsval) : option jsval :=
  name ← prop "name" metric;
  Some (JObj [("id", JStr (metric_id index));
              ("position",
               JObj [("x", JNum ((Z.of_nat index mod 3) * 4));
                     ("y", JNum ((Z.of_nat index / 3) * 4));
                     ("w", JNum 4);
                     ("h", JNum 3)]);
              ("metric", if truthy name then name else metric)]).

(** [metrics.map ((metric, index) => ...)] from [index] on *)
Fixpoint default_blocks (index : nat) (metrics : list jsval) : option (list jsval) :=
  match metrics with
  | [] => Some []
  | metric :: rest =>
      block ← default_block index metric;
      blocks ← default_blocks (Datatypes.S index) rest;
      Some (block :: blocks)
  end.

(** [getDefaultLayout (metrics)]; [None] is a TypeError ([metrics] has no
    [map], or an item is [undefined] or [null]). *)
Definition getDefaultLayout (metrics : jsval) : option jsval :=
  match metrics with
  | JArr items =>
      blocks ← default_blocks 0 items;
      Some (JObj [("layout",
                   JObj [("type", JStr "grid");
                         ("columns", JNum 12);
                         ("rows", JStr "auto");
                         ("blocks", JArr blocks)]);
                  ("recommendations",
                   JArr [JStr "Layout généré automatiquement";
                         JStr "Personnalisez selon vos besoins"])])
  | _ => None
  end.

Definition dquote : string := String "034" "".

(** What [validateDashboardStructure] returns: [{ valid: true, data }] or
    [{ valid: false, error }]. *)
Inductive validation : Type :=
| Valid (data : jsval)
| Invalid (error : string).

(** The [for ... of] loop over the blocks; [None] when every block
    passes. *)
Fixpoint invalid_block (host : JsHost) (blocks : list jsval) : option string :=
  match blocks with
  | [] => None
  | block :: rest =>
      match prop "id" block with
      | None => Some "TypeError"
      | Some _ =>
          let id := get_field "id" block in
          if negb (truthy id) || negb (truthy (get_field "type" block))
             || negb (truthy (get_field "title" block))
             || negb (truthy (get_field "layout" block))
          then Some ("Bloc invalide: "
                     +:+ (if truthy id then ToString host id else "sans id"))
          else invalid_block host rest
      end
  end.

(** The checks on the parsed configuration. *)
Definition validate_parsed (host : JsHost) (config : jsval) : validation :=
  match prop "dashboard" config with
  | None => Invalid "TypeError"
  | Some dashboard =>
      if negb (truthy dashboard) then Invalid ("Clé " +:+ dquote +:+ "dashboard" +:+ dquote +:+ " manquante")
      else
        match get_field "blocks" dashboard with
        | JArr blocks =>
            if negb (truthy (get_field "title" dashboard)) then
              Invalid "Structure dashboard invalide"
            else
              match invalid_block host blocks with
              | Some error => Invalid error
              | None => Valid config
              end
        | _ => Invalid "Structure dashboard invalide"
        end
  end.

(** [validateDashboardStructure (config)]: whatever is thrown inside is
    caught and reported as invalid. *)
Definition validateDashboardStructure (host : JsHost) (config : jsval) : validation :=
  match config with
  | JStr text =>
      match JSON_parse host text with
      | inl parsed => validate_parsed host parsed
      | inr error_message => Invalid error_message
      end
  | _ => validate_parsed host config
  end.

(** The tables of [getDefaultTemplateSuggestions] and
    [getDefaultBlockRecommendations] are arrays.  (The key is taken not to
    name a property every object inherits.) *)
Definition getDefaultTemplateSuggestions (host : JsHost) (useCase : jsval) : jsval :=
  let key := ToString host useCase in
  if String.eqb key "Surveillance des performances d'une application web" then
    JArr [JObj [("name", JStr "Performance Web");
                ("description",
                 JStr "Dashboard optimisé pour surveiller les performances web");
                ("complexity", JStr "medium");
                ("blocks", JArr [JStr "cpu-usage"; JStr "memory-usage";
                                 JStr "response-time"; JStr "error-rate"])]]
  else if String.eqb key "Monitoring d'infrastructure" then
    JArr [JObj [("name", JStr "Infrastructure Overview");
                ("description", JStr "Vue d'ensemble de l'infrastructure");
                ("complexity", JStr "simple");
                ("blocks", JArr [JStr "system-status"; JStr "resource-usage";
                                 JStr "service-health"])]]
  else
    JArr [JObj [("name", JStr "Dashboard Générique");
                ("description", JStr "Configuration de base adaptable");
                ("complexity", JStr "simple");
                ("blocks", JArr [JStr "metric"; JStr "chart"; JStr "status"])]].

Definition getDefaultBlockRecommendations (host : JsHost) (purpose : jsval) : jsval :=
  let key := ToString host purpose in
  if String.eqb key "Surveillance des performances d'une API" then
    JArr [JObj [("type", JStr "line-chart");
                ("title", JStr "Temps de réponse");
                ("description", JStr "Graphique des temps de réponse de l'API")];
          JObj [("type", JStr "metric");
                ("title", JStr "Taux d'erreur");
                ("description", JStr "Pourcentage d'erreurs HTTP")];
          JObj [("type", JStr "gauge");
                ("title", JStr "CPU Usage");
                ("description", JStr "Utilisation CPU du service")]]
  else
    JArr [JObj [("type", JStr "metric");
                ("title", JStr "Métrique Principale");
                ("description", JStr "Métrique clé pour le monitoring")]].

Section WithHost.
Context (host : JsHost) (env : Env).
(** The prompts of [suggestTemplates] and [recommendBlocks]: template
    literals over the three fields of the request, whose text no code
    reads. *)
Context (suggestTemplates_prompt recommendBlocks_prompt
           : jsval -> jsval -> jsval -> string).

(** [aiResponse.fallback ? defaults : JSON.parse (aiResponse.content)];
    [inr] carries the message of what is thrown. *)
Definition parsed_or (defaults : jsval) (aiResponse : jsval) : jsval + string :=
  match prop "fallback" aiResponse, prop "content" aiResponse with
  | Some fallback, Some content =>
      if truthy fallback then inl defaults
      else JSON_parse host (ToString host content)
  | _, _ => inr "TypeError"
  end.

(** [value || []] *)
Definition or_empty (value : jsval) : jsval :=
  if truthy value then value else JArr [].

(** [suggestTemplates (req, res, next)] for [req.body = body] *)
Definition suggestTemplates (body : jsval) (now : Z) (s : service_state)
  : chat_outcome * service_state :=
  match prop "useCase" body with
  | None => (Next "TypeError", s)
  | Some useCase =>
      let complexity := get_field "complexity" body in
      let preferences := get_field "preferences" body in
      let prompt := suggestTemplates_prompt useCase complexity preferences in
      let '(r, s) := callOpenAI host env (JStr prompt) "templateSuggestion"
                       {| cacheTTL := None |} now s in
      match r with
      | Threw error => (Next error, s)
      | Returned aiResponse =>
          match parsed_or (getDefaultTemplateSuggestions host useCase) aiResponse with
          | inr error => (Next error, s)
          | inl suggestions =>
              match prop "templates" suggestions with
              | None => (Next "TypeError", s)
              | Some templates =>
                  (ResJson
                     (JObj [("success", JBool true);
                            ("suggestions", or_empty templates);
                            ("metadata",
                             JObj [("useCase", useCase);
                                   ("complexity", complexity);
                                   ("cached",
                                    JBool (truthy (get_field "cached" aiResponse)));
                                   ("model", get_field "model" aiResponse)])]),
                   s)
              end
          end
      end
  end.

(** [recommendBlocks (req, res, next)] for [req.body = body] *)
Definition recommendBlocks (body : jsval) (now : Z) (s : service_state)
  : chat_outcome * service_state :=
  match prop "dashboardPurpose" body with
  | None => (Next "TypeError", s)
  | Some dashboardPurpose =>
      let existingBlocks := get_field "existingBlocks" body in
      let focus := get_field "focus" body in
      let prompt := recommendBlocks_prompt dashboardPurpose existingBlocks focus in
      let '(r, s) := callOpenAI host env (JStr prompt) "blockRecommendation"
                       {| cacheTTL := None |} now s in
      match r with
      | Threw error => (Next error, s)
      | Returned aiResponse =>
          match parsed_or (getDefaultBlockRecommendations host dashboardPurpose)
                  aiResponse with
          | inr error => (Next error, s)
          | inl recommendations =>
              match prop "blocks" recommendations with
              | None => (Next "TypeError", s)
              | Some blocks =>
                  (ResJson
                     (JObj [("success", JBool true);
                            ("recommendations", or_empty blocks);
                            ("metadata",
                             JObj [("purpose", dashboardPurpose);
                                   ("focus", focus);
                                   ("cached",
                                    JBool (truthy (get_field "cached" aiResponse)));
                                   ("model", get_field "model" aiResponse)])]),
                   s)
              end
          end
      end
  end.

End WithHost.

(** [object.name = value]: the property is replaced where it stands, or
    added last. *)
Fixpoint set_field (name : string) (value : jsval) (fields : list (string * jsval))
  : list (string * jsval) :=
  match fields with
  | [] => [(name, value)]
  | (k, v) :: rest =>
      if String.eqb name k then (k, value) :: rest
      else (k, v) :: set_field name value rest
  end.

(** [enrichDashboard (dashboardConfig, templateType)] run when the clock
    reads [now]; [None] is a TypeError.  The module is not in strict mode:
    setting a property of a primitive does nothing, and the one set on an
    array is not part of its JSON text. *)
Definition enrichDashboard (host : JsHost) (dashboardConfig templateType : jsval)
    (now : Z) : option jsval :=
  dashboard ← prop "dashboard" dashboardConfig;
  metadata ← prop "metadata" dashboard;
  if truthy metadata then Some dashboardConfig
  else
    match dashboardConfig, dashboard with
    | JObj fields, JObj members =>
        Some (JObj (set_field "dashboard"
                      (JObj (set_field "metadata"
                               (JObj [("version", JStr "1.0");
                                      ("createdAt", JStr (toISOString host now));
                                      ("templateType",
                                       if truthy templateType then templateType
                                       else JStr "custom")])
                               members))
                      fields))
    | _, _ => Some dashboardConfig
    end.

Section Generate.
Context (host : JsHost) (env : Env).
(** [buildDashboardPrompt (requirements, templateType, complexity,
    context)]: a text assembled from the four values, or a TypeError
    ([None]) on a context of the wrong shape. *)
Context (buildDashboardPrompt : jsval -> jsval -> jsval -> jsval -> option string).

(** The configuration [generateDashboard] goes on with; [inr] carries the
    message of what is thrown. *)
Definition generated_config (aiResponse : jsval) : jsval + string :=
  match prop "fallback" aiResponse, prop "content" aiResponse with
  | Some fallback, Some content =>
      if truthy fallback then JSON_parse host (ToString host content)
      else
        match validateDashboardStructure host content with
        | Valid data => inl data
        | Invalid _ => inr "Configuration dashboard générée invalide"
        end
  | _, _ => inr "TypeError"
  end.

(** [generateDashboard (req, res, next)] for [req.body = body].  (The
    counter [metrics.recordDashboardGeneration] is not followed.) *)
Definition generateDashboard (body : jsval) (now : Z) (s : service_state)
  : chat_outcome * service_state :=
  match prop "requirements" body with
  | None => (Next "TypeError", s)
  | Some requirements =>
      let templateType := get_field "templateType" body in
      let complexity := get_field "complexity" body in
      let context := get_field "context" body in
      (* logger.info ({ ..., requirementsLength: requirements.length }) *)
      match prop "length" requirements,
            buildDashboardPrompt requirements templateType complexity context with
      | Some _, Some prompt =>
          let '(r, s) := callOpenAI host env (JStr prompt) "dashboard"
                           {| cacheTTL := Some 7200 |} now s in
          match r with
          | Threw error => (Next error, s)
          | Returned aiResponse =>
              match generated_config aiResponse with
              | inr error => (Next error, s)
              | inl dashboardConfig =>
                  match enrichDashboard host dashboardConfig templateType now with
                  | None => (Next "TypeError", s)
                  | Some enrichedDashboard =>
                      (ResJson
                         (JObj [("success", JBool true);
                                ("dashboard", get_field "dashboard" enrichedDashboard);
                                ("recommendations",
                                 get_field "recommendations" enrichedDashboard);
                                ("explanation",
                                 get_field "explanation" enrichedDashboard);
                                ("metadata",
                                 JObj [("generated", JBool true);
                                       ("templateType",
                                        if truthy templateType then templateType
                                        else JStr "custom");
                                       ("complexity",
                                        if truthy complexity then complexity
                                        else JStr "medium");
                                       ("cached",
                                        JBool (if truthy (get_field "fallback" aiResponse)
                                               then false
                                               else truthy (get_field "cached" aiResponse)));
                                       ("model", get_field "model" aiResponse);
                                       ("timestamp", get_field "timestamp" aiResponse)])]),
                       s)
                  end
              end
          end
      | _, _ => (Next "TypeError", s)
      end
  end.

End Generate.

End Dashboard.

(** ** src/middlewares/errorHandler.js *)

Module ErrorHandler.

(** What a handler passes to [next]: an instance of [Error].  [err_name]
    and [err_message] are what [err.name] and [err.message] read;
    [err_props] are its other own enumerable properties, the ones
    [{ ...err }] copies ([message] and [stack] are not enumerable). *)
Record thrown : Type := {
  err_name : string;
  err_message : string;
  err_props : list (string * jsval)
}.

(** [res.status (status).json (body)] *)
Inductive http_reply : Type :=
| Http (status : jsval) (body : jsval).

(** [error]: the properties the handler goes on to read. *)
Record error_object : Type := {
  message : jsval;
  statusCode : jsval;
  stack : jsval
}.

(** [Object.values (err.errors).map (val => val.message)]; [None] is a
    TypeError.  (A string is counted in bytes.) *)
Definition validation_messages (errors : jsval) : option (list jsval) :=
  match errors with
  | JUndefined | JNull => None
  | JObj fields => mapM (fun kv : string * jsval => prop "message" kv.2) fields
  | JArr items => mapM (prop "message") items
  | JStr s => Some ((fun _ => JUndefined) <$> list_ascii_of_string s)
  | _ => Some []
  end.

Definition replaced (text : string) (code : Z) : error_object :=
  {| message := JStr text; statusCode := JNum code; stack := JUndefined |}.

Definition is_string (v : jsval) (s : string) : bool :=
  match v with
  | JStr s' => String.eqb s' s
  | _ => false
  end.

Definition is_number (v : jsval) (n : Z) : bool :=
  match v with
  | JNum n' => n' =? n
  | _ => false
  end.

(** [errorHandler (err, req, res, next)]; [development] is
    [process.env.NODE_ENV === 'development'].  [None]: the handler itself
    throws. *)
Definition errorHandler (development : bool) (err : thrown) : option http_reply :=
  let error := {| message := JStr (err_message err);
                  statusCode := assoc "statusCode" (err_props err);
                  stack := assoc "stack" (err_props err) |} in
  error ← (if String.eqb (err_name err) "ValidationError" then
             messages ← validation_messages (assoc "errors" (err_props err));
             Some {| message := JArr messages; statusCode := JNum 400;
                     stack := JUndefined |}
           else Some error);
  let error := if String.eqb (err_name err) "JsonWebTokenError"
               then replaced "Token invalide" 401 else error in
  let error := if String.eqb (err_name err) "TokenExpiredError"
               then replaced "Token expiré" 401 else error in
  let error := if is_string (assoc "type" (err_props err)) "openai_error"
               then replaced "Erreur du service IA" 503 else error in
  let error := if is_number (assoc "statusCode" (err_props err)) 429
               then replaced "Trop de requêtes, veuillez réessayer plus tard" 429
               else error in
  Some (Http (if truthy (statusCode error) then statusCode error else JNum 500)
          (JObj ([("success", JBool false);
                  ("error", if truthy (message error) then message error
                            else JStr "Erreur serveur interne")]
                 ++ (if development then [("stack", stack error)] else [])))).

(** The error object behind [Next error]: what the chat handler throws or
    lets through is a plain [Error] or [TypeError], with no property of
    its own. *)
Definition plain_error (error : string) : thrown :=
  {| err_name := if String.eqb error "TypeError" then "TypeError" else "Error";
     err_message := error;
     err_props := [] |}.

(** The answer to [POST /chat]: [res.json (body)], or what [errorHandler],
    the last middleware of server.js, makes of the error given to
    [next]. *)
Definition chat_http (host : JsHost) (env : Env) (development : bool)
    (req : chat_request) (w : world service_state) : option http_reply :=
  match chat_service host env req w with
  | Some (ResJson body, _, _) => Some (Http (JNum 200) body)
  | Some (Next error, _, _) => errorHandler development (plain_error error)
  | None => None
  end.

End ErrorHandler.

(** ** src/middlewares/auth.js: requireRole, and the routes of the cache *)

Module Auth.

Inductive guard : Type :=
| Pass
| Deny (status : Z) (message : string)
| GuardThrew.

(** [userRoles.includes (role)]: an array holds the role, a string
    contains it; anything else has no [includes] ([None], a TypeError). *)
Definition roles_include (userRoles : jsval) (role : string) : option bool :=
  match userRoles with
  | JArr items =>
      Some (existsb (fun v => match v with
                              | JStr s => String.eqb s role
                              | _ => false
                              end) items)
  | JStr s => Some (includes role s)
  | _ => None
  end.

(** [requiredRoles.some (role => userRoles.includes (role))] *)
Fixpoint some_role (requiredRoles : list string) (userRoles : jsval) : option bool :=
  match requiredRoles with
  | [] => Some false
  | role :: rest =>
      match roles_include userRoles role with
      | None => None
      | Some true => Some true
      | Some false => some_role rest userRoles
      end
  end.

(** [requireRole (requiredRoles)] applied to [req.user = user] *)
Definition requireRole (requiredRoles : list string) (user : jsval) : guard :=
  if negb (truthy user) then Deny 401 "Authentification requise"
  else
    let roles := get_field "roles" user in
    let userRoles := if truthy roles then roles else JArr [] in
    match some_role requiredRoles userRoles with
    | None => GuardThrew
    | Some true => Pass
    | Some false => Deny 403 "Permissions insuffisantes"
    end.

(** What a guarded route of cache.routes.js does. *)
Inductive route_outcome : Type :=
| Refused (status : Z) (message : string)
| Handled (reply : CacheController.reply)
| RouteThrew.

(** [router.delete ('/keys/:key', ...adminOnly, ..., deleteKey)] once
    [authMiddleware] has set [req.user]; [param ('key').notEmpty ()]
    refuses an empty key. *)
Definition delete_key_route (user : jsval) (key : string)
    (memoryCache : memory_cache) : route_outcome * memory_cache :=
  match requireRole ["admin"] user with
  | Deny status message => (Refused status message, memoryCache)
  | GuardThrew => (RouteThrew, memoryCache)
  | Pass =>
      if String.eqb key "" then (Refused 400 "Erreurs de validation", memoryCache)
      else
        let '(reply, m) := CacheController.deleteKey key memoryCache in
        (Handled reply, m)
  end.

(** [router.delete ('/flush', ...adminOnly, ..., flushCache)];
    [confirmed] is [req.query.confirm === 'true']. *)
Definition flush_route (user : jsval) (confirmed : bool)
    (memoryCache : memory_cache) : route_outcome * memory_cache :=
  match requireRole ["admin"] user with
  | Deny status message => (Refused status message, memoryCache)
  | GuardThrew => (RouteThrew, memoryCache)
  | Pass =>
      if negb confirmed then (Refused 400 "Erreurs de validation", memoryCache)
      else
        let '(reply, m) := CacheController.flushCache memoryCache in
        (Handled reply, m)
  end.

End Auth.

(* ===================================================================== *)
(** * Part II.  The vocabulary of the statements *)
(* ===================================================================== *)

(** [m] is one of the messages a tool round appends: the assistant's
    request or a tool's reply. *)
Definition tool_traffic (m : jsval) : bool :=
  match get_field "role" m with
  | JStr role =>
      String.eqb role "tool"
      || (String.eqb role "assistant" && truthy (get_field "tool_calls" m))
  | _ => false
  end.

(** The answer asks for at least one tool, each request naming its function. *)
Definition requests_tools (v : jsval) : bool :=
  match prop "tool_calls" v with
  | Some (JArr (toolCall :: toolCalls)) =>
      forallb (fun t => bool_decide (is_Some (function_name t))) (toolCall :: toolCalls)
  | _ => false
  end.

(** A request for one tool as the completion endpoint writes it. *)
Definition toolCall (id name arguments : string) : jsval :=
  JObj [("id", JStr id); ("type", JStr "function");
        ("function", JObj [("name", JStr name); ("arguments", JStr arguments)])].

Definition toolCall_of (request : string * string * string) : jsval :=
  toolCall request.1.1 request.1.2 request.2.

(** What becomes of one request for the tool [name] with [arguments]:
    nothing is found under the name; or the arguments do not parse; or
    what is found throws when called; or it gives the content of a
    reply. *)
Inductive execution : Type :=
| Unregistered
| ArgumentsRejected (error_message : string)
| ExecutorThrew (error_message : string)
| ExecutorReturned (content : jsval).

Definition execute (host : JsHost) (env : Env) (name arguments : string) : execution :=
  match lookup_tool env name with
  | None => Unregistered
  | Some functionToCall =>
      match JSON_parse host arguments with
      | inr error_message => ArgumentsRejected error_message
      | inl functionArgs =>
          match call_tool host functionToCall functionArgs with
          | inr error_message => ExecutorThrew error_message
          | inl content => ExecutorReturned content
          end
      end
  end.

(** The execution did not produce an output. *)
Definition failed (e : execution) : bool :=
  match e with
  | ExecutorReturned _ => false
  | _ => true
  end.

(** A tool message: the reply to the request [id] for the tool [name]. *)
Definition tool_message (id name : string) (content : jsval) : jsval :=
  JObj [("tool_call_id", JStr id); ("role", JStr "tool");
        ("name", JStr name); ("content", content)].

(** The reply is tagged with the identifier and the tool of the request. *)
Definition tagged (request : string * string * string) (reply : jsval) : Prop :=
  get_field "tool_call_id" reply = JStr request.1.1
  /\ get_field "role" reply = JStr "tool"
  /\ get_field "name" reply = JStr request.1.2.

(** The message written for a well-formed request. *)
Definition reply_content (host : JsHost) (env : Env) (name arguments : string)
  : jsval :=
  match execute host env name arguments with
  | Unregistered => JStr ("Erreur: outil " +:+ name +:+ " non trouvé")
  | ArgumentsRejected error_message | ExecutorThrew error_message =>
      JStr ("Erreur: " +:+ error_message)
  | ExecutorReturned content => content
  end.

(** The service answers every call, and every answer asks for tools. *)
Definition always_requests_tools {S : Type}
    (callOpenAI : jsval -> string -> call_options -> Z -> S -> call_result * S)
  : Prop :=
  forall prompt agentType options t s,
  exists v, fst (callOpenAI prompt agentType options t s) = Returned v
            /\ requests_tools v = true.

(** The property names of the [result] literal of [callOpenAI]. *)
Definition result_keys : list string :=
  ["content"; "choices"; "model"; "usage"; "timestamp"; "agentType"].

(** An object all of whose properties are among [result_keys]. *)
Definition result_shaped (v : jsval) : bool :=
  match v with
  | JObj fields =>
      forallb (fun kv => existsb (String.eqb kv.1) result_keys) fields
  | _ => false
  end.

(** An object with exactly the properties [content] and [fallback]. *)
Definition fallback_shaped (v : jsval) : bool :=
  match v with
  | JObj [(k1, _); (k2, JBool true)] =>
      String.eqb k1 "content" && String.eqb k2 "fallback"
  | _ => false
  end.

(** Every text in the cache is a document written from a [result]. *)
Definition cache_shaped (memoryCache : memory_cache) : Prop :=
  forall key doc, memoryCache !! key = Some (Some doc) -> result_shaped doc = true.

(** The failure classes of the specification, read off [error.code]. *)
Inductive failure_class : Type :=
| RateLimited | QuotaExceeded | InvalidRequest | EngineUnavailable.

Definition classify (code : option string) : failure_class :=
  match code with
  | Some c =>
      if String.eqb c "rate_limit_exceeded" then RateLimited
      else if String.eqb c "insufficient_quota" then QuotaExceeded
      else if String.eqb c "invalid_request_error" then InvalidRequest
      else EngineUnavailable
  | None => EngineUnavailable
  end.

(** [env] with another tool registry. *)
Definition with_tools (tools : string -> option (jsval -> tool_outcome))
    (env : Env) : Env :=
  {| completions_create := completions_create env;
     useCache := useCache env;
     uuidv4 := uuidv4 env;
     availableTools := tools |}.

(** What a turn did with [res] or [next], and the calls it made. *)
Definition reply_of {S : Type} (r : option (chat_outcome * list call * world S))
  : option (chat_outcome * list call) :=
  (fun x => x.1) <$> r.

(** The world a turn leaves. *)
Definition world_after {S : Type} (w : world S)
    (r : option (chat_outcome * list call * world S)) : world S :=
  match r with
  | Some (_, _, w') => w'
  | None => w
  end.

Section FirstCall.
Context (env : Env) {S : Type}.
Context (callOpenAI : jsval -> string -> call_options -> Z -> S -> call_result * S).

(** The prompt of the first call of a turn, and the world after it. *)
Definition first_prompt (req : chat_request) (w : world S) : jsval :=
  buildChatPrompt (history_of (fst (currentSession env req w)) w ++ [user_message req]).

Definition first_answer (req : chat_request) (w : world S) : call_result * S :=
  callOpenAI (first_prompt req w) (agentType_of req) chat_options (now w) (svc w).

Definition after_first_call (req : chat_request) (w : world S) : world S :=
  with_svc (snd (first_answer req w))
    (push (fst (currentSession env req w)) (user_message req)
       (snd (currentSession env req w))).

End FirstCall.

(** The worlds the service can be in: it starts with an empty cache, and
    then chat turns are handled, other controllers call [callOpenAI], keys
    are deleted, the cache is flushed, and time passes. *)
Inductive reachable (host : JsHost) (env : Env) : world service_state -> Prop :=
| reachable_start w :
    memoryCache (svc w) = ∅ -> reachable host env w
| reachable_chat w req out calls w' :
    reachable host env w ->
    chat_service host env req w = Some (out, calls, w') ->
    reachable host env w'
| reachable_call w prompt agentType options :
    reachable host env w ->
    reachable host env
      (with_svc (snd (callOpenAI host env prompt agentType options (now w) (svc w))) w)
| reachable_deleteKey w key :
    reachable host env w ->
    reachable host env
      (with_svc (with_cache (snd (CacheController.deleteKey key (memoryCache (svc w))))
                   (svc w)) w)
| reachable_flushCache w :
    reachable host env w ->
    reachable host env
      (with_svc (with_cache (snd (CacheController.flushCache (memoryCache (svc w))))
                   (svc w)) w)
| reachable_advance w seconds :
    reachable host env w -> reachable host env (advance seconds w).

(** The keys of the cache all start with [ai:]. *)
Definition in_namespace (memoryCache : memory_cache) : Prop :=
  forall key, is_Some (memoryCache !! key) -> startsWith "ai:" key = true.

(** The number a property holds. *)
Definition number (v : jsval) : Z :=
  match v with
  | JNum n => n
  | _ => 0
  end.

(** The rectangle of a block of a layout: [x], [y], [w], [h] of its
    [position]. *)
Definition position_of (block : jsval) : Z * Z * Z * Z :=
  let position := get_field "position" block in
  (number (get_field "x" position), number (get_field "y" position),
   number (get_field "w" position), number (get_field "h" position)).

(** Two rectangles of the grid share a cell. *)
Definition overlap (a b : Z * Z * Z * Z) : bool :=
  let '(x1, y1, w1, h1) := a in
  let '(x2, y2, w2, h2) := b in
  (x1 <? x2 + w2) && (x2 <? x1 + w1) && (y1 <? y2 + h2) && (y2 <? y1 + h1).

(** A block with the four properties a dashboard block must have. *)
Definition block_ok (block : jsval) : bool :=
  truthy (get_field "id" block) && truthy (get_field "type" block)
  && truthy (get_field "title" block) && truthy (get_field "layout" block).

(** A configuration with a titled dashboard whose blocks are all in
    order. *)
Definition well_formed_dashboard (config : jsval) : Prop :=
  exists dashboard blocks,
    prop "dashboard" config = Some dashboard
    /\ truthy (get_field "title" dashboard) = true
    /\ get_field "blocks" dashboard = JArr blocks
    /\ Forall (fun block => block_ok block = true) blocks.

(* ===================================================================== *)
(** * Sample runs *)
(* ===================================================================== *)

(** Concrete collaborators and requests, on which the handlers are run in
    the examples that close the development. *)

Module Sample.

Definition quote : string := String "034" "".

(** A plain rendering of a document, standing for its JSON text. *)
Fixpoint render (v : jsval) : string :=
  match v with
  | JUndefined => "undefined"
  | JNull => "null"
  | JBool true => "true"
  | JBool false => "false"
  | JNum n => pretty n
  | JStr s => quote +:+ s +:+ quote
  | JArr items =>
      "["
      +:+ (fix elements (l : list jsval) : string :=
             match l with
             | [] => ""
             | [x] => render x
             | x :: rest => render x +:+ "," +:+ elements rest
             end) items
      +:+ "]"
  | JObj fields =>
      "{"
      +:+ (fix members (l : list (string * jsval)) : string :=
             match l with
             | [] => ""
             | [(k, x)] => quote +:+ k +:+ quote +:+ ":" +:+ render x
             | (k, x) :: rest =>
                 quote +:+ k +:+ quote +:+ ":" +:+ render x +:+ ","
                 +:+ members rest
             end) fields
      +:+ "}"
  end.

(** The digest is the length of the text here: no statement depends on
    what MD5 computes. *)
Definition host : JsHost :=
  {| md5hex := fun s => pretty (Z.of_nat (String.length s));
     JSON_text := render;
     JSON_parse := fun s => if String.eqb s "{}" then inl (JObj [])
                            else inr "Unexpected end of JSON input";
     ToString_other := render;
     gt_zero_coerced := fun _ => false;
     toISOString := fun _ => "2025-01-01T00:00:00.000Z";
     TypeError_message := fun _ => "Cannot convert undefined or null to object" |}.

(** A completion carrying a final text. *)
Definition completion (text : string) : jsval :=
  JObj [("id", JStr "chatcmpl-1");
        ("choices",
         JArr [JObj [("index", JNum 0);
                     ("message", JObj [("role", JStr "assistant");
                                       ("content", JStr text)]);
                     ("finish_reason", JStr "stop")]]);
        ("model", JStr "gpt-4o-mini");
        ("usage", JObj [("total_tokens", JNum 42)])].

Definition tools (name : string) : option (jsval -> tool_outcome) :=
  if String.eqb name "getServiceHealth" then
    Some (fun _ => ToolReturned (JStr "{status:UP}"))
  else if String.eqb name "prometheusQuery" then
    Some (fun _ => ToolThrew "Cannot destructure property 'query'")
  else None.

(** The endpoint answers every request with the same final text. *)
Definition env : Env :=
  {| completions_create := fun _ _ => Completion (completion "All services are up.");
     useCache := true;
     uuidv4 := fun n => "uuid-" +:+ pretty n;
     availableTools := tools |}.

(** The endpoint fails every request with an error of this [code]. *)
Definition failing (code : option string) : Env :=
  {| completions_create := fun _ _ => ApiError code "connect ETIMEDOUT";
     useCache := true;
     uuidv4 := fun n => "uuid-" +:+ pretty n;
     availableTools := tools |}.

Definition empty_service : service_state :=
  {| memoryCache := ∅; engineLog := []; aiCalls := [] |}.

Definition empty_world : world service_state :=
  {| chatSessions := ∅; uuidCount := 0%nat; now := 0; svc := empty_service |}.

Definition blank {S : Type} (s : S) : world S :=
  {| chatSessions := ∅; uuidCount := 0%nat; now := 0; svc := s |}.

(** A service that always asks for a tool. *)
Definition eager (prompt : jsval) (agentType : string) (options : call_options)
    (t : Z) (s : unit) : call_result * unit :=
  (Returned (JObj [("content", JNull);
                   ("tool_calls",
                    JArr [toolCall "call_1" "getServiceHealth" "{}"])]), s).

Definition two_requests : list (string * string * string) :=
  [("call_a", "unknownTool", "{}"); ("call_b", "getServiceHealth", "{}")].

(** A service that asks for two tools on its first call and gives a final
    text afterwards; its state counts the calls. *)
Definition planner (prompt : jsval) (agentType : string) (options : call_options)
    (t : Z) (n : nat) : call_result * nat :=
  (match n with
   | O => Returned (JObj [("content", JNull);
                          ("tool_calls", JArr (toolCall_of <$> two_requests))])
   | _ => Returned (JObj [("content", JStr "One tool is unknown; health is UP.")])
   end, Datatypes.S n).

Definition hello : chat_request :=
  {| sessionId := Some "s1"; message := "hello"; context := JUndefined;
     user_id := Some "u1" |}.

Definition and_then : chat_request :=
  {| sessionId := Some "s1"; message := "and then?"; context := JUndefined;
     user_id := Some "u1" |}.

(** The same first message, by the same user, in another session. *)
Definition hello_again : chat_request :=
  {| sessionId := Some "s2"; message := "hello"; context := JUndefined;
     user_id := Some "u1" |}.

(** Another user giving the identifier of the first user's session. *)
Definition intruder : chat_request :=
  {| sessionId := Some "s1"; message := "what did we discuss?";
     context := JUndefined; user_id := Some "u2" |}.

End Sample.

(** Further collaborators and requests for the examples. *)

Module Scenario.

(** A prompt as a controller sends it for the agent type [opsAssistant]. *)
Definition status_prompt : jsval := JStr "status?".

Definition no_options : call_options := {| cacheTTL := None |}.

(** The world after the service answered that prompt from an empty
    cache. *)
Definition after_status_call : world service_state :=
  with_svc (snd (callOpenAI Sample.host Sample.env status_prompt "opsAssistant"
                   no_options (now Sample.empty_world) (svc Sample.empty_world)))
    Sample.empty_world.

(** [Sample.env] with [USE_CACHE=false]. *)
Definition uncached : Env :=
  {| completions_create := completions_create Sample.env;
     useCache := false;
     uuidv4 := uuidv4 Sample.env;
     availableTools := Sample.tools |}.

(** The endpoint answers every request with [response]. *)
Definition answering (response : jsval) : Env :=
  {| completions_create := fun _ _ => Completion response;
     useCache := true;
     uuidv4 := uuidv4 Sample.env;
     availableTools := Sample.tools |}.

(** A completion that carries no [usage]. *)
Definition unmetered_completion : jsval :=
  JObj [("choices",
         JArr [JObj [("index", JNum 0);
                     ("message", JObj [("role", JStr "assistant");
                                       ("content", JStr "ok")])]]);
        ("model", JStr "gpt-4o-mini")].

(** A completion that asks for a tool and carries no text. *)
Definition tool_request : jsval :=
  JObj [("choices",
         JArr [JObj [("index", JNum 0);
                     ("message",
                      JObj [("role", JStr "assistant");
                            ("content", JNull);
                            ("tool_calls",
                             JArr [toolCall "call_1" "getServiceHealth" "{}"])]);
                     ("finish_reason", JStr "tool_calls")]]);
        ("model", JStr "gpt-4o-mini");
        ("usage", JObj [("total_tokens", JNum 42)])].

Definition metrics : list jsval :=
  [JStr "cpu_usage"; JObj [("name", JStr "memory_usage")]; JStr "disk_io";
   JStr "network_in"].

(** A stand-in for the prompts of the dashboard controller. *)
Definition prompt_of (a b c : jsval) : string := "suggest".

Definition templates_request : jsval :=
  JObj [("useCase", JStr "Monitoring d'infrastructure");
        ("complexity", JStr "simple")].

(** A configuration the completion endpoint may write, and a host whose
    [JSON.parse] reads the text [generated.json] as that configuration. *)
Definition generated_dashboard : jsval :=
  JObj [("dashboard",
         JObj [("title", JStr "API latency");
               ("blocks",
                JArr [JObj [("id", JStr "b1"); ("type", JStr "line-chart");
                            ("title", JStr "p95 latency");
                            ("layout", JObj [("x", JNum 0); ("y", JNum 0);
                                             ("w", JNum 6); ("h", JNum 3)])]])]);
        ("explanation", JStr "One chart for the latency.")].

Definition reading : JsHost :=
  {| md5hex := md5hex Sample.host;
     JSON_text := JSON_text Sample.host;
     JSON_parse := fun s => if String.eqb s "generated.json"
                            then inl generated_dashboard
                            else inr "Unexpected token";
     ToString_other := ToString_other Sample.host;
     gt_zero_coerced := gt_zero_coerced Sample.host;
     toISOString := toISOString Sample.host;
     TypeError_message := TypeError_message Sample.host |}.

Definition dashboard_request : jsval :=
  JObj [("requirements", JStr "latency of the API")].

Definition dashboard_prompt_of (requirements templateType complexity context : jsval)
  : option string :=
  Some "generate".

Definition blocks_request : jsval :=
  JObj [("dashboardPurpose", JStr "Surveillance des performances d'une API");
        ("focus", JStr "latency")].



(** The prompt and the options of the connectivity probe [checkOpenAI] of
    health.controller.js, which it sends for the agent type
    [opsAssistant]. *)
Definition probe_prompt : jsval :=
  JStr ("Test de connectivité - réponds juste " +:+ Sample.quote +:+ "OK"
        +:+ Sample.quote).

Definition probe_options : call_options := {| cacheTTL := Some 60 |}.

End Scenario.

(* ===================================================================== *)
(** * Part III.  Properties *)
(* ===================================================================== *)

(** ** JSON documents and the cache *)

Section JsvalInduction.
Context (P : jsval -> Prop).
Context (HUndefined : P JUndefined) (HNull : P JNull)
        (HBool : forall b, P (JBool b)) (HNum : forall n, P (JNum n))
        (HStr : forall s, P (JStr s))
        (HArr : forall items, Forall P items -> P (JArr items))
        (HObj : forall fields, Forall (fun kv => P (snd kv)) fields -> P (JObj fields)).

Lemma jsval_nested_ind : forall v, P v.
Proof.
  fix IH 1. intros [ | | b | n | s | items | fields ].
  - exact HUndefined.
  - exact HNull.
  - apply HBool.
  - apply HNum.
  - apply HStr.
  - apply HArr. revert items. fix IHitems 1. intros [ | x items ].
    + constructor.
    + constructor; [ apply IH | apply IHitems ].
  - apply HObj. revert fields. fix IHfields 1. intros [ | [k x] fields ].
    + constructor.
    + constructor; [ apply IH | apply IHfields ].
Qed.
End JsvalInduction.

Lemma json_norm_clean v : json_clean v = true -> json_norm v = v.
Proof.
  induction v as [ | | b | n | s | items IH | fields IH ] using jsval_nested_ind;
    intros Hclean; try reflexivity.
  - simpl in *. f_equal. induction IH as [ | x items Hx _ IHitems ]; [ reflexivity | ].
    simpl in Hclean. apply andb_true_iff in Hclean as [Hcx Hci].
    simpl. rewrite IHitems by assumption. f_equal.
    destruct x; try discriminate; try reflexivity; apply Hx; assumption.
  - simpl in *. f_equal. induction IH as [ | [k x] fields Hx _ IHfields ]; [ reflexivity | ].
    apply andb_true_iff in Hclean as [Hcx Hcf].
    rewrite IHfields by assumption. simpl in Hx.
    destruct x; try discriminate; try reflexivity; f_equal; f_equal; apply Hx; assumption.
Qed.

Lemma stored_text_clean v : json_clean v = true -> stored_text v = Some v.
Proof.
  intros H. unfold stored_text. rewrite (json_norm_clean v H).
  destruct v; try reflexivity. discriminate.
Qed.

Lemma cache_get_set_advance k v t elapsed w :
  json_clean v = true ->
  cache_get k (advance elapsed (cache_set k v t w)) = v.
Proof.
  intros H. unfold cache_get, advance, cache_set, aiCache_get, aiCache_set,
    redisClient_get, redisClient_setEx. simpl.
  rewrite lookup_insert_eq, stored_text_clean by assumption. reflexivity.
Qed.


Lemma redisClient_del_lookup key (memoryCache : memory_cache) k v :
  snd (redisClient_del key memoryCache) !! k = Some v -> memoryCache !! k = Some v.
Proof.
  unfold redisClient_del. destruct (memoryCache !! key); cbn [snd]; [ | auto ].
  intros Hlookup. apply lookup_delete_Some in Hlookup as [_ Hlookup]. exact Hlookup.
Qed.

Lemma redisClient_del_all_lookup keys :
  forall (memoryCache : memory_cache) k v,
    snd (redisClient_del_all keys memoryCache) !! k = Some v ->
    memoryCache !! k = Some v.
Proof.
  induction keys as [ | key keys IH ]; intros memoryCache k v; [ auto | ].
  cbn [redisClient_del_all].
  pose proof (redisClient_del_lookup key memoryCache k v) as Hone.
  destruct (redisClient_del key memoryCache) as [n m1].
  pose proof (IH m1 k v) as Hrest.
  destruct (redisClient_del_all keys m1) as [count m2].
  cbn [snd] in *. auto.
Qed.

(** Deleting a key and flushing only remove entries. *)
Lemma deleteKey_lookup key (memoryCache : memory_cache) k v :
  snd (CacheController.deleteKey key memoryCache) !! k = Some v ->
  memoryCache !! k = Some v.
Proof.
  unfold CacheController.deleteKey.
  destruct (negb (startsWith "ai:" key)); [ auto | ].
  pose proof (redisClient_del_lookup key memoryCache k v) as Hone.
  destruct (redisClient_del key memoryCache) as [deleted m].
  destruct (0 <? deleted); exact Hone.
Qed.

Lemma flushCache_lookup (memoryCache : memory_cache) k v :
  snd (CacheController.flushCache memoryCache) !! k = Some v ->
  memoryCache !! k = Some v.
Proof.
  unfold CacheController.flushCache, aiCache_flush.
  destruct (redisClient_keys "ai:*" memoryCache) as [[ | key keys] | ];
    cbn [snd]; auto.
  apply redisClient_del_all_lookup.
Qed.

(** ** The tool loop *)

Section LoopFacts.
Context (host : JsHost) (env : Env) {S : Type}.
Context (callOpenAI : jsval -> string -> call_options -> Z -> S -> call_result * S).

Local Abbreviation history_of := (@history_of S).
Local Abbreviation push := (@push S).
Local Abbreviation ask := (ask callOpenAI).
Local Abbreviation tool_loop := (tool_loop host env callOpenAI).

Lemma history_push_eq sid m (w : world S) :
  history_of sid (push sid m w) = history_of sid w ++ [m].
Proof. unfold history_of, push. simpl. rewrite lookup_insert_eq. reflexivity. Qed.

Lemma history_push_ne sid sid' m (w : world S) :
  sid <> sid' -> history_of sid' (push sid m w) = history_of sid' w.
Proof.
  intros Hne. unfold history_of, push. simpl.
  rewrite lookup_insert_ne by assumption. reflexivity.
Qed.

Lemma history_push_all sid ms (w : world S) :
  history_of sid (fold_left (fun w output => push sid output w) ms w)
  = history_of sid w ++ ms.
Proof.
  revert w. induction ms as [ | m ms IH ]; intros w; simpl.
  - rewrite app_nil_r. reflexivity.
  - rewrite IH, history_push_eq, <- app_assoc. reflexivity.
Qed.

Lemma history_push_all_ne sid sid' ms (w : world S) :
  sid <> sid' ->
  history_of sid' (fold_left (fun w output => push sid output w) ms w)
  = history_of sid' w.
Proof.
  intros Hne. revert w. induction ms as [ | m ms IH ]; intros w; simpl.
  - reflexivity.
  - rewrite IH, history_push_ne by assumption. reflexivity.
Qed.

Lemma ask_spec sid agentType calls (w : world S) :
  ask sid agentType calls w
  = (fst (callOpenAI (buildChatPrompt (history_of sid w)) agentType
            chat_options (now w) (svc w)),
     calls ++ [(buildChatPrompt (history_of sid w), agentType)],
     with_svc (snd (callOpenAI (buildChatPrompt (history_of sid w)) agentType
                      chat_options (now w) (svc w))) w).
Proof. unfold OpsAssistant.ask. destruct (callOpenAI _ _ _ _ _). reflexivity. Qed.

Lemma history_with_svc sid s (w : world S) :
  history_of sid (with_svc s w) = history_of sid w.
Proof. reflexivity. Qed.

(** One evaluation of the guard and, when it holds, one round. *)
Lemma tool_loop_step fuel sid agentType executionCount responseMessage calls w :
  tool_loop (Datatypes.S fuel) sid agentType executionCount responseMessage calls w
  = match prop "tool_calls" responseMessage with
    | None => Some (Failed "TypeError", calls, w)
    | Some tool_calls =>
        if truthy tool_calls && length_positive host tool_calls
           && (executionCount <? maxToolCalls)%nat
        then
          match tool_calls with
          | JArr toolCalls =>
              match mapM function_name toolCalls with
              | None => Some (Failed "TypeError", calls, w)
              | Some _ =>
                  let w1 := push sid (JObj [("role", JStr "assistant");
                                            ("tool_calls", tool_calls)]) w in
                  match mapM (run_tool_call host env) toolCalls with
                  | None => Some (Failed "TypeError", calls, w1)
                  | Some toolOutputs =>
                      let w2 := fold_left (fun w output => push sid output w)
                                  toolOutputs w1 in
                      match fst (fst (ask sid agentType calls w2)) with
                      | Threw error =>
                          Some (Failed error, snd (fst (ask sid agentType calls w2)),
                                snd (ask sid agentType calls w2))
                      | Returned responseMessage' =>
                          tool_loop fuel sid agentType (Datatypes.S executionCount)
                            responseMessage' (snd (fst (ask sid agentType calls w2)))
                            (snd (ask sid agentType calls w2))
                      end
                  end
              end
          | _ => Some (Failed "TypeError", calls, w)
          end
        else Some (Finished executionCount responseMessage, calls, w)
    end.
Proof.
  simpl. destruct (prop "tool_calls" responseMessage) as [tool_calls | ]; [ | reflexivity ].
  destruct (truthy tool_calls && length_positive host tool_calls
            && (executionCount <? maxToolCalls)%nat); [ | reflexivity ].
  destruct tool_calls; try reflexivity.
  destruct (mapM function_name items); [ | reflexivity ].
  destruct (mapM (run_tool_call host env) items); [ | reflexivity ].
  cbv zeta. destruct (OpsAssistant.ask _ _ _ _ _) as [[r calls'] w'].
  simpl. destruct r; reflexivity.
Qed.

(** An invariant of the calls made and of the world, kept by [push] and by
    every call of the service, is kept by the loop. *)
Section Invariant.
Context (sid agentType : string) (I : list call -> world S -> Prop).
Hypothesis I_push : forall m calls w, I calls w -> I calls (push sid m w).
Hypothesis I_ask : forall calls w,
  I calls w ->
  I (snd (fst (ask sid agentType calls w))) (snd (ask sid agentType calls w)).

Lemma I_push_all ms calls w :
  I calls w -> I calls (fold_left (fun w output => push sid output w) ms w).
Proof.
  revert w. induction ms as [ | m ms IH ]; intros w Hw; simpl; [ assumption | ].
  apply IH, I_push, Hw.
Qed.

Lemma tool_loop_invariant fuel :
  forall executionCount responseMessage calls w res calls' w',
    I calls w ->
    tool_loop fuel sid agentType executionCount responseMessage calls w
    = Some (res, calls', w') ->
    I calls' w'.
Proof.
  induction fuel as [ | fuel IH ]; intros ec rm calls w res calls' w' Hw Hrun;
    [ discriminate | ].
  rewrite tool_loop_step in Hrun.
  destruct (prop "tool_calls" rm) as [tool_calls | ]; [ | congruence ].
  destruct (truthy tool_calls && length_positive host tool_calls
            && (ec <? maxToolCalls)%nat); [ | congruence ].
  destruct tool_calls; try congruence.
  destruct (mapM function_name items); [ | congruence ].
  destruct (mapM (run_tool_call host env) items) as [toolOutputs | ].
  - cbv zeta in Hrun.
    pose proof (I_ask calls _ (I_push_all toolOutputs calls _
                  (I_push (JObj [("role", JStr "assistant"); ("tool_calls", JArr items)])
                     calls w Hw))) as Hnext.
    destruct (fst (fst (ask sid agentType calls _))).
    + eapply IH; eassumption.
    + congruence.
  - injection Hrun as <- <- <-. apply I_push, Hw.
Qed.
End Invariant.

(** The loop returns as soon as the fuel exceeds the rounds still allowed. *)
Lemma tool_loop_total fuel :
  forall sid agentType executionCount responseMessage calls w,
    (maxToolCalls - executionCount < fuel)%nat ->
    is_Some (tool_loop fuel sid agentType executionCount responseMessage calls w).
Proof.
  induction fuel as [ | fuel IH ]; intros sid agentType ec rm calls w Hfuel; [ lia | ].
  rewrite tool_loop_step.
  destruct (prop "tool_calls" rm) as [tool_calls | ]; [ | eauto ].
  destruct (truthy tool_calls && length_positive host tool_calls) ; simpl; [ | eauto ].
  destruct (Nat.ltb_spec ec maxToolCalls) as [Hlt | Hge]; [ | eauto ].
  destruct tool_calls; eauto.
  destruct (mapM function_name items); [ | eauto ].
  destruct (mapM (run_tool_call host env) items); [ | eauto ].
  cbv zeta. destruct (fst (fst (ask _ _ _ _))); [ | eauto ].
  apply IH. lia.
Qed.


(** Every round adds one call, and there are at most [maxToolCalls] of
    them. *)
Lemma tool_loop_calls fuel :
  forall sid agentType executionCount responseMessage calls w res calls' w',
    tool_loop fuel sid agentType executionCount responseMessage calls w
    = Some (res, calls', w') ->
    exists extra,
      calls' = calls ++ extra
      /\ (List.length extra <= maxToolCalls - executionCount)%nat
      /\ match res with
         | Finished executionCount' _ =>
             executionCount' = (executionCount + List.length extra)%nat
         | Failed _ => True
         end.
Proof.
  induction fuel as [ | fuel IH ]; intros sid agentType ec rm calls w res calls' w' Hrun;
    [ discriminate | ].
  assert (Hstop : forall r, Some (r, calls, w) = Some (res, calls', w') ->
            match r with Finished ec' _ => ec' = ec | Failed _ => True end ->
            exists extra, calls' = calls ++ extra
              /\ (List.length extra <= maxToolCalls - ec)%nat
              /\ match res with
                 | Finished ec' _ => ec' = (ec + List.length extra)%nat
                 | Failed _ => True
                 end).
  { intros r [= <- <- <-] Hr. exists []. rewrite app_nil_r. simpl.
    repeat split; [ lia | ]. destruct r; [ lia | exact I ]. }
  rewrite tool_loop_step in Hrun.
  destruct (prop "tool_calls" rm) as [tool_calls | ]; [ | eapply Hstop; [ eassumption | exact I ] ].
  destruct (truthy tool_calls && length_positive host tool_calls); simpl in Hrun;
    [ | eapply Hstop; [ eassumption | reflexivity ] ].
  destruct (Nat.ltb_spec ec maxToolCalls) as [Hlt | Hge];
    [ | eapply Hstop; [ eassumption | reflexivity ] ].
  destruct tool_calls; try (eapply Hstop; [ eassumption | exact I ]).
  destruct (mapM function_name items); [ | eapply Hstop; [ eassumption | exact I ] ].
  destruct (mapM (run_tool_call host env) items) as [toolOutputs | ].
  - cbv zeta in Hrun. rewrite ask_spec in Hrun. simpl in Hrun.
    match type of Hrun with context [ callOpenAI ?p ?a ?o ?n ?s ] =>
      destruct (callOpenAI p a o n s) as [[rm' | error] s'] end; simpl in Hrun.
    + apply IH in Hrun as (extra & -> & Hlen & Hres).
      eexists (_ :: extra). rewrite <- app_assoc. split; [ reflexivity | ].
      simpl. split; [ lia | ]. destruct res; [ lia | exact I ].
    + injection Hrun as <- <- <-. eexists [_]. split; [ reflexivity | ].
      simpl. split; [ lia | exact I ].
  - injection Hrun as <- <- <-. exists []. rewrite app_nil_r. simpl.
    repeat split. lia.
Qed.

Lemma run_tool_call_defined toolCall :
  is_Some (function_name toolCall) -> is_Some (run_tool_call host env toolCall).
Proof.
  unfold function_name, run_tool_call. intros [name Hname].
  destruct toolCall; try discriminate; simpl in *;
    destruct (assoc "function" fields); try discriminate; simpl in *; eauto.
Qed.

Lemma mapM_function_name_defined toolCalls :
  forallb (fun t => bool_decide (is_Some (function_name t))) toolCalls = true ->
  is_Some (mapM function_name toolCalls)
  /\ is_Some (mapM (run_tool_call host env) toolCalls).
Proof.
  intros Hall. rewrite forallb_forall in Hall.
  split; apply mapM_is_Some, Forall_forall; intros t Ht;
    apply list_elem_of_In, Hall in Ht; apply bool_decide_eq_true in Ht;
    [ assumption | apply run_tool_call_defined; assumption ].
Qed.

Lemma run_tool_call_traffic toolCall reply :
  run_tool_call host env toolCall = Some reply -> tool_traffic reply = true.
Proof.
  unfold run_tool_call. intros Hrun.
  destruct (prop "function" toolCall) as [f | ]; [ | discriminate ]. simpl in Hrun.
  destruct (prop "name" f); [ | discriminate ]. simpl in Hrun.
  destruct (prop "id" toolCall); [ | discriminate ]. simpl in Hrun.
  destruct (prop "arguments" f); [ | discriminate ]. simpl in Hrun.
  injection Hrun as <-. reflexivity.
Qed.

Lemma mapM_run_tool_call_traffic toolCalls replies :
  mapM (run_tool_call host env) toolCalls = Some replies ->
  forallb tool_traffic replies = true.
Proof.
  intros Hrun. apply mapM_Some in Hrun.
  induction Hrun as [ | t r ts rs Htr _ IH ]; [ reflexivity | ].
  simpl. rewrite (run_tool_call_traffic _ _ Htr), IH. reflexivity.
Qed.

Lemma run_tool_call_toolCall id name arguments :
  run_tool_call host env (toolCall id name arguments)
  = Some (tool_message id name (reply_content host env name arguments)).
Proof.
  unfold run_tool_call, toolCall, tool_message, reply_content, execute.
  cbn [prop assoc String.eqb Ascii.eqb Bool.eqb mbind option_bind ToString].
  destruct (lookup_tool env name) as [functionToCall | ]; [ | reflexivity ].
  destruct (JSON_parse host arguments) as [functionArgs | error]; [ | reflexivity ].
  destruct (call_tool host functionToCall functionArgs); reflexivity.
Qed.

Lemma mapM_toolCalls requests :
  mapM function_name (toolCall_of <$> requests) = Some ((fun r => JStr r.1.2) <$> requests)
  /\ mapM (run_tool_call host env) (toolCall_of <$> requests)
     = Some ((fun r => tool_message r.1.1 r.1.2 (reply_content host env r.1.2 r.2)) <$> requests).
Proof.
  split; apply mapM_Some_2;
    (induction requests as [ | [[id name] arguments] requests IH ];
     [ constructor | ]);
    rewrite !fmap_cons; (constructor; [ | exact IH ]).
  - reflexivity.
  - apply run_tool_call_toolCall.
Qed.

Lemma tool_loop_exhausts (Halways : always_requests_tools callOpenAI) fuel :
  forall sid agentType executionCount responseMessage calls w,
    requests_tools responseMessage = true ->
    (executionCount <= maxToolCalls)%nat ->
    (maxToolCalls - executionCount < fuel)%nat ->
    exists responseMessage' extra traffic w',
      tool_loop fuel sid agentType executionCount responseMessage calls w
      = Some (Finished maxToolCalls responseMessage', calls ++ extra, w')
      /\ requests_tools responseMessage' = true
      /\ List.length extra = (maxToolCalls - executionCount)%nat
      /\ history_of sid w' = history_of sid w ++ traffic
      /\ forallb tool_traffic traffic = true
      /\ uuidCount w' = uuidCount w /\ now w' = now w.
Proof.
  induction fuel as [ | fuel IH ]; intros sid agentType ec rm calls w Hrm Hle Hfuel;
    [ lia | ].
  rewrite tool_loop_step.
  pose proof Hrm as Hreq. unfold requests_tools in Hreq.
  destruct (prop "tool_calls" rm) as [tool_calls | ]; [ | discriminate ].
  destruct tool_calls as [ | | | | | toolCalls | ]; try discriminate.
  destruct toolCalls as [ | toolCall toolCalls ]; [ discriminate | ].
  cbn [truthy length_positive andb].
  destruct (Nat.ltb_spec ec maxToolCalls) as [Hlt | Hge].
  - destruct (mapM_function_name_defined _ Hreq) as [[names ->] [toolOutputs Hout]].
    rewrite Hout. cbv zeta. rewrite ask_spec. cbn [fst snd].
    match goal with |- context [ callOpenAI ?p ?a ?o ?n ?s ] =>
      destruct (Halways p a o n s) as (rm' & Hcall & Hrm');
      destruct (callOpenAI p a o n s) as [r s'] eqn:Hsvc end.
    simpl in Hcall. subst r. cbn [fst snd].
    edestruct (IH sid agentType (Datatypes.S ec) rm') as
      (rm'' & extra & traffic & w' & -> & Hrm'' & Hlen & Hhist & Htraffic & Huuid & Hnow);
      [ eassumption | lia | lia | ].
    eexists rm'', (_ :: extra), _, w'. rewrite <- app_assoc. split; [ reflexivity | ].
    split; [ assumption | ]. split; [ simpl; lia | ].
    rewrite Hhist, history_with_svc, history_push_all, history_push_eq, <- !app_assoc.
    split; [ reflexivity | ].
    split.
    + rewrite !forallb_app, Htraffic, (mapM_run_tool_call_traffic _ _ Hout). reflexivity.
    + rewrite Huuid, Hnow. clear. generalize (JObj [("role", JStr "assistant");
        ("tool_calls", JArr (toolCall :: toolCalls))]). intros m.
      assert (Hfold : forall ms (w0 : world S),
                uuidCount (fold_left (fun w output => push sid output w) ms w0) = uuidCount w0
                /\ now (fold_left (fun w output => push sid output w) ms w0) = now w0).
      { induction ms as [ | x ms IHms ]; intros w0; simpl; [ auto | exact (IHms (push sid x w0)) ]. }
      apply (Hfold toolOutputs (push sid m w)).
  - assert (ec = maxToolCalls) by lia. subst ec.
    exists rm, [], [], w. rewrite !app_nil_r. repeat split; assumption.
Qed.

(** A round on well-formed requests: whatever the tools do, the replies are
    appended after the request and the service is called again. *)
Lemma tool_loop_round fuel sid agentType executionCount responseMessage calls w
    requests res calls' w' :
  prop "tool_calls" responseMessage = Some (JArr (toolCall_of <$> requests)) ->
  requests <> [] ->
  (executionCount < maxToolCalls)%nat ->
  tool_loop (Datatypes.S fuel) sid agentType executionCount responseMessage calls w
  = Some (res, calls', w') ->
  exists rest,
    calls'
    = calls
      ++ (buildChatPrompt
            (history_of sid w
             ++ JObj [("role", JStr "assistant");
                      ("tool_calls", JArr (toolCall_of <$> requests))]
                :: ((fun r => tool_message r.1.1 r.1.2 (reply_content host env r.1.2 r.2))
                      <$> requests)),
          agentType) :: rest.
Proof.
  intros Hprop Hne Hlt. rewrite tool_loop_step, Hprop.
  assert (Hguard : truthy (JArr (toolCall_of <$> requests))
                   && length_positive host (JArr (toolCall_of <$> requests))
                   && (executionCount <? maxToolCalls)%nat = true).
  { destruct requests as [ | request requests ]; [ contradiction | ].
    rewrite fmap_cons. cbn [truthy length_positive andb].
    apply Nat.ltb_lt, Hlt. }
  rewrite Hguard.
  destruct (mapM_toolCalls requests) as [-> ->].
  cbv zeta. rewrite ask_spec. cbn [fst snd].
  rewrite history_push_all, history_push_eq, <- app_assoc.
  match goal with |- context [ callOpenAI ?p ?a ?o ?n ?s ] =>
    destruct (callOpenAI p a o n s) as [[rm' | error] s'] end; cbn [fst snd].
  - intros Hloop. apply tool_loop_calls in Hloop as (extra & -> & _).
    exists extra. rewrite <- app_assoc. reflexivity.
  - intros [= <- <- <-]. exists []. reflexivity.
Qed.

End LoopFacts.

(** ** Chat turns, for any behaviour of [openAIService.callOpenAI] *)

Section ChatFacts.
Context (host : JsHost) (env : Env) {S : Type}.
Context (callOpenAI : jsval -> string -> call_options -> Z -> S -> call_result * S).

Local Abbreviation chat := (chat host env callOpenAI).

Lemma currentSession_sessions req (w : world S) :
  chatSessions (snd (currentSession env req w)) = chatSessions w
  /\ now (snd (currentSession env req w)) = now w
  /\ svc (snd (currentSession env req w)) = svc w.
Proof.
  unfold currentSession, fresh_uuid.
  destruct (sessionId req) as [sid | ]; [ destruct (String.eqb sid "") | ]; auto.
Qed.

Lemma currentSession_history req sid (w : world S) :
  history_of sid (snd (currentSession env req w)) = history_of sid w.
Proof.
  unfold history_of. destruct (currentSession_sessions req w) as [-> _]. reflexivity.
Qed.

Lemma currentSession_given req sid (w : world S) :
  sessionId req = Some sid -> sid <> "" -> currentSession env req w = (sid, w).
Proof.
  intros Hsid Hne. unfold currentSession. rewrite Hsid.
  destruct (String.eqb_spec sid ""); [ contradiction | reflexivity ].
Qed.

Lemma history_fresh_uuid sid (w : world S) :
  history_of sid (snd (fresh_uuid env w)) = history_of sid w.
Proof. reflexivity. Qed.

(** The statements after the loop, when there is something to say. *)
Lemma conclude_success req sid executionCount responseMessage content calls
    (w : world S) :
  final_content executionCount responseMessage = Some content ->
  truthy responseMessage = true ->
  truthy content = true ->
  conclude host env req sid executionCount responseMessage calls w
  = (ResJson
       (response_body sid (uuidv4 env (uuidCount w)) content
          (toISOString host (now w))
          (Datatypes.S (List.length (history_of sid w)))
          req responseMessage executionCount),
     calls,
     snd (fresh_uuid env
            (push sid (JObj [("role", JStr "assistant"); ("content", content)]) w))).
Proof.
  intros Hcontent Hrm Hc. unfold conclude. rewrite Hcontent, Hrm, Hc.
  cbn [negb orb]. rewrite history_push_eq, length_app, Nat.add_1_r. reflexivity.
Qed.

Lemma conclude_failure req sid executionCount responseMessage calls (w : world S) :
  (final_content executionCount responseMessage = None
   \/ truthy responseMessage = false
   \/ exists content, final_content executionCount responseMessage = Some content
                      /\ truthy content = false) ->
  exists error,
    conclude host env req sid executionCount responseMessage calls w
    = (Next error, calls, w).
Proof.
  unfold conclude. intros [-> | [Hrm | (content & -> & Hc)]].
  - eauto.
  - destruct (final_content _ _); [ rewrite Hrm | ]; eauto.
  - rewrite Hc, orb_true_r. eauto.
Qed.

Lemma conclude_cases req sid executionCount responseMessage calls (w : world S) :
  (exists error,
     conclude host env req sid executionCount responseMessage calls w
     = (Next error, calls, w))
  \/ (exists content,
        final_content executionCount responseMessage = Some content
        /\ truthy responseMessage = true
        /\ truthy content = true
        /\ conclude host env req sid executionCount responseMessage calls w
           = (ResJson
                (response_body sid (uuidv4 env (uuidCount w)) content
                   (toISOString host (now w))
                   (Datatypes.S (List.length (history_of sid w)))
                   req responseMessage executionCount),
              calls,
              snd (fresh_uuid env
                     (push sid (JObj [("role", JStr "assistant");
                                      ("content", content)]) w)))).
Proof.
  destruct (final_content executionCount responseMessage) as [content | ] eqn:Hfc.
  - destruct (truthy responseMessage) eqn:Hrm.
    + destruct (truthy content) eqn:Hc.
      * right. exists content. repeat split; try assumption.
        apply conclude_success; assumption.
      * left. apply conclude_failure. right. right. eauto.
    + left. apply conclude_failure. auto.
  - left. apply conclude_failure. auto.
Qed.

Lemma apology_truthy : truthy (JStr apology) = true.
Proof. reflexivity. Qed.

(** The handler always returns, after at most [maxToolCalls] rounds; a
    reply tells how many rounds there were. *)
Lemma chat_returns req (w : world S) :
  exists out calls w',
    chat req w = Some (out, calls, w')
    /\ (1 <= List.length calls <= Datatypes.S maxToolCalls)%nat
    /\ (forall body, out = ResJson body ->
        get_field "toolsUsedCount" (get_field "metadata" body)
        = JNum (Z.of_nat (List.length calls - 1))).
Proof.
  unfold OpsAssistant.chat.
  destruct (currentSession env req w) as [sid w1].
  rewrite ask_spec.
  destruct (fst (callOpenAI _ _ _ _ _)) as [rm | error].
  - match goal with |- context [ tool_loop ?h ?e ?c ?f ?sid ?a ?ec ?rm ?calls ?w ] =>
      destruct (tool_loop_total h e c f sid a ec rm calls w) as [[[res calls'] w'] Hloop];
        [ unfold maxToolCalls in *; simpl in *; lia | ] end.
    rewrite Hloop.
    destruct (tool_loop_calls _ _ _ _ _ _ _ _ _ _ _ _ _ Hloop) as (extra & -> & Hlen & Hres).
    destruct res as [ec' rm' | error].
    + match goal with |- context [ conclude _ _ _ ?sid _ _ ?c ?x ] =>
        destruct (conclude_cases req sid ec' rm' c x)
          as [[error ->] | (content & _ & _ & _ & ->)] end;
        do 3 eexists; (split; [ reflexivity | ]);
        (split; [ cbn [app List.length]; unfold maxToolCalls in *; simpl in *; lia | ]).
      * intros body [=].
      * intros body [= <-]. cbn [app List.length]. subst ec'.
        rewrite Nat.sub_succ, Nat.sub_0_r. reflexivity.
    + do 3 eexists. split; [ reflexivity | ].
      split; [ cbn [app List.length]; unfold maxToolCalls in *; simpl in *; lia | ].
      intros body [=].
  - do 3 eexists. split; [ reflexivity | ].
    split; [ unfold maxToolCalls in *; simpl in *; lia | intros body [=] ].
Qed.

(** C1.  Whatever [openAIService.callOpenAI] does, every chat turn
    returns, having called it at most [maxToolCalls + 1] times, that is
    after at most [maxToolCalls = 5] tool rounds, the number a reply gives
    as [toolsUsedCount].  When every answer asks for tools, the turn runs
    exactly five rounds, then appends one assistant message holding the
    apology after the tool traffic and replies with [success: true], the
    apology as content and [toolsUsedCount] 5. *)
Theorem chat_tool_loop_bounded req (w : world S) :
  (exists out calls w',
     chat req w = Some (out, calls, w')
     /\ (List.length calls <= Datatypes.S maxToolCalls)%nat
     /\ (forall body, out = ResJson body ->
         exists rounds,
           (rounds <= maxToolCalls)%nat
           /\ get_field "toolsUsedCount" (get_field "metadata" body)
              = JNum (Z.of_nat rounds)))
  /\ (always_requests_tools callOpenAI ->
      exists body calls traffic w',
        chat req w = Some (ResJson body, calls, w')
        /\ List.length calls = Datatypes.S maxToolCalls
        /\ get_field "success" body = JBool true
        /\ get_field "content" (get_field "message" body) = JStr apology
        /\ get_field "toolsUsedCount" (get_field "metadata" body) = JNum 5
        /\ forallb tool_traffic traffic = true
        /\ history_of (fst (currentSession env req w)) w'
           = history_of (fst (currentSession env req w)) w
             ++ [user_message req] ++ traffic
             ++ [JObj [("role", JStr "assistant"); ("content", JStr apology)]]).
Proof.
  split.
  - destruct (chat_returns req w) as (out & calls & w' & Hrun & Hlen & Hcount).
    exists out, calls, w'. split; [ assumption | ]. split; [ lia | ].
    intros body Hbody. exists (List.length calls - 1)%nat.
    split; [ unfold maxToolCalls in *; lia | exact (Hcount body Hbody) ].
  - intros Halways. unfold OpsAssistant.chat.
    pose proof (fun sid => currentSession_history req sid w) as Hsession.
    destruct (currentSession env req w) as [sid w1]. cbn [fst snd] in Hsession |- *.
    rewrite ask_spec.
    match goal with |- context [ callOpenAI ?p ?a ?o ?n ?s ] =>
      destruct (Halways p a o n s) as (rm & Hcall & Hrm) end.
    rewrite Hcall. cbv beta iota.
    match goal with |- context [ tool_loop ?h ?e ?c ?f ?sid ?a ?ec ?rm ?calls ?w ] =>
      destruct (tool_loop_exhausts h e c Halways f sid a ec rm calls w)
        as (rm' & extra & traffic & w' & -> & Hrm' & Hlen & Hhist & Htraffic & _);
        [ assumption | unfold maxToolCalls in *; simpl in *; lia | unfold maxToolCalls in *; simpl in *; lia | ] end.
    assert (Hobj : exists fields, rm' = JObj fields).
    { unfold requests_tools in Hrm'. destruct rm'; try discriminate. eauto. }
    destruct Hobj as [fields ->].
    rewrite (conclude_success _ _ _ _ (JStr apology)) by reflexivity.
    do 4 eexists. split; [ reflexivity | ].
    split; [ simpl; rewrite ?length_app, Hlen; reflexivity | ].
    do 3 (split; [ reflexivity | ]).
    split; [ exact Htraffic | ].
    rewrite history_fresh_uuid, history_push_eq, Hhist, history_with_svc,
      history_push_eq, Hsession, <- !app_assoc.
    reflexivity.
Qed.

(** The first call of a turn carries the history so far and the new user
    message. *)
Lemma chat_first_call req (w : world S) out calls w' :
  chat req w = Some (out, calls, w') ->
  exists rest,
    calls = (buildChatPrompt (history_of (fst (currentSession env req w)) w
                              ++ [user_message req]),
             agentType_of req) :: rest.
Proof.
  unfold OpsAssistant.chat.
  pose proof (fun sid => currentSession_history req sid w) as Hsession.
  destruct (currentSession env req w) as [sid w1]. cbn [fst snd] in Hsession |- *.
  rewrite ask_spec, history_push_eq, Hsession.
  destruct (fst (callOpenAI _ _ _ _ _)) as [rm | error]; cbv beta iota.
  - destruct (tool_loop _ _ _ _ _ _ _ _ _ _) as [[[res calls'] w''] | ] eqn:Hloop;
      [ | discriminate ].
    apply tool_loop_calls in Hloop as (extra & -> & _).
    destruct res as [ec rm' | error].
    + match goal with |- context [ conclude _ _ _ _ _ _ ?c ?x ] =>
        destruct (conclude_cases req sid ec rm' c x)
          as [[error ->] | (content & _ & _ & _ & ->)] end;
        intros [= <- <- <-]; eauto.
    + intros [= <- <- <-]; eauto.
  - intros [= <- <- <-]; eauto.
Qed.

(** A turn only appends to the history of its own session, starting with
    the user message; when it replies, the last message appended is the
    assistant message of the reply. *)
Lemma chat_history req (w : world S) out calls w' :
  chat req w = Some (out, calls, w') ->
  exists added,
    history_of (fst (currentSession env req w)) w'
    = history_of (fst (currentSession env req w)) w ++ user_message req :: added
    /\ (forall sid', sid' <> fst (currentSession env req w) ->
        history_of sid' w' = history_of sid' w)
    /\ (forall body, out = ResJson body ->
        exists traffic,
          added = traffic
                  ++ [JObj [("role", JStr "assistant");
                            ("content", get_field "content" (get_field "message" body))]]).
Proof.
  unfold OpsAssistant.chat.
  pose proof (fun sid => currentSession_history req sid w) as Hsession.
  destruct (currentSession env req w) as [sid w1]. cbn [fst snd] in Hsession |- *.
  rewrite ask_spec.
  set (w2 := with_svc _ (push sid (user_message req) w1)).
  set (I := fun (_ : list call) (x : world S) =>
              (exists added, history_of sid x = history_of sid w ++ user_message req :: added)
              /\ (forall sid', sid' <> sid -> history_of sid' x = history_of sid' w)).
  assert (Hw2 : forall calls, I calls w2).
  { intros ?. split.
    - exists []. unfold w2. rewrite history_with_svc, history_push_eq, Hsession. reflexivity.
    - intros sid' Hne. unfold w2.
      rewrite history_with_svc, history_push_ne, Hsession by congruence. reflexivity. }
  assert (Hpush : forall m calls x, I calls x -> I calls (push sid m x)).
  { intros m ? x [[added Hadd] Hother]. split.
    - exists (added ++ [m]). rewrite history_push_eq, Hadd, <- app_assoc. reflexivity.
    - intros sid' Hne. rewrite history_push_ne by congruence. apply Hother, Hne. }
  destruct (fst (callOpenAI _ _ _ _ _)) as [rm | error]; cbv beta iota.
  - destruct (tool_loop _ _ _ _ _ _ _ _ _ _) as [[[res calls'] w''] | ] eqn:Hloop;
      [ | discriminate ].
    apply (tool_loop_invariant host env callOpenAI sid (agentType_of req) I) in Hloop;
      [ | exact Hpush | | apply Hw2 ].
    + destruct Hloop as [[added Hadd] Hother].
      destruct res as [ec rm' | error].
      * destruct (conclude_cases req sid ec rm' calls' w'')
          as [[error ->] | (content & _ & _ & _ & ->)]; intros [= <- <- <-].
        -- exists added. repeat split; [ assumption | assumption | discriminate ].
        -- exists (added ++ [JObj [("role", JStr "assistant"); ("content", content)]]).
           split; [ | split ].
           ++ unfold history_of at 1. cbn [chatSessions].
              rewrite lookup_insert_eq. cbn [default].
              rewrite Hadd, <- app_assoc. reflexivity.
           ++ intros sid' Hne. unfold history_of at 1. cbn [chatSessions].
              rewrite lookup_insert_ne by congruence. apply Hother, Hne.
           ++ intros body [= <-]. exists added. reflexivity.
      * intros [= <- <- <-].
        exists added. repeat split; [ assumption | assumption | discriminate ].
    + intros calls0 x Hx. rewrite ask_spec. cbn [fst snd].
      destruct Hx as [Hadd Hother]. split; [ exact Hadd | exact Hother ].
  - intros [= <- <- <-]. destruct (Hw2 []) as [[added Hadd] Hother].
    exists added. repeat split; [ assumption | assumption | discriminate ].
Qed.

(** A round in which one request fails (nothing is found under the name
    of the tool, or its arguments do not parse, or what is found throws
    when called) and a sibling gives a text: the round completes, every
    request gets one tool message tagged with its identifier and tool
    name, the failing one holds the error text, the other one holds its
    text unchanged, and the next call of the service receives them all
    after the assistant's request. *)
Lemma tool_round_reports_failure req (w : world S) responseMessage requests
    bad good output :
  fst (callOpenAI
         (buildChatPrompt (history_of (fst (currentSession env req w)) w
                           ++ [user_message req]))
         (agentType_of req) chat_options (now w) (svc w))
  = Returned responseMessage ->
  prop "tool_calls" responseMessage = Some (JArr (toolCall_of <$> requests)) ->
  In bad requests -> failed (execute host env bad.1.2 bad.2) = true ->
  In good requests ->
  execute host env good.1.2 good.2 = ExecutorReturned (JStr output) ->
  exists out calls w' replies detail,
    chat req w = Some (out, calls, w')
    /\ calls !! 1%nat
       = Some (buildChatPrompt
                 (history_of (fst (currentSession env req w)) w
                  ++ [user_message req]
                  ++ JObj [("role", JStr "assistant");
                           ("tool_calls", JArr (toolCall_of <$> requests))]
                     :: replies),
               agentType_of req)
    /\ Forall2 tagged requests replies
    /\ In (tool_message bad.1.1 bad.1.2 (JStr ("Erreur: " +:+ detail))) replies
    /\ In (tool_message good.1.1 good.1.2 (JStr output)) replies.
Proof.
  intros Hanswer Hprop Hbad Hfailed Hgood Hok.
  destruct (chat_returns req w) as (out & calls & w' & Hrun & _).
  exists out, calls, w',
    ((fun r => tool_message r.1.1 r.1.2 (reply_content host env r.1.2 r.2)) <$> requests).
  assert (Hdetail : exists detail,
            reply_content host env bad.1.2 bad.2 = JStr ("Erreur: " +:+ detail)).
  { unfold reply_content. destruct (execute host env bad.1.2 bad.2); try discriminate; eauto. }
  destruct Hdetail as [detail Hdetail]. exists detail.
  split; [ exact Hrun | ]. split; [ | split; [ | split ] ].
  - revert Hrun. unfold OpsAssistant.chat.
    pose proof (fun sid => currentSession_history req sid w) as Hsession.
    destruct (currentSession_sessions req w) as (_ & Hnow & Hsvc).
    destruct (currentSession env req w) as [sid w1].
    cbn [fst snd] in Hsession, Hnow, Hsvc, Hanswer |- *.
    rewrite ask_spec, history_push_eq, Hsession.
    change (now (push sid (user_message req) w1)) with (now w1).
    change (svc (push sid (user_message req) w1)) with (svc w1).
    rewrite Hnow, Hsvc, Hanswer. cbv beta iota.
    destruct (tool_loop _ _ _ _ _ _ _ _ _ _) as [[[res calls'] w''] | ] eqn:Hloop;
      [ | discriminate ].
    apply (tool_loop_round host env callOpenAI _ _ _ _ _ _ _ requests) in Hloop
      as [rest ->]; [ | assumption | intros ->; contradiction
                      | unfold maxToolCalls; lia ].
    rewrite history_with_svc, history_push_eq, Hsession, <- app_assoc.
    destruct res as [ec rm' | error].
    + match goal with |- context [ conclude _ _ _ _ _ _ ?c ?x ] =>
        destruct (conclude_cases req sid ec rm' c x)
          as [[error ->] | (content & _ & _ & _ & ->)] end;
        intros [= <- <- <-]; rewrite <- app_assoc; reflexivity.
    + intros [= <- <- <-]. rewrite <- app_assoc. reflexivity.
  - apply Forall2_fmap_r, Forall_Forall2_diag, Forall_forall.
    intros request _. repeat split.
  - rewrite <- Hdetail. apply (in_map (fun r => tool_message r.1.1 r.1.2
                                  (reply_content host env r.1.2 r.2)) _ _ Hbad).
  - replace (JStr output) with (reply_content host env good.1.2 good.2)
      by (unfold reply_content; rewrite Hok; reflexivity).
    apply (in_map (fun r => tool_message r.1.1 r.1.2
                     (reply_content host env r.1.2 r.2)) _ _ Hgood).
Qed.

End ChatFacts.

(** ** The service *)

Section ServiceFacts.
Context (host : JsHost) (env : Env).

Local Abbreviation callOpenAI := (callOpenAI host env).

Lemma shaped_no_tool_calls v :
  result_shaped v || fallback_shaped v = true ->
  prop "tool_calls" v = Some JUndefined
  /\ get_field "cached" v = JUndefined
  /\ truthy v = true.
Proof.
  intros Hshape. apply orb_true_iff in Hshape as [Hres | Hfb].
  - destruct v as [ | | | | | | fields ]; try discriminate.
    unfold result_shaped in Hres.
    assert (Hkeys : forall k, existsb (String.eqb k) result_keys = false ->
                              assoc k fields = JUndefined).
    { intros k Hk. induction fields as [ | [k' x] fields IH ]; [ reflexivity | ].
      cbn [forallb fst] in Hres. apply andb_true_iff in Hres as [Hk' Hrest].
      cbn [assoc]. destruct (String.eqb_spec k k') as [<- | _].
      - congruence.
      - apply IH, Hrest. }
    unfold prop, get_field.
    rewrite !Hkeys by reflexivity. repeat split.
  - destruct v as [ | | | | | | fields ]; try discriminate.
    destruct fields as [ | [k1 x1] [ | [k2 x2] fields ] ]; try discriminate.
    destruct x2 as [ | | [ | ] | | | | ]; try discriminate;
      destruct fields; try discriminate.
    cbn [fallback_shaped] in Hfb. apply andb_true_iff in Hfb as [H1 H2].
    apply String.eqb_eq in H1, H2. subst. repeat split.
Qed.

Lemma json_norm_shaped v : result_shaped v = true -> result_shaped (json_norm v) = true.
Proof.
  destruct v as [ | | | | | | fields ]; try discriminate.
  unfold result_shaped. cbn [json_norm].
  induction fields as [ | [k x] fields IH ]; [ reflexivity | ].
  cbn [forallb fst]. intros Hall. apply andb_true_iff in Hall as [Hk Hrest].
  destruct x; cbn [forallb fst]; rewrite ?Hk; auto.
Qed.

Lemma getFallbackResponse_shaped agentType prompt :
  fallback_shaped (getFallbackResponse host agentType prompt) = true.
Proof.
  unfold getFallbackResponse.
  repeat match goal with |- context [ if ?b then _ else _ ] => destruct b end;
    reflexivity.
Qed.

Lemma on_error_spec code message agentType prompt s :
  on_error host code message agentType prompt s
  = (match classify code with
     | RateLimited =>
         Threw "Limite de taux API dépassée. Veuillez réessayer plus tard."
     | QuotaExceeded => Threw "Quota API insuffisant."
     | InvalidRequest => Threw ("Requête invalide: " +:+ message)
     | EngineUnavailable => Returned (getFallbackResponse host agentType prompt)
     end,
     recordAICall agentType "error" false s).
Proof.
  unfold on_error, classify. destruct code as [c | ]; [ | reflexivity ].
  destruct (String.eqb c "rate_limit_exceeded"); [ reflexivity | ].
  destruct (String.eqb c "insufficient_quota"); [ reflexivity | ].
  destruct (String.eqb c "invalid_request_error"); reflexivity.
Qed.

Lemma on_error_shaped code message agentType prompt s v :
  fst (on_error host code message agentType prompt s) = Returned v ->
  fallback_shaped v = true.
Proof.
  rewrite on_error_spec. cbn [fst].
  destruct (classify code); intros [= <-]. apply getFallbackResponse_shaped.
Qed.

Lemma on_error_cache code message agentType prompt s :
  memoryCache (snd (on_error host code message agentType prompt s)) = memoryCache s.
Proof. rewrite on_error_spec. reflexivity. Qed.

(** The key under which [callOpenAI] reads and writes the cache for an
    array of messages. *)
Lemma cache_key_of_array items agentType :
  cache_key_of host (JArr items) agentType
  = Some ("ai:" +:+ agentType +:+ ":" +:+ md5hex host (JSON_text host (JArr items))).
Proof. reflexivity. Qed.

(** What [callOpenAI] returns has the shape of a result or of a fallback,
    as long as the cache only holds results. *)
Lemma callOpenAI_shaped prompt agentType options t s v :
  cache_shaped (memoryCache s) ->
  fst (callOpenAI prompt agentType options t s) = Returned v ->
  result_shaped v || fallback_shaped v = true.
Proof.
  intros Hcache. unfold OpenAIService.callOpenAI.
  destruct (cache_key_of host prompt agentType) as [key | ];
    [ | intros Hv; apply on_error_shaped in Hv; rewrite Hv; apply orb_true_r ].
  destruct (useCache env && truthy (aiCache_get key (memoryCache s))) eqn:Hhit.
  - cbn [fst]. intros [= <-]. apply andb_true_iff in Hhit as [_ Htruthy].
    unfold aiCache_get, redisClient_get in *.
    destruct (memoryCache s !! key) as [[doc | ] | ] eqn:Hlookup; try discriminate.
    rewrite (Hcache key doc Hlookup). reflexivity.
  - destruct (completions_create env _ _) as [response | code message];
      [ | intros Hv; apply on_error_shaped in Hv; rewrite Hv; apply orb_true_r ].
    destruct (invalid_response response);
      [ intros Hv; apply on_error_shaped in Hv; rewrite Hv; apply orb_true_r | ].
    destruct (prop "total_tokens" (get_field "usage" response));
      [ | intros Hv; apply on_error_shaped in Hv; rewrite Hv; apply orb_true_r ].
    cbn [fst]. intros [= <-]. reflexivity.
Qed.

(** [callOpenAI] only ever writes results into the cache. *)
Lemma callOpenAI_cache_shaped prompt agentType options t s :
  cache_shaped (memoryCache s) ->
  cache_shaped (memoryCache (snd (callOpenAI prompt agentType options t s))).
Proof.
  intros Hcache. unfold OpenAIService.callOpenAI.
  destruct (cache_key_of host prompt agentType) as [key | ];
    [ | rewrite on_error_cache; assumption ].
  destruct (useCache env && truthy (aiCache_get key (memoryCache s))); [ assumption | ].
  destruct (completions_create env _ _) as [response | code message];
    [ | rewrite on_error_cache; assumption ].
  destruct (invalid_response response); [ rewrite on_error_cache; assumption | ].
  assert (Hset : cache_shaped
            (memoryCache
               (recordAICall agentType "success" false
                  (if useCache env
                   then with_cache
                          (snd (aiCache_set key (result_of host response agentType t)
                                  match cacheTTL options with
                                  | Some t0 => if t0 =? 0 then 3600 else t0
                                  | None => 3600
                                  end
                                  (memoryCache (log_request (messages_of prompt agentType) s))))
                          (log_request (messages_of prompt agentType) s)
                   else log_request (messages_of prompt agentType) s)))).
  { destruct (useCache env); [ | assumption ].
    intros k doc. cbn. unfold redisClient_setEx.
    destruct (decide (key = k)) as [<- | Hne].
    - rewrite lookup_insert_eq. intros [= <-].
      apply (json_norm_shaped (result_of host response agentType t)). reflexivity.
    - rewrite lookup_insert_ne by assumption. apply Hcache. }
  destruct (prop "total_tokens" (get_field "usage" response));
    [ exact Hset | rewrite on_error_cache; exact Hset ].
Qed.

(** [callOpenAI] leaves every cache entry but the one under its key. *)
Lemma callOpenAI_frame prompt agentType options t s key :
  cache_key_of host prompt agentType <> Some key ->
  memoryCache (snd (callOpenAI prompt agentType options t s)) !! key
  = memoryCache s !! key.
Proof.
  intros Hkey. unfold OpenAIService.callOpenAI.
  destruct (cache_key_of host prompt agentType) as [cacheKey | ];
    [ | rewrite on_error_cache; reflexivity ].
  destruct (useCache env && truthy (aiCache_get cacheKey (memoryCache s)));
    [ reflexivity | ].
  destruct (completions_create env _ _) as [response | code message];
    [ | rewrite on_error_cache; reflexivity ].
  destruct (invalid_response response); [ rewrite on_error_cache; reflexivity | ].
  destruct (prop "total_tokens" (get_field "usage" response));
    rewrite ?on_error_cache; cbn [snd memoryCache recordAICall];
    (destruct (useCache env); [ | reflexivity ]);
    cbn; unfold redisClient_setEx; rewrite lookup_insert_ne by congruence; reflexivity.
Qed.

(** A hit: the cache answers and the endpoint is not called. *)
Lemma callOpenAI_hit prompt agentType options t s key :
  cache_key_of host prompt agentType = Some key ->
  useCache env = true ->
  truthy (aiCache_get key (memoryCache s)) = true ->
  callOpenAI prompt agentType options t s
  = (Returned (aiCache_get key (memoryCache s)),
     recordAICall agentType "success" true s).
Proof.
  intros Hkey Huse Hhit. unfold OpenAIService.callOpenAI.
  rewrite Hkey, Huse, Hhit. reflexivity.
Qed.

(** A miss followed by a failure of the endpoint. *)
Lemma callOpenAI_failure prompt agentType options t s code message :
  (forall key, cache_key_of host prompt agentType = Some key ->
               useCache env && truthy (aiCache_get key (memoryCache s)) = false) ->
  is_Some (cache_key_of host prompt agentType) ->
  completions_create env (List.length (engineLog s)) (messages_of prompt agentType)
  = ApiError code message ->
  callOpenAI prompt agentType options t s
  = on_error host code message agentType prompt
      (log_request (messages_of prompt agentType) s).
Proof.
  intros Hmiss [key Hkey] Hfail. unfold OpenAIService.callOpenAI.
  rewrite Hkey, (Hmiss key Hkey), Hfail. reflexivity.
Qed.

End ServiceFacts.

(** ** Chat turns on the service *)

Section PlainTurn.
Context (host : JsHost) (env : Env) {S : Type}.
Context (callOpenAI : jsval -> string -> call_options -> Z -> S -> call_result * S).

Lemma chat_unfold req (w : world S) :
  chat host env callOpenAI req w
  = match fst (first_answer env callOpenAI req w) with
    | Threw error =>
        Some (Next error, [(first_prompt env req w, agentType_of req)],
              after_first_call env callOpenAI req w)
    | Returned responseMessage =>
        match tool_loop host env callOpenAI (Datatypes.S maxToolCalls)
                (fst (currentSession env req w)) (agentType_of req) 0
                responseMessage [(first_prompt env req w, agentType_of req)]
                (after_first_call env callOpenAI req w) with
        | None => None
        | Some (Failed error, calls, w') => Some (Next error, calls, w')
        | Some (Finished executionCount responseMessage, calls, w') =>
            Some (conclude host env req (fst (currentSession env req w))
                    executionCount responseMessage calls w')
        end
    end.
Proof.
  unfold chat, after_first_call, first_answer, first_prompt.
  pose proof (fun sid => currentSession_history env req sid w) as Hsession.
  destruct (currentSession_sessions env req w) as (_ & Hnow & Hsvc).
  destruct (currentSession env req w) as [sid w1].
  cbn [fst snd] in *.
  rewrite ask_spec, history_push_eq, Hsession.
  change (now (push sid (user_message req) w1)) with (now w1).
  change (svc (push sid (user_message req) w1)) with (svc w1).
  rewrite Hnow, Hsvc.
  destruct (fst (callOpenAI _ _ _ _ _)); reflexivity.
Qed.

(** A turn whose first answer asks for no tool makes one call and goes
    straight to the closing statements. *)
Lemma chat_without_tools req (w : world S) responseMessage tool_calls :
  fst (first_answer env callOpenAI req w) = Returned responseMessage ->
  prop "tool_calls" responseMessage = Some tool_calls ->
  truthy tool_calls = false ->
  chat host env callOpenAI req w
  = Some (conclude host env req (fst (currentSession env req w)) 0
            responseMessage [(first_prompt env req w, agentType_of req)]
            (after_first_call env callOpenAI req w)).
Proof.
  intros Hanswer Hprop Hfalsy. rewrite chat_unfold, Hanswer, tool_loop_step, Hprop, Hfalsy.
  reflexivity.
Qed.

Lemma chat_threw req (w : world S) error :
  fst (first_answer env callOpenAI req w) = Threw error ->
  chat host env callOpenAI req w
  = Some (Next error, [(first_prompt env req w, agentType_of req)],
          after_first_call env callOpenAI req w).
Proof. intros Hanswer. rewrite chat_unfold, Hanswer. reflexivity. Qed.

End PlainTurn.

(** ** Two turns on one session *)

Section Sessions.
Context (host : JsHost) (env : Env) {S : Type}.
Context (callOpenAI : jsval -> string -> call_options -> Z -> S -> call_result * S).

Local Abbreviation chat := (chat host env callOpenAI).

(** A turn whose first answer carries a text and asks for no tool replies
    with that text, and leaves the user message and the text at the end of
    the history. *)
Lemma chat_final_text req (w : world S) answer tool_calls :
  fst (first_answer env callOpenAI req w) = Returned answer ->
  prop "tool_calls" answer = Some tool_calls ->
  truthy tool_calls = false ->
  truthy (get_field "content" answer) = true ->
  exists body w',
    chat req w
    = Some (ResJson body, [(first_prompt env req w, agentType_of req)], w')
    /\ get_field "content" (get_field "message" body) = get_field "content" answer
    /\ history_of (fst (currentSession env req w)) w'
       = history_of (fst (currentSession env req w)) w
         ++ [JObj [("role", JStr "user"); ("content", JStr (message req))];
             JObj [("role", JStr "assistant");
                   ("content", get_field "content" answer)]].
Proof.
  intros Hanswer Hprop Hfalsy Hcontent.
  assert (Htruthy : truthy answer = true).
  { destruct answer; try discriminate Hcontent. reflexivity. }
  rewrite (chat_without_tools host env callOpenAI req w answer tool_calls
             Hanswer Hprop Hfalsy).
  rewrite (conclude_success host env req _ 0 answer (get_field "content" answer))
    by (first [ reflexivity | assumption ]).
  eexists _, _. split; [ reflexivity | ]. split; [ reflexivity | ].
  rewrite history_fresh_uuid, history_push_eq.
  unfold after_first_call.
  rewrite history_with_svc, history_push_eq, currentSession_history, <- app_assoc.
  reflexivity.
Qed.

(** Two turns in a row on the same given session: the first call of the
    second turn carries the system instruction, the history from before
    the first turn, the first user message, what the first turn appended
    after it, and the second user message. *)
Lemma two_turns req1 req2 sid (w0 : world S) :
  sessionId req1 = Some sid -> sessionId req2 = Some sid -> sid <> "" ->
  exists out1 calls1 w1 out2 calls2 w2 between rest added,
    chat req1 w0 = Some (out1, calls1, w1)
    /\ chat req2 w1 = Some (out2, calls2, w2)
    /\ history_of sid w1
       = history_of sid w0
         ++ JObj [("role", JStr "user"); ("content", JStr (message req1))] :: between
    /\ calls2
       = (JArr (JObj [("role", JStr "system"); ("content", JStr system_instruction)]
                :: history_of sid w1
                   ++ [JObj [("role", JStr "user"); ("content", JStr (message req2))]]),
          agentType_of req2) :: rest
    /\ history_of sid w2
       = history_of sid w1
         ++ JObj [("role", JStr "user"); ("content", JStr (message req2))] :: added
    /\ (forall body1, out1 = ResJson body1 ->
        exists traffic,
          between = traffic
                    ++ [JObj [("role", JStr "assistant");
                              ("content",
                               get_field "content" (get_field "message" body1))]])
    /\ (forall answer tool_calls,
          fst (callOpenAI
                 (JArr (JObj [("role", JStr "system");
                              ("content", JStr system_instruction)]
                        :: history_of sid w0
                           ++ [JObj [("role", JStr "user");
                                     ("content", JStr (message req1))]]))
                 (agentType_of req1) chat_options (now w0) (svc w0))
          = Returned answer ->
          prop "tool_calls" answer = Some tool_calls ->
          truthy tool_calls = false ->
          truthy (get_field "content" answer) = true ->
          exists body1,
            out1 = ResJson body1
            /\ get_field "content" (get_field "message" body1)
               = get_field "content" answer
            /\ between = [JObj [("role", JStr "assistant");
                                ("content", get_field "content" answer)]]).
Proof.
  intros Hsid1 Hsid2 Hne.
  destruct (chat_returns host env callOpenAI req1 w0) as (out1 & calls1 & w1 & Hrun1 & _).
  destruct (chat_history host env callOpenAI _ _ _ _ _ Hrun1)
    as (between & Hhist1 & _ & Hreply).
  rewrite (currentSession_given env req1 sid w0 Hsid1 Hne) in Hhist1. cbn [fst] in Hhist1.
  destruct (chat_returns host env callOpenAI req2 w1) as (out2 & calls2 & w2 & Hrun2 & _).
  destruct (chat_first_call host env callOpenAI _ _ _ _ _ Hrun2) as [rest Hcalls].
  rewrite (currentSession_given env req2 sid w1 Hsid2 Hne) in Hcalls. cbn [fst] in Hcalls.
  destruct (chat_history host env callOpenAI _ _ _ _ _ Hrun2) as (added & Hhist2 & _).
  rewrite (currentSession_given env req2 sid w1 Hsid2 Hne) in Hhist2. cbn [fst] in Hhist2.
  exists out1, calls1, w1, out2, calls2, w2, between, rest, added.
  split; [ exact Hrun1 | ]. split; [ exact Hrun2 | ]. split; [ exact Hhist1 | ].
  split; [ exact Hcalls | ]. split; [ exact Hhist2 | ]. split; [ exact Hreply | ].
  intros answer tool_calls Hanswer Hprop Hfalsy Hcontent.
  destruct (chat_final_text req1 w0 answer tool_calls) as (body1 & w1' & Hrun1' & Hbody & Hh);
    [ unfold first_answer, first_prompt;
      rewrite (currentSession_given env req1 sid w0 Hsid1 Hne); exact Hanswer
    | assumption .. | ].
  rewrite Hrun1 in Hrun1'. injection Hrun1' as -> _ <-.
  rewrite (currentSession_given env req1 sid w0 Hsid1 Hne) in Hh. cbn [fst] in Hh.
  rewrite Hhist1 in Hh. apply app_inv_head in Hh. injection Hh as ->.
  exists body1. repeat split. exact Hbody.
Qed.

(** C7.  Two consecutive turns on the same session.  The second turn first
    calls the service with the system instruction followed by the history
    of the session in insertion order: what was there before, the first
    user message, what the first turn appended after it, and the second
    user message.  When the first turn replied, what it appended ends with
    the assistant message of its reply; and when the first answer of the
    service carried a text and no tool call, the first turn did reply with
    that text, and the list is exactly the system instruction, the earlier
    history, the first user message, that assistant message and the second
    user message. *)
Theorem session_continuity req1 req2 sid (w0 : world S) :
  sessionId req1 = Some sid -> sessionId req2 = Some sid -> sid <> "" ->
  let system := JObj [("role", JStr "system"); ("content", JStr system_instruction)] in
  let user1 := JObj [("role", JStr "user"); ("content", JStr (message req1))] in
  let user2 := JObj [("role", JStr "user"); ("content", JStr (message req2))] in
  exists out1 calls1 w1,
    chat req1 w0 = Some (out1, calls1, w1)
    /\ exists out2 calls2 w2 between rest,
         chat req2 w1 = Some (out2, calls2, w2)
         /\ calls2
            = (JArr (system :: history_of sid w0 ++ [user1] ++ between ++ [user2]),
               agentType_of req2) :: rest
         /\ (forall body1, out1 = ResJson body1 ->
             exists traffic,
               between = traffic
                         ++ [JObj [("role", JStr "assistant");
                                   ("content",
                                    get_field "content"
                                      (get_field "message" body1))]])
         /\ (forall answer tool_calls,
               fst (callOpenAI (JArr (system :: history_of sid w0 ++ [user1]))
                      (agentType_of req1) chat_options (now w0) (svc w0))
               = Returned answer ->
               prop "tool_calls" answer = Some tool_calls ->
               truthy tool_calls = false ->
               truthy (get_field "content" answer) = true ->
               exists body1,
                 out1 = ResJson body1
                 /\ get_field "content" (get_field "message" body1)
                    = get_field "content" answer
                 /\ calls2
                    = (JArr (system
                             :: history_of sid w0
                                ++ [user1;
                                    JObj [("role", JStr "assistant");
                                          ("content", get_field "content" answer)];
                                    user2]),
                       agentType_of req2) :: rest).
Proof.
  intros Hsid1 Hsid2 Hne system user1 user2.
  destruct (two_turns req1 req2 sid w0 Hsid1 Hsid2 Hne)
    as (out1 & calls1 & w1 & out2 & calls2 & w2 & between & rest & added
        & Hrun1 & Hrun2 & Hhist1 & Hcalls & _ & Hreply & Hplain).
  exists out1, calls1, w1. split; [ exact Hrun1 | ].
  exists out2, calls2, w2, between, rest. split; [ exact Hrun2 | ].
  assert (Hlist : calls2
                  = (JArr (system :: history_of sid w0 ++ [user1] ++ between ++ [user2]),
                     agentType_of req2) :: rest).
  { rewrite Hcalls, Hhist1, <- app_assoc. reflexivity. }
  split; [ exact Hlist | ]. split; [ exact Hreply | ].
  intros answer tool_calls Hanswer Hprop Hfalsy Hcontent.
  destruct (Hplain answer tool_calls Hanswer Hprop Hfalsy Hcontent)
    as (body1 & Hout & Hbody & Hbetween).
  exists body1. split; [ exact Hout | ]. split; [ exact Hbody | ].
  rewrite Hlist, Hbetween. reflexivity.
Qed.

(** C10.  The session is found by [sessionId] alone.  When a second user
    sends a turn with the identifier a first user used, the turn reads the
    history the first user's turn left under that identifier, which holds
    the first user's message and, when that turn replied, the answer it
    was given; the call made for the second user, under the agent type of
    the second user, carries all of it before the second user's message;
    and the turn extends that same history.  When the first answer of the
    service carried a text and no tool call, the first turn did reply with
    that text, and the text is in the call made for the second user. *)
Theorem session_shared_between_users req1 req2 sid u1 u2 (w0 : world S) :
  user_id req1 = Some u1 -> user_id req2 = Some u2 -> u1 <> u2 -> u2 <> "" ->
  sessionId req1 = Some sid -> sessionId req2 = Some sid -> sid <> "" ->
  let user1 := JObj [("role", JStr "user"); ("content", JStr (message req1))] in
  let user2 := JObj [("role", JStr "user"); ("content", JStr (message req2))] in
  exists out1 calls1 w1,
    chat req1 w0 = Some (out1, calls1, w1)
    /\ exists out2 calls2 w2 messages rest left added,
         chat req2 w1 = Some (out2, calls2, w2)
         /\ history_of sid w1 = history_of sid w0 ++ user1 :: left
         /\ calls2 = (JArr messages, "chat-" +:+ u2) :: rest
         /\ messages
            = JObj [("role", JStr "system"); ("content", JStr system_instruction)]
              :: history_of sid w1 ++ [user2]
         /\ In user1 messages
         /\ history_of sid w2 = history_of sid w1 ++ user2 :: added
         /\ (forall body1, out1 = ResJson body1 ->
             In (JObj [("role", JStr "assistant");
                       ("content",
                        get_field "content" (get_field "message" body1))])
                messages)
         /\ (forall answer tool_calls,
               fst (callOpenAI
                      (JArr (JObj [("role", JStr "system");
                                   ("content", JStr system_instruction)]
                             :: history_of sid w0 ++ [user1]))
                      ("chat-" +:+ (if String.eqb u1 "" then "anonymous-dev" else u1))
                      chat_options (now w0) (svc w0))
               = Returned answer ->
               prop "tool_calls" answer = Some tool_calls ->
               truthy tool_calls = false ->
               truthy (get_field "content" answer) = true ->
               exists body1,
                 out1 = ResJson body1
                 /\ get_field "content" (get_field "message" body1)
                    = get_field "content" answer
                 /\ In (JObj [("role", JStr "assistant");
                              ("content", get_field "content" answer)])
                      messages).
Proof.
  intros Hu1 Hu2 Hdiff Hu2ne Hsid1 Hsid2 Hne user1 user2.
  destruct (two_turns req1 req2 sid w0 Hsid1 Hsid2 Hne)
    as (out1 & calls1 & w1 & out2 & calls2 & w2 & between & rest & added
        & Hrun1 & Hrun2 & Hhist1 & Hcalls & Hhist2 & Hreply & Hplain).
  assert (Hagent2 : agentType_of req2 = "chat-" +:+ u2).
  { unfold agentType_of, userId_of. rewrite Hu2.
    destruct (String.eqb_spec u2 ""); [ contradiction | reflexivity ]. }
  assert (Hagent1 : agentType_of req1
                    = "chat-" +:+ (if String.eqb u1 "" then "anonymous-dev" else u1)).
  { unfold agentType_of, userId_of. rewrite Hu1. reflexivity. }
  rewrite Hagent2 in Hcalls. rewrite Hagent1 in Hplain.
  exists out1, calls1, w1. split; [ exact Hrun1 | ].
  exists out2, calls2, w2,
    (JObj [("role", JStr "system"); ("content", JStr system_instruction)]
     :: history_of sid w1 ++ [user2]), rest, between, added.
  split; [ exact Hrun2 | ]. split; [ exact Hhist1 | ]. split; [ exact Hcalls | ].
  split; [ reflexivity | ].
  split; [ | split; [ exact Hhist2 | split ] ].
  - right. rewrite Hhist1, !in_app_iff. left. right. left. reflexivity.
  - intros body1 Hbody. destruct (Hreply body1 Hbody) as [traffic Hbetween].
    right. rewrite Hhist1, Hbetween, !in_app_iff.
    left. right. right. apply in_app_iff. right. left. reflexivity.
  - intros answer tool_calls Hanswer Hprop Hfalsy Hcontent.
    destruct (Hplain answer tool_calls Hanswer Hprop Hfalsy Hcontent)
      as (body1 & Hout & Hbody & Hbetween).
    exists body1. split; [ exact Hout | ]. split; [ exact Hbody | ].
    right. rewrite Hhist1, Hbetween, !in_app_iff.
    left. right. right. left. reflexivity.
Qed.

End Sessions.

Section ChatServiceFacts.
Context (host : JsHost) (env : Env).

Local Abbreviation service := (callOpenAI host env).
Local Abbreviation answer := (first_answer env service).
Local Abbreviation after := (after_first_call env service).

(** With a cache that only holds results, a turn is one call of the
    service followed by the closing statements. *)
Lemma chat_service_plain req (w : world service_state) :
  cache_shaped (memoryCache (svc w)) ->
  chat_service host env req w
  = Some match fst (answer req w) with
         | Threw error =>
             (Next error, [(first_prompt env req w, agentType_of req)], after req w)
         | Returned responseMessage =>
             conclude host env req (fst (currentSession env req w)) 0
               responseMessage [(first_prompt env req w, agentType_of req)]
               (after req w)
         end.
Proof.
  intros Hcache. unfold chat_service.
  destruct (fst (answer req w)) as [rm | error] eqn:Hanswer.
  - pose proof (callOpenAI_shaped host env _ _ _ _ _ _ Hcache Hanswer) as Hshape.
    apply shaped_no_tool_calls in Hshape as (Hprop & _ & _).
    apply (chat_without_tools host env service req w rm JUndefined Hanswer Hprop).
    reflexivity.
  - apply chat_threw, Hanswer.
Qed.

Lemma after_first_call_cache req (w : world service_state) :
  cache_shaped (memoryCache (svc w)) ->
  cache_shaped (memoryCache (svc (after req w))).
Proof. intros Hcache. apply callOpenAI_cache_shaped, Hcache. Qed.

Lemma after_first_call_history req (w : world service_state) sid :
  history_of sid (after req w)
  = if decide (fst (currentSession env req w) = sid)
    then history_of sid w ++ [user_message req]
    else history_of sid w.
Proof.
  unfold after_first_call. rewrite history_with_svc.
  case_decide as Hsid.
  - subst sid. rewrite history_push_eq, currentSession_history. reflexivity.
  - rewrite history_push_ne, currentSession_history by assumption. reflexivity.
Qed.

(** With a cache that only holds results, the [cached] flag of a reply is
    [false], whether the answer came from the cache or not. *)
Lemma chat_service_cached_flag req (w : world service_state) out calls w' :
  cache_shaped (memoryCache (svc w)) ->
  chat_service host env req w = Some (out, calls, w') ->
  forall body, out = ResJson body ->
    get_field "cached" (get_field "metadata" body) = JBool false.
Proof.
  intros Hcache. rewrite (chat_service_plain req w Hcache).
  destruct (fst (answer req w)) as [rm | error] eqn:Hanswer.
  - pose proof (callOpenAI_shaped host env _ _ _ _ _ _ Hcache Hanswer) as Hshape.
    apply shaped_no_tool_calls in Hshape as (_ & Hcached & _).
    match goal with |- context [ conclude _ _ _ ?sid _ _ ?c ?x ] =>
      destruct (conclude_cases host env req sid 0 rm c x)
        as [[error ->] | (content & _ & _ & _ & ->)] end;
      intros [= <- <- <-] body [= <-].
    cbn. rewrite Hcached. reflexivity.
  - intros [= <- <- <-] body [=].
Qed.

(** A turn from a world whose cache only holds results. *)
Lemma plain_turn req (w : world service_state) :
  cache_shaped (memoryCache (svc w)) ->
  exists out w',
    chat_service host env req w
    = Some (out, [(first_prompt env req w, agentType_of req)], w')
    /\ (forall v, fst (answer req w) = Returned v ->
         result_shaped v || fallback_shaped v = true
         /\ prop "tool_calls" v = Some JUndefined)
    /\ (forall tools,
         chat_service host (with_tools tools env) req w
         = chat_service host env req w)
    /\ (exists added,
         history_of (fst (currentSession env req w)) w'
         = history_of (fst (currentSession env req w)) w ++ added
         /\ forallb (fun m => negb (tool_traffic m)) added = true)
    /\ (forall body, out = ResJson body ->
         get_field "toolsUsedCount" (get_field "metadata" body) = JNum 0)
    /\ cache_shaped (memoryCache (svc w')).
Proof.
  intros Hcache.
  assert (Hshape : forall v, fst (answer req w) = Returned v ->
            result_shaped v || fallback_shaped v = true
            /\ prop "tool_calls" v = Some JUndefined).
  { intros v Hv.
    pose proof (callOpenAI_shaped host env _ _ _ _ _ _ Hcache Hv) as Hs.
    split; [ exact Hs | apply shaped_no_tool_calls, Hs ]. }
  assert (Htools : forall tools,
            chat_service host (with_tools tools env) req w
            = chat_service host env req w).
  { intros tools.
    rewrite (chat_service_plain req w Hcache).
    unfold chat_service.
    change (callOpenAI host (with_tools tools env)) with service.
    destruct (fst (answer req w)) as [rm | error] eqn:Hanswer.
    - destruct (Hshape rm eq_refl) as [_ Hprop].
      apply (chat_without_tools host (with_tools tools env) service req w rm
               JUndefined Hanswer Hprop).
      reflexivity.
    - apply (chat_threw host (with_tools tools env) service req w error Hanswer). }
  pose proof (chat_service_plain req w Hcache) as Hplain.
  pose proof (after_first_call_cache req w Hcache) as Hafter.
  pose proof (after_first_call_history req w (fst (currentSession env req w))) as Hhist.
  rewrite decide_True in Hhist by reflexivity.
  destruct (fst (answer req w)) as [rm | error] eqn:Hanswer.
  - match type of Hplain with context [ conclude _ _ _ ?sid _ _ ?c ?x ] =>
      destruct (conclude_cases host env req sid 0 rm c x)
        as [[error Hc] | (content & _ & _ & _ & Hc)] end;
      rewrite Hc in Hplain; do 2 eexists; (split; [ exact Hplain | ]);
      (split; [ exact Hshape | ]); (split; [ exact Htools | ]).
    + split; [ | split; [ intros body [=] | exact Hafter ] ].
      exists [user_message req]. split; [ exact Hhist | reflexivity ].
    + split; [ | split; [ intros body [= <-]; reflexivity | exact Hafter ] ].
      exists [user_message req; JObj [("role", JStr "assistant"); ("content", content)]].
      split; [ | reflexivity ].
      rewrite history_fresh_uuid, history_push_eq, Hhist, <- app_assoc. reflexivity.
  - do 2 eexists. split; [ exact Hplain | ].
    split; [ exact Hshape | ]. split; [ exact Htools | ].
    split; [ | split; [ intros body [=] | exact Hafter ] ].
    exists [user_message req]. split; [ exact Hhist | reflexivity ].
Qed.

(** In every world the service can reach, the cache only holds results. *)
Lemma reachable_cache_shaped (w : world service_state) :
  reachable host env w -> cache_shaped (memoryCache (svc w)).
Proof.
  induction 1 as [ w Hempty | w req out calls w' _ IH Hrun
                 | w prompt agentType options _ IH | w key _ IH | w _ IH
                 | w seconds _ IH ].
  - rewrite Hempty. intros key doc Hlookup. discriminate Hlookup.
  - destruct (plain_turn req w IH) as (out0 & w0 & Hplain & _ & _ & _ & _ & Hcache).
    rewrite Hplain in Hrun. injection Hrun as _ _ <-. exact Hcache.
  - apply callOpenAI_cache_shaped, IH.
  - intros k doc Hlookup. apply deleteKey_lookup in Hlookup. apply (IH k doc Hlookup).
  - intros k doc Hlookup. apply flushCache_lookup in Hlookup. apply (IH k doc Hlookup).
  - exact IH.
Qed.

(** C2.  In every world the service can reach: what [callOpenAI] returns
    in a chat turn is an object whose properties are among [content],
    [choices], [model], [usage], [timestamp], [agentType], or else the
    fallback object [{content, fallback}], and in both cases it has no
    [tool_calls]; so the turn makes a single call, does not depend on the
    tool registry (no executor runs), appends no tool request and no tool
    message to the history, and replies, when it does, with
    [toolsUsedCount] 0. *)
Theorem chat_service_uses_no_tool req (w : world service_state) :
  reachable host env w ->
  exists out w',
    chat_service host env req w
    = Some (out, [(first_prompt env req w, agentType_of req)], w')
    /\ (forall v, fst (answer req w) = Returned v ->
         result_shaped v || fallback_shaped v = true
         /\ prop "tool_calls" v = Some JUndefined)
    /\ (forall tools,
         chat_service host (with_tools tools env) req w
         = chat_service host env req w)
    /\ (exists added,
         history_of (fst (currentSession env req w)) w'
         = history_of (fst (currentSession env req w)) w ++ added
         /\ forallb (fun m => negb (tool_traffic m)) added = true)
    /\ (forall body, out = ResJson body ->
         get_field "toolsUsedCount" (get_field "metadata" body) = JNum 0)
    /\ reachable host env w'.
Proof.
  intros Hreach.
  destruct (plain_turn req w (reachable_cache_shaped w Hreach))
    as (out & w' & Hrun & Hshape & Htools & Hhist & Hcount & _).
  exists out, w'. repeat (split; [ assumption | ]).
  exact (reachable_chat host env w req out _ w' Hreach Hrun).
Qed.

(** In every world the service can reach, the [cached] flag of a reply is
    [false]. *)
Lemma reachable_cached_flag req (w : world service_state) out calls w' body :
  reachable host env w ->
  chat_service host env req w = Some (out, calls, w') ->
  out = ResJson body ->
  get_field "cached" (get_field "metadata" body) = JBool false.
Proof.
  intros Hreach Hrun Hout.
  exact (chat_service_cached_flag req w out calls w'
           (reachable_cache_shaped w Hreach) Hrun body Hout).
Qed.

(** C3.  A turn whose first call misses the cache and whose request to the
    completion endpoint fails: with any error other than the three codes
    [callOpenAI] singles out (a network failure, a timeout), the turn
    replies with [success: true] and the chat fallback text, not served
    from the cache; with [rate_limit_exceeded], [insufficient_quota] or
    [invalid_request_error], [callOpenAI] throws again and the handler
    passes that error to [next]. *)
Theorem engine_failure_outcome req (w : world service_state) code message :
  (forall key,
     cache_key_of host (first_prompt env req w) (agentType_of req) = Some key ->
     useCache env && truthy (aiCache_get key (memoryCache (svc w))) = false) ->
  completions_create env (List.length (engineLog (svc w)))
    (systemPrompt :: history_of (fst (currentSession env req w)) w
                     ++ [user_message req])
  = ApiError code message ->
  exists out calls w',
    chat_service host env req w = Some (out, calls, w')
    /\ match classify code with
       | RateLimited =>
           out = Next "Limite de taux API dépassée. Veuillez réessayer plus tard."
       | QuotaExceeded => out = Next "Quota API insuffisant."
       | InvalidRequest => out = Next ("Requête invalide: " +:+ message)
       | EngineUnavailable =>
           exists body,
             out = ResJson body
             /\ get_field "success" body = JBool true
             /\ get_field "content" (get_field "message" body)
                = JStr fallback_chat_text
             /\ get_field "cached" (get_field "metadata" body) = JBool false
             /\ get_field "toolsUsedCount" (get_field "metadata" body) = JNum 0
       end.
Proof.
  intros Hmiss Hfail.
  assert (Hcall : answer req w
                  = on_error host code message (agentType_of req)
                      (first_prompt env req w)
                      (log_request (messages_of (first_prompt env req w)
                                      (agentType_of req)) (svc w))).
  { apply callOpenAI_failure; [ exact Hmiss | eexists; reflexivity | exact Hfail ]. }
  rewrite on_error_spec in Hcall.
  assert (Hfallback : getFallbackResponse host (agentType_of req) (first_prompt env req w)
                      = fallback_of (JStr fallback_chat_text)) by reflexivity.
  unfold chat_service.
  destruct (classify code).
  1-3: rewrite (chat_threw host env service req w _ (f_equal fst Hcall));
       do 3 eexists; split; reflexivity.
  assert (Hanswer : fst (answer req w) = Returned (fallback_of (JStr fallback_chat_text))).
  { rewrite Hcall, Hfallback. reflexivity. }
  rewrite (chat_without_tools host env service req w _ JUndefined Hanswer)
    by reflexivity.
  rewrite (conclude_success host env _ _ _ _ (JStr fallback_chat_text)) by reflexivity.
  do 3 eexists. split; [ reflexivity | ].
  eexists. split; [ reflexivity | ]. repeat split.
Qed.

(** C8.  Every call of the service in a chat turn is made for the agent
    type [chat-] followed by the user identifier, on the system
    instruction followed by the whole history, and reads and writes the
    cache under the key [generateCacheKey] gives for the serialized
    message list and that agent type; no other cache entry changes. *)
Theorem chat_cache_key req (w : world service_state) :
  exists out calls w',
    chat_service host env req w = Some (out, calls, w')
    /\ (exists rest,
         calls = (first_prompt env req w, "chat-" +:+ userId_of req) :: rest)
    /\ Forall (fun c : call =>
                 c.2 = "chat-" +:+ userId_of req
                 /\ (exists history, c.1 = buildChatPrompt history)
                 /\ cache_key_of host c.1 c.2
                    = generateCacheKey host (JSON_stringify host c.1)
                        ("chat-" +:+ userId_of req)
                 /\ cache_key_of host c.1 c.2
                    = Some ("ai:chat-" +:+ userId_of req +:+ ":"
                            +:+ md5hex host (JSON_text host c.1)))
         calls
    /\ (forall key,
         (forall c : call, In c calls -> cache_key_of host c.1 c.2 <> Some key) ->
         memoryCache (svc w') !! key = memoryCache (svc w) !! key).
Proof.
  destruct (chat_returns host env service req w) as (out & calls & w' & Hrun & _).
  exists out, calls, w'. split; [ exact Hrun | ].
  split; [ exact (chat_first_call host env service req w out calls w' Hrun) | ].
  set (P := fun c : call =>
              c.2 = "chat-" +:+ userId_of req
              /\ (exists history, c.1 = buildChatPrompt history)
              /\ cache_key_of host c.1 c.2
                 = generateCacheKey host (JSON_stringify host c.1)
                     ("chat-" +:+ userId_of req)
              /\ cache_key_of host c.1 c.2
                 = Some ("ai:chat-" +:+ userId_of req +:+ ":"
                         +:+ md5hex host (JSON_text host c.1))).
  set (I := fun (calls : list call) (x : world service_state) =>
              Forall P calls
              /\ (forall key,
                   (forall c : call, In c calls -> cache_key_of host c.1 c.2 <> Some key) ->
                   memoryCache (svc x) !! key = memoryCache (svc w) !! key)).
  assert (HP : forall history, P (buildChatPrompt history, agentType_of req)).
  { intros history. repeat split. eexists; reflexivity. }
  assert (Hstep : forall sid calls (x : world service_state),
            I calls x ->
            I (snd (fst (ask service sid (agentType_of req) calls x)))
              (snd (ask service sid (agentType_of req) calls x))).
  { intros sid calls0 x [Hall Hframe]. rewrite ask_spec. cbn [fst snd]. split.
    - apply Forall_app. split; [ exact Hall | constructor; [ apply HP | constructor ] ].
    - intros key Hkey. cbn [svc with_svc].
      rewrite callOpenAI_frame.
      + apply Hframe. intros c Hc. apply Hkey, in_or_app. left. exact Hc.
      + apply (Hkey (buildChatPrompt (history_of sid x), agentType_of req)).
        apply in_or_app. right. left. reflexivity. }
  assert (Hfirst : I [(first_prompt env req w, agentType_of req)] (after req w)).
  { split.
    - constructor; [ apply HP | constructor ].
    - intros key Hkey. unfold after_first_call, first_answer. cbn [svc with_svc].
      apply callOpenAI_frame.
      apply (Hkey (first_prompt env req w, agentType_of req)). left. reflexivity. }
  assert (Hend : I calls w'); [ | exact Hend ].
  revert Hrun. unfold chat_service. rewrite chat_unfold.
  destruct (fst (answer req w)) as [rm | error].
  - destruct (tool_loop _ _ _ _ _ _ _ _ _ _) as [[[res calls''] w''] | ] eqn:Hloop;
      [ | discriminate ].
    apply (tool_loop_invariant host env service _ (agentType_of req) I) in Hloop;
      [ | intros m calls0 x Hx; exact Hx | apply Hstep | exact Hfirst ].
    destruct res as [ec rm' | error].
    + match goal with |- context [ conclude _ _ _ ?sid _ _ ?c ?x ] =>
        destruct (conclude_cases host env req sid ec rm' c x)
          as [[error ->] | (content & _ & _ & _ & ->)] end;
        intros [= <- <- <-]; exact Hloop.
    + intros [= <- <- <-]. exact Hloop.
  - intros [= <- <- <-]. exact Hfirst.
Qed.

End ChatServiceFacts.

(** ** The cache and the clock *)

(** C4.  Right after [set (k, v, ttl)] a [get (k)] returns [v], for every
    key, TTL and value that JSON represents; but the entry does not expire:
    whatever time has elapsed since the [set], the TTL and more, [get (k)]
    still returns [v].  [setEx] drops its [ttl] and nothing removes an
    entry when time passes.  So an entry set for 60 seconds is returned 60
    seconds and one day later, and the connectivity probe of
    health.controller.js, which asks for a lifetime of 60 seconds, is
    answered from the cache one hour after its first run, with no request
    to the completion endpoint. *)
Theorem cache_entry_returned_after_ttl :
  let stored := cache_set "ai:opsAssistant:k" (JStr "v") 60 Sample.empty_world in
  let first :=
    callOpenAI Sample.host Sample.env Scenario.probe_prompt "opsAssistant" Scenario.probe_options
      0 Sample.empty_service in
  let second :=
    callOpenAI Sample.host Sample.env Scenario.probe_prompt "opsAssistant" Scenario.probe_options
      3600 (snd first) in
  (forall k v t elapsed (w : world service_state),
     json_clean v = true ->
     now (advance elapsed (cache_set k v t w)) = now w + elapsed
     /\ cache_get k (advance elapsed (cache_set k v t w)) = v)
  /\ cache_get "ai:opsAssistant:k" stored = JStr "v"
  /\ now (advance 60 stored) = 60
  /\ cache_get "ai:opsAssistant:k" (advance 60 stored) = JStr "v"
  /\ cache_get "ai:opsAssistant:k" (advance 86400 stored) = JStr "v"
  /\ redisClient_ttl "ai:opsAssistant:k" (memoryCache (svc stored)) = -1
  /\ List.length (engineLog (snd first)) = 1%nat
  /\ aiCalls (snd first) = [("opsAssistant", "success", false)]
  /\ (exists result,
        fst second = Returned result
        /\ get_field "content" result = JStr "All services are up.")
  /\ engineLog (snd second) = engineLog (snd first)
  /\ aiCalls (snd second)
     = [("opsAssistant", "success", false); ("opsAssistant", "success", true)].
Proof.
  cbv zeta. split.
  - intros k v t elapsed w Hclean. split; [ reflexivity | ].
    apply cache_get_set_advance, Hclean.
  - repeat (split; [ vm_compute; reflexivity | ]).
    split; [ eexists; split; vm_compute; reflexivity | ].
    split; vm_compute; reflexivity.
Qed.

(** ** The administration of the cache *)


(** The expression built for ['ai:*'] is found in every key that starts
    with [ai:]. *)
Lemma regex_test_prefix key :
  startsWith "ai:" key = true ->
  (fun re => regex_test re key) <$> RegExp (replace_star "ai:*") = Some true.
Proof.
  unfold startsWith. intros Hprefix.
  destruct key as [ | a [ | b [ | c rest ] ] ]; cbn [String.prefix] in Hprefix;
    repeat match type of Hprefix with
           | context [ ascii_dec ?x ?y ] =>
               destruct (ascii_dec x y); [ subst | discriminate ]
           end;
    try discriminate.
  destruct rest; reflexivity.
Qed.

Lemma prefix_includes p s : String.prefix p s = true -> includes p s = true.
Proof. intros H. destruct s; cbn [includes]; rewrite H; reflexivity. Qed.

Lemma prefix_append p s : String.prefix p (p +:+ s) = true.
Proof.
  induction p as [ | a p IH ].
  - destruct s; reflexivity.
  - change (String a p +:+ s) with (String a (p +:+ s)). cbn [String.prefix].
    destruct (ascii_dec a a); [ exact IH | congruence ].
Qed.

Lemma ascii_eqb_dec (a b : ascii) :
  Ascii.eqb a b = if ascii_dec a b then true else false.
Proof.
  destruct (ascii_dec a b) as [-> | Hne].
  - apply Ascii.eqb_refl.
  - apply Ascii.eqb_neq, Hne.
Qed.

(** The expression [keys] builds for ['ai:*'] matches at the start of a
    text exactly when the text starts with [ai:]. *)
Lemma match_here_ai text :
  (fun re => match_here re text) <$> RegExp (replace_star "ai:*")
  = Some (String.prefix "ai:" text).
Proof.
  cbn [replace_star RegExp Ascii.eqb Bool.eqb fmap option_fmap option_map].
  f_equal.
  destruct text as [ | a [ | b [ | c rest ] ] ]; cbn [match_here String.prefix atom_matches];
    rewrite ?ascii_eqb_dec;
    repeat match goal with
           | |- context [ ascii_dec ?x ?y ] => destruct (ascii_dec x y)
           end;
    cbn [andb]; try reflexivity.
  destruct rest; reflexivity.
Qed.

(** ... and is found in a text exactly when the text contains [ai:]. *)
Lemma regex_test_ai text :
  (fun re => regex_test re text) <$> RegExp (replace_star "ai:*")
  = Some (includes "ai:" text).
Proof.
  pose proof match_here_ai as Hhere.
  destruct (RegExp (replace_star "ai:*")) as [re | ]; [ | discriminate (Hhere "") ].
  cbn [fmap option_fmap option_map] in *. f_equal.
  induction text as [ | c rest IH ]; cbn [regex_test includes].
  - specialize (Hhere ""). injection Hhere as ->. reflexivity.
  - specialize (Hhere (String c rest)). injection Hhere as ->. rewrite IH. reflexivity.
Qed.

Lemma redisClient_keys_ai (memoryCache : memory_cache) :
  redisClient_keys "ai:*" memoryCache
  = Some (List.filter (includes "ai:") (fst <$> map_to_list memoryCache)).
Proof.
  unfold redisClient_keys.
  pose proof regex_test_ai as Htest.
  destruct (RegExp (replace_star "ai:*")) as [re | ]; [ | discriminate (Htest "") ].
  cbn [mbind option_bind]. f_equal. apply filter_ext. intros key.
  specialize (Htest key). injection Htest as ->. reflexivity.
Qed.

Lemma elem_of_keys_ai (memoryCache : memory_cache) key :
  In key (List.filter (includes "ai:") (fst <$> map_to_list memoryCache))
  <-> includes "ai:" key = true /\ is_Some (memoryCache !! key).
Proof.
  rewrite filter_In, <- list_elem_of_In, list_elem_of_fmap. split.
  - intros [([k v] & -> & Hin) Hinc]. split; [ exact Hinc | ].
    apply elem_of_map_to_list in Hin. eauto.
  - intros [Hinc [v Hv]]. split; [ | exact Hinc ].
    exists (key, v). split; [ reflexivity | apply elem_of_map_to_list, Hv ].
Qed.

Lemma redisClient_del_delete key (memoryCache : memory_cache) :
  snd (redisClient_del key memoryCache) = delete key memoryCache.
Proof.
  unfold redisClient_del. destruct (memoryCache !! key) eqn:Hkey; cbn [snd].
  - reflexivity.
  - symmetry. apply delete_id, Hkey.
Qed.

Lemma redisClient_del_all_spec keys :
  forall (memoryCache : memory_cache) k,
    snd (redisClient_del_all keys memoryCache) !! k
    = if bool_decide (k ∈ keys) then None else memoryCache !! k.
Proof.
  induction keys as [ | key keys IH ]; intros memoryCache k.
  - rewrite bool_decide_eq_false_2 by (apply not_elem_of_nil). reflexivity.
  - cbn [redisClient_del_all].
    pose proof (redisClient_del_delete key memoryCache) as Hone.
    destruct (redisClient_del key memoryCache) as [n m1]. cbn [snd] in Hone. subst m1.
    specialize (IH (delete key memoryCache) k).
    destruct (redisClient_del_all keys (delete key memoryCache)) as [count m2].
    cbn [snd] in *. rewrite IH.
    destruct (decide (key = k)) as [-> | Hne].
    + rewrite (bool_decide_eq_true_2 (k ∈ k :: keys)) by (left; reflexivity).
      rewrite lookup_delete_eq. destruct (bool_decide (k ∈ keys)); reflexivity.
    + rewrite lookup_delete_ne by assumption.
      destruct (bool_decide_reflect (k ∈ keys)) as [Hin | Hnin].
      * rewrite bool_decide_eq_true_2 by (right; exact Hin). reflexivity.
      * rewrite bool_decide_eq_false_2; [ reflexivity | ].
        intros Hin. apply elem_of_cons in Hin as [-> | Hin]; contradiction.
Qed.

(** What [aiCache.flush] leaves. *)
Lemma aiCache_flush_lookup (memoryCache : memory_cache) key :
  aiCache_flush memoryCache = (true, snd (aiCache_flush memoryCache))
  /\ snd (aiCache_flush memoryCache) !! key
     = if includes "ai:" key then None else memoryCache !! key.
Proof.
  unfold aiCache_flush. rewrite redisClient_keys_ai.
  pose proof (elem_of_keys_ai memoryCache key) as Hin.
  destruct (List.filter (includes "ai:") (fst <$> map_to_list memoryCache))
    as [ | k keys ] eqn:Hkeys.
  - split; [ reflexivity | ]. cbn [snd].
    destruct (includes "ai:" key) eqn:Hinc; [ | reflexivity ].
    destruct (memoryCache !! key) as [v | ] eqn:Hv; [ | reflexivity ].
    destruct (proj2 Hin (conj eq_refl (ex_intro _ v eq_refl))).
  - split; [ reflexivity | ]. cbn [snd]. rewrite redisClient_del_all_spec.
    destruct (bool_decide_reflect (key ∈ k :: keys)) as [Hk | Hk].
    + apply list_elem_of_In, Hin in Hk as [-> _]. reflexivity.
    + destruct (includes "ai:" key) eqn:Hinc; [ | reflexivity ].
      destruct (memoryCache !! key) as [v | ] eqn:Hv; [ | reflexivity ].
      destruct Hk. apply list_elem_of_In, Hin. split; [ reflexivity | eauto ].
Qed.

(** Every key [callOpenAI] derives starts with [ai:]. *)
Lemma cache_key_of_namespace host prompt agentType key :
  cache_key_of host prompt agentType = Some key -> startsWith "ai:" key = true.
Proof.
  unfold cache_key_of, generateCacheKey.
  destruct prompt; try discriminate; cbn [JSON_stringify]; intros [= <-];
    apply (prefix_append "ai:").
Qed.


Lemma callOpenAI_in_namespace host env prompt agentType options t s :
  in_namespace (memoryCache s) ->
  in_namespace (memoryCache (snd (callOpenAI host env prompt agentType options t s))).
Proof.
  intros Hns key.
  destruct (decide (cache_key_of host prompt agentType = Some key)) as [Hkey | Hkey].
  - intros _. exact (cache_key_of_namespace host prompt agentType key Hkey).
  - rewrite callOpenAI_frame by assumption. apply Hns.
Qed.

Lemma conclude_svc host env {S : Type} req sid executionCount responseMessage calls
    (w : world S) :
  svc (snd (conclude host env req sid executionCount responseMessage calls w)) = svc w.
Proof.
  destruct (conclude_cases host env req sid executionCount responseMessage calls w)
    as [[error ->] | (content & _ & _ & _ & ->)]; reflexivity.
Qed.

Lemma reachable_in_namespace host env (w : world service_state) :
  reachable host env w -> in_namespace (memoryCache (svc w)).
Proof.
  induction 1 as [ w Hempty | w req out calls w' Hreach IH Hrun
                 | w prompt agentType options _ IH | w key _ IH | w _ IH
                 | w seconds _ IH ].
  - rewrite Hempty. intros key [v Hv]. discriminate Hv.
  - rewrite (chat_service_plain host env req w (reachable_cache_shaped host env w Hreach))
      in Hrun.
    assert (Hafter : in_namespace
                       (memoryCache (svc (after_first_call env (callOpenAI host env) req w)))).
    { unfold after_first_call, first_answer. cbn [svc with_svc].
      apply callOpenAI_in_namespace, IH. }
    destruct (fst (first_answer env (callOpenAI host env) req w)) as [rm | error].
    + injection Hrun as Hrun.
      apply (f_equal (fun x => svc (snd x))) in Hrun.
      rewrite conclude_svc in Hrun. cbn [snd] in Hrun. rewrite <- Hrun. exact Hafter.
    + injection Hrun as _ _ <-. exact Hafter.
  - apply callOpenAI_in_namespace, IH.
  - intros k [v Hv]. apply deleteKey_lookup in Hv. apply IH. eauto.
  - intros k [v Hv]. apply flushCache_lookup in Hv. apply IH. eauto.
  - exact IH.
Qed.



(** ** Sample runs of the chat handler *)

Lemma chat_tool_loop_bounded_witness :
  always_requests_tools Sample.eager
  /\ exists body calls traffic w',
       chat Sample.host Sample.env Sample.eager Sample.hello (Sample.blank tt)
       = Some (ResJson body, calls, w')
       /\ List.length calls = Datatypes.S maxToolCalls
       /\ get_field "success" body = JBool true
       /\ get_field "content" (get_field "message" body) = JStr apology
       /\ get_field "toolsUsedCount" (get_field "metadata" body) = JNum 5
       /\ forallb tool_traffic traffic = true
       /\ history_of (fst (currentSession Sample.env Sample.hello (Sample.blank tt))) w'
          = history_of (fst (currentSession Sample.env Sample.hello (Sample.blank tt)))
              (Sample.blank tt)
            ++ [user_message Sample.hello] ++ traffic
            ++ [JObj [("role", JStr "assistant"); ("content", JStr apology)]].
Proof.
  assert (Halways : always_requests_tools Sample.eager).
  { intros prompt agentType options t s. eexists. split; reflexivity. }
  split; [ exact Halways | ].
  exact (proj2 (chat_tool_loop_bounded Sample.host Sample.env Sample.eager
                  Sample.hello (Sample.blank tt)) Halways).
Defined.

Example tool_round_reports_failure_sample :
  failed (execute Sample.host Sample.env "unknownTool" "{}") = true
  /\ execute Sample.host Sample.env "getServiceHealth" "{}"
     = ExecutorReturned (JStr "{status:UP}")
  /\ exists out calls w' replies detail,
       chat Sample.host Sample.env Sample.planner Sample.hello (Sample.blank 0%nat)
       = Some (out, calls, w')
       /\ calls !! 1%nat
          = Some (buildChatPrompt
                    (history_of
                       (fst (currentSession Sample.env Sample.hello (Sample.blank 0%nat)))
                       (Sample.blank 0%nat)
                     ++ [user_message Sample.hello]
                     ++ JObj [("role", JStr "assistant");
                              ("tool_calls",
                               JArr (toolCall_of <$> Sample.two_requests))]
                        :: replies),
                  agentType_of Sample.hello)
       /\ Forall2 tagged Sample.two_requests replies
       /\ In (tool_message "call_a" "unknownTool" (JStr ("Erreur: " +:+ detail)))
            replies
       /\ In (tool_message "call_b" "getServiceHealth" (JStr "{status:UP}")) replies.
Proof.
  split; [ reflexivity | ]. split; [ reflexivity | ].
  apply (tool_round_reports_failure Sample.host Sample.env Sample.planner
           Sample.hello (Sample.blank 0%nat)
           (JObj [("content", JNull);
                  ("tool_calls", JArr (toolCall_of <$> Sample.two_requests))])
           Sample.two_requests
           ("call_a", "unknownTool", "{}") ("call_b", "getServiceHealth", "{}")
           "{status:UP}").
  - reflexivity.
  - reflexivity.
  - left. reflexivity.
  - reflexivity.
  - right. left. reflexivity.
  - reflexivity.
Qed.




Lemma session_continuity_witness :
  let first := chat_service Sample.host Sample.env Sample.hello Sample.empty_world in
  let second :=
    chat_service Sample.host Sample.env Sample.and_then
      (world_after Sample.empty_world first) in
  exists body1 calls1 out2 rest,
    reply_of first = Some (ResJson body1, calls1)
    /\ get_field "content" (get_field "message" body1) = JStr "All services are up."
    /\ reply_of second
       = Some (out2,
               (JArr [JObj [("role", JStr "system");
                            ("content", JStr system_instruction)];
                      JObj [("role", JStr "user"); ("content", JStr "hello")];
                      JObj [("role", JStr "assistant");
                            ("content", JStr "All services are up.")];
                      JObj [("role", JStr "user"); ("content", JStr "and then?")]],
                "chat-u1") :: rest).
Proof.
  cbv zeta. unfold chat_service.
  destruct (session_continuity Sample.host Sample.env
              (callOpenAI Sample.host Sample.env)
              Sample.hello Sample.and_then "s1" Sample.empty_world)
    as (out1 & calls1 & w1 & Hrun1 & out2 & calls2 & w2 & between & rest
        & Hrun2 & _ & _ & Hplain).
  - reflexivity.
  - reflexivity.
  - discriminate.
  - edestruct Hplain as (body1 & Hout & Hbody & Hcalls).
    + vm_compute. reflexivity.
    + reflexivity.
    + reflexivity.
    + reflexivity.
    + rewrite Hrun1. cbn [world_after]. rewrite Hrun2.
      exists body1, calls1, out2, rest.
      split; [ rewrite Hout; reflexivity | ].
      split; [ exact Hbody | ].
      rewrite Hcalls. reflexivity.
Defined.

Lemma session_shared_between_users_witness :
  let first := chat_service Sample.host Sample.env Sample.hello Sample.empty_world in
  let second :=
    chat_service Sample.host Sample.env Sample.intruder
      (world_after Sample.empty_world first) in
  user_id Sample.hello = Some "u1" /\ user_id Sample.intruder = Some "u2"
  /\ exists body1 calls1 out2 messages rest,
       reply_of first = Some (ResJson body1, calls1)
       /\ get_field "content" (get_field "message" body1)
          = JStr "All services are up."
       /\ reply_of second = Some (out2, (JArr messages, "chat-u2") :: rest)
       /\ In (JObj [("role", JStr "user"); ("content", JStr "hello")]) messages
       /\ In (JObj [("role", JStr "assistant");
                    ("content", JStr "All services are up.")]) messages.
Proof.
  cbv zeta. unfold chat_service.
  split; [ reflexivity | ]. split; [ reflexivity | ].
  destruct (session_shared_between_users Sample.host Sample.env
              (callOpenAI Sample.host Sample.env)
              Sample.hello Sample.intruder "s1" "u1" "u2" Sample.empty_world)
    as (out1 & calls1 & w1 & Hrun1 & out2 & calls2 & w2 & messages & rest & left
        & added & Hrun2 & _ & Hcalls & _ & Huser & _ & _ & Hplain).
  - reflexivity.
  - reflexivity.
  - discriminate.
  - discriminate.
  - reflexivity.
  - reflexivity.
  - discriminate.
  - edestruct Hplain as (body1 & Hout & Hbody & Hanswer).
    + vm_compute. reflexivity.
    + reflexivity.
    + reflexivity.
    + reflexivity.
    + rewrite Hrun1. cbn [world_after]. rewrite Hrun2.
      exists body1, calls1, out2, messages, rest.
      split; [ rewrite Hout; reflexivity | ].
      split; [ exact Hbody | ].
      split; [ rewrite Hcalls; reflexivity | ].
      split; [ exact Huser | exact Hanswer ].
Defined.

Lemma chat_service_uses_no_tool_witness :
  reachable Sample.host Sample.env Sample.empty_world
  /\ exists out w',
       chat_service Sample.host Sample.env Sample.hello Sample.empty_world
       = Some (out, [(first_prompt Sample.env Sample.hello Sample.empty_world,
                      agentType_of Sample.hello)], w')
       /\ (forall v,
            fst (first_answer Sample.env (callOpenAI Sample.host Sample.env)
                   Sample.hello Sample.empty_world) = Returned v ->
            result_shaped v || fallback_shaped v = true
            /\ prop "tool_calls" v = Some JUndefined)
       /\ (forall tools,
            chat_service Sample.host (with_tools tools Sample.env) Sample.hello
              Sample.empty_world
            = chat_service Sample.host Sample.env Sample.hello Sample.empty_world)
       /\ (exists added,
            history_of (fst (currentSession Sample.env Sample.hello Sample.empty_world)) w'
            = history_of (fst (currentSession Sample.env Sample.hello Sample.empty_world))
                Sample.empty_world ++ added
            /\ forallb (fun m => negb (tool_traffic m)) added = true)
       /\ (forall body, out = ResJson body ->
            get_field "toolsUsedCount" (get_field "metadata" body) = JNum 0)
       /\ reachable Sample.host Sample.env w'.
Proof.
  assert (Hstart : reachable Sample.host Sample.env Sample.empty_world).
  { apply reachable_start. reflexivity. }
  split; [ exact Hstart | ].
  exact (chat_service_uses_no_tool Sample.host Sample.env Sample.hello
           Sample.empty_world Hstart).
Defined.

(** When the endpoint cannot be reached, what [callOpenAI] returns in the
    turn has the two properties [content] and [fallback], and none of
    [choices], [model], [usage], [timestamp], [agentType]. *)
Lemma fallback_answer_has_other_fields :
  exists fields,
    fst (first_answer (Sample.failing (Some "ETIMEDOUT"))
           (callOpenAI Sample.host (Sample.failing (Some "ETIMEDOUT")))
           Sample.hello Sample.empty_world)
    = Returned (JObj fields)
    /\ fst <$> fields = ["content"; "fallback"]
    /\ fst <$> fields <> result_keys
    /\ result_shaped (JObj fields) = false.
Proof.
  eexists. split; [ vm_compute; reflexivity | ].
  split; [ reflexivity | ]. split; [ discriminate | reflexivity ].
Qed.

Lemma engine_failure_outcome_witness :
  classify (Some "ETIMEDOUT") = EngineUnavailable
  /\ exists out calls w',
       chat_service Sample.host (Sample.failing (Some "ETIMEDOUT")) Sample.hello
         Sample.empty_world
       = Some (out, calls, w')
       /\ exists body,
            out = ResJson body
            /\ get_field "success" body = JBool true
            /\ get_field "content" (get_field "message" body)
               = JStr fallback_chat_text
            /\ get_field "cached" (get_field "metadata" body) = JBool false
            /\ get_field "toolsUsedCount" (get_field "metadata" body) = JNum 0.
Proof.
  split; [ reflexivity | ].
  apply (engine_failure_outcome Sample.host (Sample.failing (Some "ETIMEDOUT"))
           Sample.hello Sample.empty_world (Some "ETIMEDOUT") "connect ETIMEDOUT").
  - intros key _. apply andb_false_r.
  - reflexivity.
Defined.

(** When the endpoint answers with a rate-limit or a quota error, the turn
    does not reply with the fallback: the error goes to [next]. *)
Lemma rate_limit_reaches_caller :
  (exists calls w',
     chat_service Sample.host (Sample.failing (Some "rate_limit_exceeded"))
       Sample.hello Sample.empty_world
     = Some (Next "Limite de taux API dépassée. Veuillez réessayer plus tard.",
             calls, w'))
  /\ (exists calls w',
        chat_service Sample.host (Sample.failing (Some "insufficient_quota"))
          Sample.hello Sample.empty_world
        = Some (Next "Quota API insuffisant.", calls, w')).
Proof. split; eexists _, _; vm_compute; reflexivity. Qed.

(** The key of a chat turn carries the user: it is not the key of the
    agent type [chat], under which the cache holds nothing afterwards. *)
Lemma chat_key_names_the_user :
  let turn := chat_service Sample.host Sample.env Sample.hello Sample.empty_world in
  let w' := world_after Sample.empty_world turn in
  exists out prompt key,
    reply_of turn = Some (out, [(prompt, "chat-u1")])
    /\ cache_key_of Sample.host prompt "chat-u1" = Some key
    /\ is_Some (memoryCache (svc w') !! key)
    /\ generateCacheKey Sample.host (JSON_stringify Sample.host prompt) "chat"
       <> Some key
    /\ (forall key', generateCacheKey Sample.host
                       (JSON_stringify Sample.host prompt) "chat" = Some key' ->
                     memoryCache (svc w') !! key' = None).
Proof.
  cbv zeta. eexists _, _, _. split; [ vm_compute; reflexivity | ].
  split; [ vm_compute; reflexivity | ].
  split; [ vm_compute; eexists; reflexivity | ].
  split; [ vm_compute; discriminate | ].
  intros key' Hkey'. vm_compute in Hkey'. injection Hkey' as <-.
  vm_compute. reflexivity.
Qed.

(** C5.  The same user sends the same first message in two sessions.  The
    second turn is answered from the cache (the endpoint gets no further
    request, and a hit is recorded), and its reply says [cached: false]. *)
Theorem cache_hit_reported_uncached :
  let first := chat_service Sample.host Sample.env Sample.hello Sample.empty_world in
  let w1 := world_after Sample.empty_world first in
  let second := chat_service Sample.host Sample.env Sample.hello_again w1 in
  let w2 := world_after w1 second in
  is_Some first
  /\ List.length (engineLog (svc w1)) = 1%nat
  /\ engineLog (svc w2) = engineLog (svc w1)
  /\ aiCalls (svc w2) = aiCalls (svc w1) ++ [("chat-u1", "success", true)]
  /\ exists body calls,
       reply_of second = Some (ResJson body, calls)
       /\ get_field "content" (get_field "message" body)
          = JStr "All services are up."
       /\ get_field "cached" (get_field "metadata" body) = JBool false.
Proof.
  cbv zeta. split; [ vm_compute; eexists; reflexivity | ].
  split; [ vm_compute; reflexivity | ].
  split; [ vm_compute; reflexivity | ].
  split; [ vm_compute; reflexivity | ].
  eexists _, _. split; [ vm_compute; reflexivity | ]. split; reflexivity.
Qed.

(* ===================================================================== *)
(** * Part IV.  Further properties of the code *)
(* ===================================================================== *)

(** ** The key namespace and the administration of the cache *)

(** X1.  In every world the service can reach, each key of the cache
    starts with [ai:]: [callOpenAI] only ever writes under a key made by
    [generateCacheKey], and the administration only removes entries. *)
Theorem cache_keys_in_namespace host env (w : world service_state) key :
  reachable host env w ->
  is_Some (memoryCache (svc w) !! key) ->
  startsWith "ai:" key = true /\ includes "ai:" key = true.
Proof.
  intros Hreach Hkey.
  pose proof (reachable_in_namespace host env w Hreach key Hkey) as Hstart.
  split; [ exact Hstart | apply prefix_includes, Hstart ].
Qed.

(** X2.  [aiCache.flush] always succeeds, removes exactly the entries
    whose key contains [ai:] anywhere, and leaves every other entry as it
    is. *)
Theorem flush_removes_keys_containing_ai (memoryCache : memory_cache) key :
  fst (aiCache_flush memoryCache) = true
  /\ snd (aiCache_flush memoryCache) !! key
     = if includes "ai:" key then None else memoryCache !! key.
Proof.
  destruct (aiCache_flush_lookup memoryCache key) as [Hflag Hlookup].
  split; [ rewrite Hflag; reflexivity | exact Hlookup ].
Qed.

(** X3.  In every world the service can reach, [flushCache] answers 200
    and leaves the cache empty. *)
Theorem flushCache_empties_cache host env (w : world service_state) :
  reachable host env w ->
  CacheController.flushCache (memoryCache (svc w))
  = (CacheController.Json 200 true "Cache IA vidé avec succès", ∅).
Proof.
  intros Hreach. unfold CacheController.flushCache.
  destruct (aiCache_flush_lookup (memoryCache (svc w)) "") as [-> _].
  f_equal. apply map_eq. intros key. rewrite lookup_empty.
  destruct (aiCache_flush_lookup (memoryCache (svc w)) key) as [_ ->].
  destruct (includes "ai:" key) eqn:Hinc; [ reflexivity | ].
  destruct (memoryCache (svc w) !! key) as [v | ] eqn:Hv; [ | reflexivity ].
  pose proof (reachable_in_namespace host env w Hreach key (ex_intro _ v Hv)) as Hstart.
  apply prefix_includes in Hstart. congruence.
Qed.

(** X4.  [deleteKey] never refuses a key that [callOpenAI] derives for a
    prompt: it answers 200 when the cache holds the key and 404 when it
    does not, the key is gone afterwards and no other entry changes; the
    next call of [callOpenAI] for that prompt sends a request to the
    completion endpoint. *)
Theorem deleteKey_of_service_key host env prompt agentType options t s key :
  cache_key_of host prompt agentType = Some key ->
  let m := memoryCache s in
  let deleted := CacheController.deleteKey key m in
  fst deleted
  = (if bool_decide (is_Some (m !! key))
     then CacheController.Json 200 true "Clé supprimée avec succès"
     else CacheController.Json 404 false "Clé non trouvée")
  /\ snd deleted = delete key m
  /\ engineLog (snd (callOpenAI host env prompt agentType options t
                       (with_cache (snd deleted) s)))
     = engineLog s ++ [messages_of prompt agentType].
Proof.
  intros Hkey m deleted.
  assert (Hdel : deleted
                 = (if bool_decide (is_Some (m !! key))
                    then CacheController.Json 200 true "Clé supprimée avec succès"
                    else CacheController.Json 404 false "Clé non trouvée",
                    delete key m)).
  { unfold deleted, CacheController.deleteKey.
    rewrite (cache_key_of_namespace host prompt agentType key Hkey). cbn [negb].
    pose proof (redisClient_del_delete key m) as Hsnd.
    unfold redisClient_del in *.
    destruct (m !! key) as [v | ] eqn:Hv; cbn [snd] in Hsnd.
    - rewrite bool_decide_eq_true_2 by eauto. reflexivity.
    - rewrite bool_decide_eq_false_2 by (intros [v Hv']; discriminate).
      cbn. rewrite <- Hsnd. reflexivity. }
  rewrite Hdel. cbn [fst snd]. split; [ reflexivity | ]. split; [ reflexivity | ].
  unfold callOpenAI. rewrite Hkey.
  unfold aiCache_get, redisClient_get. cbn [memoryCache with_cache].
  rewrite lookup_delete_eq, andb_false_r.
  destruct (completions_create env _ _) as [response | code message].
  - destruct (invalid_response response).
    + rewrite on_error_spec. reflexivity.
    + destruct (prop "total_tokens" (get_field "usage" response)).
      * cbn [snd]. destruct (useCache env); reflexivity.
      * rewrite on_error_spec. cbn [snd]. destruct (useCache env); reflexivity.
  - rewrite on_error_spec. reflexivity.
Qed.

(** ** One call of the service *)

Section CallFacts.
Context (host : JsHost) (env : Env).

Local Abbreviation callOpenAI := (callOpenAI host env).

(** A miss answered by a well-formed completion. *)
Lemma callOpenAI_miss prompt agentType options t s key response :
  cache_key_of host prompt agentType = Some key ->
  useCache env && truthy (aiCache_get key (memoryCache s)) = false ->
  completions_create env (List.length (engineLog s)) (messages_of prompt agentType)
  = Completion response ->
  invalid_response response = false ->
  let result := result_of host response agentType t in
  let stored :=
    recordAICall agentType "success" false
      (if useCache env
       then with_cache (<[key := Some (json_norm result)]> (memoryCache s))
              (log_request (messages_of prompt agentType) s)
       else log_request (messages_of prompt agentType) s) in
  callOpenAI prompt agentType options t s
  = match prop "total_tokens" (get_field "usage" response) with
    | Some _ => (Returned result, stored)
    | None => (Returned (getFallbackResponse host agentType prompt),
               recordAICall agentType "error" false stored)
    end.
Proof.
  intros Hkey Hmiss Hanswer Hvalid result stored.
  unfold OpenAIService.callOpenAI. rewrite Hkey, Hmiss, Hanswer, Hvalid.
  destruct (prop "total_tokens" (get_field "usage" response));
    rewrite ?on_error_spec; reflexivity.
Qed.

(** X5.  A call that misses the cache and is answered by a well-formed
    completion returns the result and stores it; from then on the same
    prompt for the same agent type is answered from the cache, whatever
    the options and the time, with the stored document (the result as
    JSON keeps it) and without a further request to the endpoint. *)
Theorem callOpenAI_memoises prompt agentType options t s key response :
  useCache env = true ->
  cache_key_of host prompt agentType = Some key ->
  truthy (aiCache_get key (memoryCache s)) = false ->
  completions_create env (List.length (engineLog s)) (messages_of prompt agentType)
  = Completion response ->
  invalid_response response = false ->
  is_Some (prop "total_tokens" (get_field "usage" response)) ->
  let first := callOpenAI prompt agentType options t s in
  fst first = Returned (result_of host response agentType t)
  /\ engineLog (snd first) = engineLog s ++ [messages_of prompt agentType]
  /\ forall options' t',
       callOpenAI prompt agentType options' t' (snd first)
       = (Returned (json_norm (result_of host response agentType t)),
          recordAICall agentType "success" true (snd first)).
Proof.
  intros Huse Hkey Hmiss Hanswer Hvalid [tokens Htokens] first.
  assert (Hfirst : first
                   = (Returned (result_of host response agentType t),
                      recordAICall agentType "success" false
                        (with_cache
                           (<[key := Some (json_norm (result_of host response agentType t))]>
                              (memoryCache s))
                           (log_request (messages_of prompt agentType) s)))).
  { unfold first.
    rewrite (callOpenAI_miss prompt agentType options t s key response Hkey)
      by (rewrite ?Hmiss, ?andb_false_r; first [ assumption | reflexivity ]).
    rewrite Htokens, Huse. reflexivity. }
  rewrite Hfirst. cbn [fst snd]. split; [ reflexivity | ]. split; [ reflexivity | ].
  intros options' t'.
  rewrite (callOpenAI_hit host env prompt agentType options' t' _ key Hkey Huse).
  - unfold aiCache_get, redisClient_get. cbn [memoryCache recordAICall with_cache].
    rewrite lookup_insert_eq. reflexivity.
  - unfold aiCache_get, redisClient_get. cbn [memoryCache recordAICall with_cache].
    rewrite lookup_insert_eq. reflexivity.
Qed.

(** X6.  With [USE_CACHE] off the cache is neither read nor written:
    every call with a prompt that is a string or an array sends a
    request, and the cache is left as it is. *)
Theorem callOpenAI_without_cache prompt agentType options t s :
  useCache env = false ->
  let r := callOpenAI prompt agentType options t s in
  memoryCache (snd r) = memoryCache s
  /\ (is_Some (cache_key_of host prompt agentType) ->
      engineLog (snd r) = engineLog s ++ [messages_of prompt agentType]).
Proof.
  intros Huse r. unfold r, OpenAIService.callOpenAI. rewrite Huse. cbn [andb].
  destruct (cache_key_of host prompt agentType) as [key | ].
  - destruct (completions_create env _ _) as [response | code message];
      [ destruct (invalid_response response);
        [ | destruct (prop "total_tokens" (get_field "usage" response)) ] | ];
      rewrite ?on_error_spec; split; reflexivity.
  - rewrite on_error_spec. split; [ reflexivity | ].
    intros [key Hkey]. discriminate Hkey.
Qed.

(** X7.  A call sends at most one request to the completion endpoint (a
    failure is not retried), and it throws only when that request failed
    with one of the codes [rate_limit_exceeded], [insufficient_quota],
    [invalid_request_error]: a prompt of the wrong type, a malformed
    completion and any other failure of the endpoint are answered with a
    value. *)
Theorem callOpenAI_single_request prompt agentType options t s :
  let r := callOpenAI prompt agentType options t s in
  (engineLog (snd r) = engineLog s
   \/ engineLog (snd r) = engineLog s ++ [messages_of prompt agentType])
  /\ (forall error, fst r = Threw error ->
      exists code message,
        completions_create env (List.length (engineLog s)) (messages_of prompt agentType)
        = ApiError (Some code) message
        /\ In code ["rate_limit_exceeded"; "insufficient_quota"; "invalid_request_error"]
        /\ engineLog (snd r) = engineLog s ++ [messages_of prompt agentType]).
Proof.
  intros r. unfold r, OpenAIService.callOpenAI.
  destruct (cache_key_of host prompt agentType) as [key | ].
  - destruct (useCache env && truthy (aiCache_get key (memoryCache s))).
    + split; [ left; reflexivity | intros error [=] ].
    + destruct (completions_create env _ _) as [response | code message] eqn:Hanswer.
      * destruct (invalid_response response);
          [ | destruct (prop "total_tokens" (get_field "usage" response)) ];
          rewrite ?on_error_spec; cbn [fst snd classify];
          (split; [ right; destruct (useCache env); reflexivity | intros error [=] ]).
      * rewrite on_error_spec. cbn [fst snd].
        split; [ right; reflexivity | ].
        intros error Herror. destruct code as [code | ]; [ | discriminate Herror ].
        exists code, message. split; [ reflexivity | ]. split; [ | reflexivity ].
        unfold classify in Herror.
        destruct (String.eqb_spec code "rate_limit_exceeded") as [-> | _];
          [ left; reflexivity | ].
        destruct (String.eqb_spec code "insufficient_quota") as [-> | _];
          [ right; left; reflexivity | ].
        destruct (String.eqb_spec code "invalid_request_error") as [-> | _];
          [ right; right; left; reflexivity | discriminate Herror ].
  - rewrite on_error_spec. split; [ left; reflexivity | intros error [=] ].
Qed.

(** X8.  The only change a call makes to the cache is to store the result
    of a well-formed completion under the key of the call: a failure of
    the endpoint, a malformed completion and a fallback answer store
    nothing. *)
Theorem callOpenAI_cache_write prompt agentType options t s :
  let r := callOpenAI prompt agentType options t s in
  memoryCache (snd r) = memoryCache s
  \/ exists key response,
       useCache env = true
       /\ cache_key_of host prompt agentType = Some key
       /\ completions_create env (List.length (engineLog s))
            (messages_of prompt agentType) = Completion response
       /\ invalid_response response = false
       /\ memoryCache (snd r)
          = <[key := Some (json_norm (result_of host response agentType t))]>
              (memoryCache s).
Proof.
  intros r. unfold r, OpenAIService.callOpenAI.
  destruct (cache_key_of host prompt agentType) as [key | ];
    [ | left; rewrite on_error_spec; reflexivity ].
  destruct (useCache env && truthy (aiCache_get key (memoryCache s)));
    [ left; reflexivity | ].
  destruct (completions_create env _ _) as [response | code message] eqn:Hanswer;
    [ | left; rewrite on_error_spec; reflexivity ].
  destruct (invalid_response response) eqn:Hvalid;
    [ left; rewrite on_error_spec; reflexivity | ].
  destruct (useCache env) eqn:Huse.
  - right. exists key, response. do 3 (split; [ reflexivity | ]). split; [ exact Hvalid | ].
    destruct (prop "total_tokens" (get_field "usage" response));
      rewrite ?on_error_spec; reflexivity.
  - left. destruct (prop "total_tokens" (get_field "usage" response));
      rewrite ?on_error_spec; reflexivity.
Qed.

(** X9.  A well-formed completion that carries no [usage]: the result is
    stored and a success is recorded, then reading [usage.total_tokens]
    throws inside the [try], an error is recorded as well and the caller
    gets the fallback; the next call for the same prompt is answered from
    the cache with the stored result. *)
Theorem callOpenAI_completion_without_usage prompt agentType options t s key response :
  useCache env = true ->
  cache_key_of host prompt agentType = Some key ->
  truthy (aiCache_get key (memoryCache s)) = false ->
  completions_create env (List.length (engineLog s)) (messages_of prompt agentType)
  = Completion response ->
  invalid_response response = false ->
  get_field "usage" response = JUndefined \/ get_field "usage" response = JNull ->
  let first := callOpenAI prompt agentType options t s in
  fst first = Returned (getFallbackResponse host agentType prompt)
  /\ aiCalls (snd first)
     = aiCalls s ++ [(agentType, "success", false); (agentType, "error", false)]
  /\ aiCache_get key (memoryCache (snd first))
     = json_norm (result_of host response agentType t)
  /\ forall options' t',
       fst (callOpenAI prompt agentType options' t' (snd first))
       = Returned (json_norm (result_of host response agentType t)).
Proof.
  intros Huse Hkey Hmiss Hanswer Hvalid Husage first.
  assert (Htokens : prop "total_tokens" (get_field "usage" response) = None).
  { destruct Husage as [-> | ->]; reflexivity. }
  assert (Hfirst : first
                   = (Returned (getFallbackResponse host agentType prompt),
                      recordAICall agentType "error" false
                        (recordAICall agentType "success" false
                           (with_cache
                              (<[key := Some (json_norm (result_of host response agentType t))]>
                                 (memoryCache s))
                              (log_request (messages_of prompt agentType) s))))).
  { unfold first.
    rewrite (callOpenAI_miss prompt agentType options t s key response Hkey)
      by (rewrite ?Hmiss, ?andb_false_r; first [ assumption | reflexivity ]).
    rewrite Htokens, Huse. reflexivity. }
  assert (Hstored : aiCache_get key (memoryCache (snd first))
                    = json_norm (result_of host response agentType t)).
  { rewrite Hfirst. unfold aiCache_get, redisClient_get.
    cbn [snd memoryCache recordAICall with_cache].
    rewrite lookup_insert_eq. reflexivity. }
  split; [ rewrite Hfirst; reflexivity | ].
  split; [ rewrite Hfirst; cbn; rewrite <- app_assoc; reflexivity | ].
  split; [ exact Hstored | ].
  intros options' t'.
  rewrite (callOpenAI_hit host env prompt agentType options' t' _ key Hkey Huse).
  - cbn [fst]. rewrite Hstored. reflexivity.
  - rewrite Hstored. reflexivity.
Qed.

End CallFacts.

(** ** More on chat turns, for any behaviour of [openAIService.callOpenAI] *)

Section ChatCases.
Context (host : JsHost) (env : Env) {S : Type}.
Context (callOpenAI : jsval -> string -> call_options -> Z -> S -> call_result * S).
Context (req : chat_request) (w : world S).

Local Abbreviation chat := (chat host env callOpenAI).
Local Abbreviation sid := (fst (currentSession env req w)).

(** An invariant of the calls made and of the world that holds after the
    first call of the turn and is kept by [push] and by every later call
    holds when the turn ends; a reply is the body built from the last
    answer, sent before the assistant message is appended and the
    identifier of the message is drawn. *)
Context (I : list call -> world S -> Prop).
Hypothesis I_first :
  I [(first_prompt env req w, agentType_of req)] (after_first_call env callOpenAI req w).
Hypothesis I_push : forall m calls x, I calls x -> I calls (push sid m x).
Hypothesis I_ask : forall calls x,
  I calls x ->
  I (snd (fst (ask callOpenAI sid (agentType_of req) calls x)))
    (snd (ask callOpenAI sid (agentType_of req) calls x)).

Lemma chat_cases :
  (exists error calls w',
     chat req w = Some (Next error, calls, w') /\ I calls w')
  \/ (exists executionCount responseMessage content calls w1,
        chat req w
        = Some (ResJson
                  (response_body sid (uuidv4 env (uuidCount w1)) content
                     (toISOString host (now w1))
                     (Datatypes.S (List.length (history_of sid w1)))
                     req responseMessage executionCount),
                calls,
                snd (fresh_uuid env
                       (push sid (JObj [("role", JStr "assistant");
                                        ("content", content)]) w1)))
        /\ final_content executionCount responseMessage = Some content
        /\ I calls w1).
Proof.
  rewrite chat_unfold.
  destruct (fst (first_answer env callOpenAI req w)) as [rm | error].
  - match goal with |- context [ tool_loop ?h ?e ?c ?f ?s ?a ?ec ?r ?calls ?x ] =>
      destruct (tool_loop_total h e c f s a ec r calls x) as [[[res calls'] w'] Hloop];
        [ unfold maxToolCalls; lia | ] end.
    rewrite Hloop.
    apply (tool_loop_invariant host env callOpenAI _ (agentType_of req) I I_push I_ask)
      in Hloop; [ | exact I_first ].
    destruct res as [ec rm' | error].
    + destruct (conclude_cases host env req sid ec rm' calls' w')
        as [[error ->] | (content & Hcontent & _ & _ & ->)].
      * left. eauto.
      * right. exists ec, rm', content, calls', w'. auto.
    + left. eauto.
  - left. eauto.
Qed.

End ChatCases.

Section ChatMore.
Context (host : JsHost) (env : Env) {S : Type}.
Context (callOpenAI : jsval -> string -> call_options -> Z -> S -> call_result * S).

Local Abbreviation chat := (chat host env callOpenAI).

Lemma after_first_call_sessions req (w : world S) :
  chatSessions (after_first_call env callOpenAI req w)
  = <[fst (currentSession env req w)
      := history_of (fst (currentSession env req w)) w ++ [user_message req]]>
      (chatSessions w).
Proof.
  unfold after_first_call. cbn [chatSessions with_svc push].
  rewrite currentSession_history.
  destruct (currentSession_sessions env req w) as [-> _]. reflexivity.
Qed.

(** X10.  A chat turn only appends to the history of its own session,
    the user message first, and leaves every other entry of
    [chatSessions] exactly as it was: no session is dropped, emptied or
    rewritten by a turn on another one. *)
Theorem chat_turn_isolated req (w : world S) :
  exists out calls w' added,
    chat req w = Some (out, calls, w')
    /\ chatSessions w' !! fst (currentSession env req w)
       = Some (history_of (fst (currentSession env req w)) w
               ++ user_message req :: added)
    /\ forall sid', sid' <> fst (currentSession env req w) ->
                    chatSessions w' !! sid' = chatSessions w !! sid'.
Proof.
  set (sid := fst (currentSession env req w)).
  set (I := fun (_ : list call) (x : world S) =>
              (exists added,
                 chatSessions x !! sid
                 = Some (history_of sid w ++ user_message req :: added))
              /\ (forall sid', sid' <> sid ->
                    chatSessions x !! sid' = chatSessions w !! sid')).
  assert (Hpush : forall m calls x, I calls x -> I calls (push sid m x)).
  { intros m calls x [[added Hadd] Hother]. split.
    - exists (added ++ [m]). unfold push. cbn [chatSessions].
      rewrite lookup_insert_eq. unfold history_of at 1. rewrite Hadd.
      cbn [from_option id]. rewrite <- app_assoc. reflexivity.
    - intros sid' Hne. unfold push. cbn [chatSessions].
      rewrite lookup_insert_ne by congruence. apply Hother, Hne. }
  destruct (chat_cases host env callOpenAI req w I) as
    [(error & calls & w' & Hrun & [added Hadd] & Hother)
    | (ec & rm & content & calls & w1 & Hrun & _ & [added Hadd] & Hother)].
  - split.
    + exists []. rewrite after_first_call_sessions, lookup_insert_eq. reflexivity.
    + intros sid' Hne. rewrite after_first_call_sessions.
      apply lookup_insert_ne. intros Heq. apply Hne. symmetry. exact Heq.
  - exact Hpush.
  - intros calls x Hx. rewrite ask_spec. exact Hx.
  - exists (Next error), calls, w', added. auto.
  - destruct (Hpush (JObj [("role", JStr "assistant"); ("content", content)]) calls w1
                (conj (ex_intro _ added Hadd) Hother)) as [[added' Hadd'] Hother'].
    do 3 eexists. exists added'. split; [ exact Hrun | ]. split; assumption.
Qed.

(** X11.  When the first call of a turn throws, the handler gives the
    error to [next] after that single call, and the user message it had
    pushed stays in the history: the same request sent again on the same
    session asks the service about the message twice. *)
Theorem chat_failure_keeps_user_message req sid (w : world S) error :
  sessionId req = Some sid -> sid <> "" ->
  fst (first_answer env callOpenAI req w) = Threw error ->
  exists w',
    chat req w = Some (Next error, [(first_prompt env req w, agentType_of req)], w')
    /\ history_of sid w' = history_of sid w ++ [user_message req]
    /\ first_prompt env req w'
       = buildChatPrompt (history_of sid w ++ [user_message req; user_message req]).
Proof.
  intros Hsid Hne Hthrew.
  exists (after_first_call env callOpenAI req w).
  split; [ apply chat_threw, Hthrew | ].
  assert (Hhist : history_of sid (after_first_call env callOpenAI req w)
                  = history_of sid w ++ [user_message req]).
  { unfold history_of at 1. rewrite after_first_call_sessions.
    rewrite (currentSession_given env req sid w Hsid Hne). cbn [fst].
    rewrite lookup_insert_eq. reflexivity. }
  split; [ exact Hhist | ].
  unfold first_prompt.
  rewrite (currentSession_given env req sid _ Hsid Hne). cbn [fst].
  rewrite Hhist, <- app_assoc. reflexivity.
Qed.

(** X12.  A reply that reports five tool rounds always carries the
    apology as its content, whatever the last answer of the service
    said. *)
Theorem chat_apology_at_limit req (w : world S) :
  exists out calls w',
    chat req w = Some (out, calls, w')
    /\ forall body,
         out = ResJson body ->
         get_field "toolsUsedCount" (get_field "metadata" body) = JNum 5 ->
         get_field "content" (get_field "message" body) = JStr apology.
Proof.
  destruct (chat_cases host env callOpenAI req w (fun _ _ => True)) as
    [(error & calls & w' & Hrun & _)
    | (ec & rm & content & calls & w1 & Hrun & Hcontent & _)]; auto.
  - do 3 eexists. split; [ exact Hrun | ]. intros body [=].
  - do 3 eexists. split; [ exact Hrun | ].
    intros body [= <-] Hcount. cbn in Hcount |- *.
    injection Hcount as Hcount.
    assert (Hec : ec = 5%nat) by lia. subst ec.
    unfold final_content in Hcontent. cbn in Hcontent.
    destruct rm; congruence.
Qed.

(** X13.  The reply names the session whose history the turn extended.
    For a request that gives a session, the message of the reply gets the
    next identifier [uuidv4] hands out; for a request without one (or
    with an empty one), the session gets that identifier and the message
    the one after it.  The tool rounds draw no identifier. *)
Theorem chat_reply_identifiers req (w : world S) :
  exists out calls w',
    chat req w = Some (out, calls, w')
    /\ forall body,
         out = ResJson body ->
         get_field "sessionId" body = JStr (fst (currentSession env req w))
         /\ (forall given,
               sessionId req = Some given -> given <> "" ->
               fst (currentSession env req w) = given
               /\ get_field "id" (get_field "message" body)
                  = JStr (uuidv4 env (uuidCount w))
               /\ uuidCount w' = Datatypes.S (uuidCount w))
         /\ (sessionId req = None \/ sessionId req = Some "" ->
               fst (currentSession env req w) = uuidv4 env (uuidCount w)
               /\ get_field "id" (get_field "message" body)
                  = JStr (uuidv4 env (Datatypes.S (uuidCount w)))
               /\ uuidCount w' = Datatypes.S (Datatypes.S (uuidCount w))).
Proof.
  destruct (chat_cases host env callOpenAI req w
              (fun _ x => uuidCount x = uuidCount (snd (currentSession env req w)))) as
    [(error & calls & w' & Hrun & _)
    | (ec & rm & content & calls & w1 & Hrun & _ & Hcount)].
  - reflexivity.
  - intros m calls x Hx. exact Hx.
  - intros calls x Hx. rewrite ask_spec. exact Hx.
  - do 3 eexists. split; [ exact Hrun | ]. intros body [=].
  - do 3 eexists. split; [ exact Hrun | ].
    intros body [= <-]. split; [ reflexivity | ].
    cbn [response_body get_field assoc String.eqb Ascii.eqb Bool.eqb fresh_uuid snd
         uuidCount push].
    rewrite Hcount. split.
    + intros given Hgiven Hne.
      rewrite (currentSession_given env req given w Hgiven Hne). auto.
    + unfold currentSession, fresh_uuid.
      intros [-> | ->]; cbn [String.eqb fst snd uuidCount]; auto.
Qed.

End ChatMore.

(** ** More on chat turns on the service *)

Section ChatServiceMore.
Context (host : JsHost) (env : Env).

(** X14.  When the completion endpoint answers a chat turn with a
    message without text, as it does when it asks for tools, the service
    stores the result and returns it without the [tool_calls]; the
    handler runs no tool, gives ['Réponse OpenAI invalide'] to [next],
    and leaves in the history the user message only. *)
Theorem chat_service_answer_without_text req (w : world service_state) key response :
  useCache env = true ->
  cache_key_of host (first_prompt env req w) (agentType_of req) = Some key ->
  truthy (aiCache_get key (memoryCache (svc w))) = false ->
  completions_create env (List.length (engineLog (svc w)))
    (systemPrompt :: history_of (fst (currentSession env req w)) w
                     ++ [user_message req])
  = Completion response ->
  invalid_response response = false ->
  is_Some (prop "total_tokens" (get_field "usage" response)) ->
  truthy (get_field "content"
            (get_field "message" (index0 (get_field "choices" response)))) = false ->
  exists w',
    chat_service host env req w
    = Some (Next "Réponse OpenAI invalide",
            [(first_prompt env req w, agentType_of req)], w')
    /\ aiCache_get key (memoryCache (svc w'))
       = json_norm (result_of host response (agentType_of req) (now w))
    /\ history_of (fst (currentSession env req w)) w'
       = history_of (fst (currentSession env req w)) w ++ [user_message req]
    /\ forall tools,
         chat_service host (with_tools tools env) req w = chat_service host env req w.
Proof.
  intros Huse Hkey Hmiss Hanswer Hvalid [tokens Htokens] Hcontent.
  assert (Hfirst : first_answer env (callOpenAI host env) req w
                   = (Returned (result_of host response (agentType_of req) (now w)),
                      recordAICall (agentType_of req) "success" false
                        (with_cache
                           (<[key := Some (json_norm
                                             (result_of host response (agentType_of req)
                                                (now w)))]>
                              (memoryCache (svc w)))
                           (log_request (messages_of (first_prompt env req w)
                                           (agentType_of req)) (svc w))))).
  { unfold first_answer.
    rewrite (callOpenAI_miss host env _ _ chat_options (now w) (svc w) key response Hkey)
      by (rewrite ?Hmiss, ?andb_false_r; first [ assumption | reflexivity ]).
    rewrite Htokens, Huse. reflexivity. }
  assert (Hturn : forall env',
            first_answer env' (callOpenAI host env) req w
            = first_answer env (callOpenAI host env) req w ->
            fst (currentSession env' req w) = fst (currentSession env req w) ->
            after_first_call env' (callOpenAI host env) req w
            = after_first_call env (callOpenAI host env) req w ->
            first_prompt env' req w = first_prompt env req w ->
            chat host env' (callOpenAI host env) req w
            = Some (Next "Réponse OpenAI invalide",
                    [(first_prompt env req w, agentType_of req)],
                    after_first_call env (callOpenAI host env) req w)).
  { intros env' Hsame Hsid Hafter Hprompt.
    rewrite (chat_without_tools host env' (callOpenAI host env) req w
               (result_of host response (agentType_of req) (now w)) JUndefined)
      by (rewrite ?Hsame, ?Hfirst; reflexivity).
    rewrite Hsid, Hafter, Hprompt.
    unfold conclude, final_content. cbn [Nat.leb maxToolCalls].
    change (get_field "content" (result_of host response (agentType_of req) (now w)))
      with (get_field "content"
              (get_field "message" (index0 (get_field "choices" response)))).
    rewrite Hcontent, orb_true_r. reflexivity. }
  exists (after_first_call env (callOpenAI host env) req w).
  split; [ apply (Hturn env); reflexivity | ].
  split; [ | split ].
  - unfold after_first_call. cbn [svc with_svc]. rewrite Hfirst.
    unfold aiCache_get, redisClient_get. cbn [snd memoryCache recordAICall with_cache].
    rewrite lookup_insert_eq. reflexivity.
  - rewrite after_first_call_history, decide_True by reflexivity. reflexivity.
  - intros tools. unfold chat_service.
    change (callOpenAI host (with_tools tools env)) with (callOpenAI host env).
    rewrite (Hturn env) by reflexivity. apply Hturn; reflexivity.
Qed.

End ChatServiceMore.

(** ** quickStatus *)

(** The fallback for the agent type of [quickStatus] is chosen by what
    the user identifier contains. *)
Lemma quickStatus_fallback_choice host user prompt :
  getFallbackResponse host ("quick-status-" +:+ user) prompt
  = fallback_of
      (if includes "chat" user then JStr fallback_chat_text
       else if includes "dashboard" user
            then JSON_stringify host fallback_dashboard_doc
            else JStr fallback_opsAssistant_text).
Proof.
  unfold getFallbackResponse.
  change (String.eqb ("quick-status-" +:+ user) "dashboard") with false.
  change (String.eqb ("quick-status-" +:+ user) "opsAssistant") with false.
  change (String.eqb ("quick-status-" +:+ user) "chat") with false.
  change (String.eqb ("quick-status-" +:+ user) "quick-status") with false.
  change (String.eqb ("quick-status-" +:+ user) "performance-insights") with false.
  change (includes "chat" ("quick-status-" +:+ user)) with (includes "chat" user).
  change (includes "dashboard" ("quick-status-" +:+ user))
    with (includes "dashboard" user).
  cbv iota.
  destruct (includes "chat" user); [ reflexivity | ].
  destruct (includes "dashboard" user); reflexivity.
Qed.

(** X15.  When the completion endpoint cannot be reached, [quickStatus]
    still answers [success: true]; its [status] is the generic
    opsAssistant fallback text (or the chat text, or the dashboard
    document, when the user identifier contains [chat] or [dashboard]):
    the agent type is [quick-status-] followed by the user identifier, so
    the entry [fallbacks['quick-status']] is never the one selected. *)
Theorem quickStatus_engine_unavailable host env fields user_id t s code message :
  let prompt :=
    JStr (OpsStatus.quickStatus_prompt
            (OpsStatus.or_true (assoc "includeMetrics" fields))
            (OpsStatus.or_true (assoc "includeAlerts" fields))) in
  let agentType := OpsStatus.quickStatus_agentType user_id in
  (forall key, cache_key_of host prompt agentType = Some key ->
               useCache env && truthy (aiCache_get key (memoryCache s)) = false) ->
  completions_create env (List.length (engineLog s)) (messages_of prompt agentType)
  = ApiError code message ->
  classify code = EngineUnavailable ->
  exists reply,
    fst (OpsStatus.quickStatus host env (JObj fields) user_id t s) = ResJson reply
    /\ get_field "success" reply = JBool true
    /\ get_field "status" reply
       = (if includes "chat" (OpsStatus.userId user_id) then JStr fallback_chat_text
          else if includes "dashboard" (OpsStatus.userId user_id)
               then JSON_stringify host fallback_dashboard_doc
               else JStr fallback_opsAssistant_text)
    /\ get_field "cached" (get_field "metadata" reply) = JBool false.
Proof.
  intros prompt agentType Hmiss Hfail Hclass.
  unfold OpsStatus.quickStatus. cbn [prop].
  fold prompt. fold agentType.
  rewrite (callOpenAI_failure host env prompt agentType _ t s code message Hmiss)
    by (first [ eexists; reflexivity | exact Hfail ]).
  rewrite on_error_spec, Hclass.
  unfold agentType, OpsStatus.quickStatus_agentType.
  rewrite quickStatus_fallback_choice.
  eexists. split; [ reflexivity | ]. repeat split.
Qed.

(** ** The dashboard controller *)

Lemma append_inj_l p a b : p +:+ a = p +:+ b -> a = b.
Proof.
  induction p as [ | c p IH ]; [ auto | ].
  change (String c p +:+ a) with (String c (p +:+ a)).
  change (String c p +:+ b) with (String c (p +:+ b)).
  intros [= H]. apply IH, H.
Qed.

Lemma default_blocks_lookup metrics :
  Forall (fun metric => metric <> JUndefined /\ metric <> JNull) metrics ->
  forall index,
  exists blocks,
    Dashboard.default_blocks index metrics = Some blocks
    /\ List.length blocks = List.length metrics
    /\ forall i block,
         blocks !! i = Some block ->
         get_field "id" block = JStr (Dashboard.metric_id (index + i))
         /\ position_of block
            = ((Z.of_nat (index + i) mod 3) * 4, (Z.of_nat (index + i) / 3) * 4, 4, 3).
Proof.
  induction 1 as [ | metric metrics [Hu Hn] _ IH ]; intros index.
  - exists []. split; [ reflexivity | ]. split; [ reflexivity | ].
    intros i block Hlookup. discriminate Hlookup.
  - destruct (IH (Datatypes.S index)) as (blocks & Hblocks & Hlen & Hat).
    cbn [Dashboard.default_blocks]. unfold Dashboard.default_block.
    assert (Hname : exists name, prop "name" metric = Some name).
    { destruct metric; try contradiction; eexists; reflexivity. }
    destruct Hname as [name ->]. cbn [mbind option_bind]. rewrite Hblocks.
    eexists. split; [ reflexivity | ]. split; [ cbn; rewrite Hlen; reflexivity | ].
    intros [ | i ] block Hlookup.
    + injection Hlookup as <-. rewrite Nat.add_0_r. split; reflexivity.
    + cbn in Hlookup. destruct (Hat i block Hlookup) as [Hid Hpos].
      replace (index + Datatypes.S i)%nat with (Datatypes.S index + i)%nat by lia.
      split; assumption.
Qed.

(** X16.  [getDefaultLayout] lays the metrics out on the grid of twelve
    columns one block each, in order: every block lies within the twelve
    columns, no two blocks overlap, and no two blocks have the same
    [id]. *)
Theorem getDefaultLayout_geometry metrics :
  Forall (fun metric => metric <> JUndefined /\ metric <> JNull) metrics ->
  exists layout blocks,
    Dashboard.getDefaultLayout (JArr metrics) = Some layout
    /\ get_field "columns" (get_field "layout" layout) = JNum 12
    /\ get_field "blocks" (get_field "layout" layout) = JArr blocks
    /\ List.length blocks = List.length metrics
    /\ (forall i block,
          blocks !! i = Some block ->
          let '(x, y, w, h) := position_of block in
          0 <= x /\ x + w <= 12 /\ 0 <= y /\ 0 < w /\ 0 < h)
    /\ (forall i j bi bj,
          blocks !! i = Some bi -> blocks !! j = Some bj -> i <> j ->
          overlap (position_of bi) (position_of bj) = false
          /\ get_field "id" bi <> get_field "id" bj).
Proof.
  intros Hmetrics.
  destruct (default_blocks_lookup metrics Hmetrics 0) as (blocks & Hblocks & Hlen & Hat).
  unfold Dashboard.getDefaultLayout. rewrite Hblocks. cbn [mbind option_bind].
  do 2 eexists. split; [ reflexivity | ]. split; [ reflexivity | ].
  split; [ reflexivity | ]. split; [ exact Hlen | ]. split.
  - intros i block Hlookup. destruct (Hat i block Hlookup) as [_ ->].
    cbn [Nat.add].
    pose proof (Z.mod_pos_bound (Z.of_nat i) 3 ltac:(lia)).
    pose proof (Z.div_pos (Z.of_nat i) 3 ltac:(lia) ltac:(lia)).
    lia.
  - intros i j bi bj Hi Hj Hne.
    destruct (Hat i bi Hi) as [Hidi ->]. destruct (Hat j bj Hj) as [Hidj ->].
    cbn [Nat.add] in *. split.
    + unfold overlap.
      apply not_true_is_false. intros Hover.
      repeat (apply andb_true_iff in Hover as [Hover ?]).
      apply Z.ltb_lt in Hover.
      repeat match goal with H : (_ <? _) = true |- _ => apply Z.ltb_lt in H end.
      apply Hne.
      pose proof (Z.div_mod (Z.of_nat i) 3 ltac:(lia)).
      pose proof (Z.div_mod (Z.of_nat j) 3 ltac:(lia)).
      pose proof (Z.mod_pos_bound (Z.of_nat i) 3 ltac:(lia)).
      pose proof (Z.mod_pos_bound (Z.of_nat j) 3 ltac:(lia)).
      lia.
    + rewrite Hidi, Hidj. intros [= Hid]. apply Hne.
      unfold Dashboard.metric_id in Hid.
      apply append_inj_l in Hid. apply (inj pretty) in Hid. exact Hid.
Qed.

Lemma invalid_block_None host blocks :
  Dashboard.invalid_block host blocks = None
  <-> Forall (fun block => block_ok block = true) blocks.
Proof.
  induction blocks as [ | block blocks IH ]; cbn [Dashboard.invalid_block].
  - split; [ constructor | reflexivity ].
  - unfold block_ok at 1.
    destruct (prop "id" block) as [id | ] eqn:Hid.
    + rewrite <- !negb_andb.
      destruct (truthy (get_field "id" block) && truthy (get_field "type" block)
                && truthy (get_field "title" block)
                && truthy (get_field "layout" block)) eqn:Hok; cbn [negb].
      * rewrite IH. split.
        -- intros Hrest. constructor; assumption.
        -- intros Hall. inversion Hall. assumption.
      * split; [ discriminate | ].
        intros Hall. inversion Hall as [ | ? ? Hblock _ ]. unfold block_ok in Hblock.
        congruence.
    + split; [ discriminate | ].
      intros Hall. inversion Hall as [ | ? ? Hblock _ ]. unfold block_ok in Hblock.
      destruct block; discriminate.
Qed.

Lemma validate_parsed_Valid host config data :
  Dashboard.validate_parsed host config = Dashboard.Valid data
  <-> data = config /\ well_formed_dashboard config.
Proof.
  unfold Dashboard.validate_parsed, well_formed_dashboard. split.
  - destruct (prop "dashboard" config) as [dashboard | ]; [ | discriminate ].
    destruct (truthy dashboard); cbn [negb]; [ | discriminate ].
    destruct (get_field "blocks" dashboard) as [ | | | | | blocks | ] eqn:Hblocks;
      try discriminate.
    destruct (truthy (get_field "title" dashboard)) eqn:Htitle; cbn [negb];
      [ | discriminate ].
    destruct (Dashboard.invalid_block host blocks) eqn:Hloop; [ discriminate | ].
    intros [= <-]. split; [ reflexivity | ].
    exists dashboard, blocks. repeat split; try assumption.
    apply (invalid_block_None host), Hloop.
  - intros [-> (dashboard & blocks & -> & Htitle & -> & Hall)].
    assert (Hdash : truthy dashboard = true).
    { destruct dashboard; try discriminate Htitle; reflexivity. }
    rewrite Hdash, Htitle. cbn [negb].
    apply (invalid_block_None host) in Hall. rewrite Hall. reflexivity.
Qed.

(** X17.  [validateDashboardStructure] answers [valid: true] exactly for
    a configuration (given as a value, or as a text that [JSON.parse]
    reads) that has a [dashboard] with a [title] and an array of [blocks]
    each having an [id], a [type], a [title] and a [layout]; [data] is
    then the configuration read.  Everything else, a text that does not
    parse and a [null] among the blocks included, is reported as invalid
    and nothing is thrown. *)
Theorem validateDashboardStructure_valid host config data :
  Dashboard.validateDashboardStructure host config = Dashboard.Valid data
  <-> match config with
      | JStr text => JSON_parse host text = inl data
      | _ => data = config
      end
      /\ well_formed_dashboard data.
Proof.
  unfold Dashboard.validateDashboardStructure.
  destruct config as [ | | b | n | text | items | fields ];
    try (rewrite validate_parsed_Valid; split; intros [-> Hwf]; split;
         first [ reflexivity | assumption ]).
  destruct (JSON_parse host text) as [parsed | error_message].
  - rewrite validate_parsed_Valid. split.
    + intros [-> Hwf]. split; [ reflexivity | assumption ].
    + intros [[= ->] Hwf]. split; [ reflexivity | assumption ].
  - split; [ discriminate | intros [[=] _] ].
Qed.

Lemma parsed_or_fallback host defaults aiResponse :
  truthy (get_field "fallback" aiResponse) = true ->
  Dashboard.parsed_or host defaults aiResponse = inl defaults.
Proof.
  intros Hfallback. unfold Dashboard.parsed_or.
  destruct aiResponse; try discriminate Hfallback.
  cbn [prop get_field] in *. rewrite Hfallback. reflexivity.
Qed.

(** X18.  When the service answers [suggestTemplates] with a fallback,
    the reply is [success: true] with an empty list of suggestions: what
    [getDefaultTemplateSuggestions] returns is an array, which has no
    [templates], so the default suggestions are never sent. *)
Theorem suggestTemplates_fallback_is_empty host env prompt body t s
    useCase aiResponse :
  prop "useCase" body = Some useCase ->
  fst (callOpenAI host env
         (JStr (prompt useCase (get_field "complexity" body)
                  (get_field "preferences" body)))
         "templateSuggestion" {| cacheTTL := None |} t s)
  = Returned aiResponse ->
  truthy (get_field "fallback" aiResponse) = true ->
  exists reply,
    fst (Dashboard.suggestTemplates host env prompt body t s) = ResJson reply
    /\ get_field "success" reply = JBool true
    /\ get_field "suggestions" reply = JArr [].
Proof.
  intros HuseCase Hanswer Hfallback. unfold Dashboard.suggestTemplates.
  rewrite HuseCase.
  destruct (callOpenAI host env _ _ _ _ _) as [r s']. cbn [fst] in Hanswer. subst r.
  rewrite (parsed_or_fallback host _ aiResponse Hfallback).
  unfold Dashboard.getDefaultTemplateSuggestions.
  repeat match goal with |- context [ if ?b then _ else _ ] => destruct b end;
    eexists; repeat split.
Qed.

(** X19.  Likewise [recommendBlocks]: on a fallback the reply is
    [success: true] with an empty list of recommendations, the array of
    [getDefaultBlockRecommendations] having no [blocks]. *)
Theorem recommendBlocks_fallback_is_empty host env prompt body t s
    dashboardPurpose aiResponse :
  prop "dashboardPurpose" body = Some dashboardPurpose ->
  fst (callOpenAI host env
         (JStr (prompt dashboardPurpose (get_field "existingBlocks" body)
                  (get_field "focus" body)))
         "blockRecommendation" {| cacheTTL := None |} t s)
  = Returned aiResponse ->
  truthy (get_field "fallback" aiResponse) = true ->
  exists reply,
    fst (Dashboard.recommendBlocks host env prompt body t s) = ResJson reply
    /\ get_field "success" reply = JBool true
    /\ get_field "recommendations" reply = JArr [].
Proof.
  intros Hpurpose Hanswer Hfallback. unfold Dashboard.recommendBlocks.
  rewrite Hpurpose.
  destruct (callOpenAI host env _ _ _ _ _) as [r s']. cbn [fst] in Hanswer. subst r.
  rewrite (parsed_or_fallback host _ aiResponse Hfallback).
  unfold Dashboard.getDefaultBlockRecommendations.
  repeat match goal with |- context [ if ?b then _ else _ ] => destruct b end;
    eexists; repeat split.
Qed.

(** ** The error handler *)

Lemma errorHandler_plain development error :
  ErrorHandler.errorHandler development (ErrorHandler.plain_error error)
  = Some (ErrorHandler.Http (JNum 500)
            (JObj ([("success", JBool false);
                    ("error", JStr (if String.eqb error "" then "Erreur serveur interne"
                                    else error))]
                   ++ (if development then [("stack", JUndefined)] else [])))).
Proof.
  unfold ErrorHandler.errorHandler, ErrorHandler.plain_error.
  destruct (String.eqb error "TypeError") eqn:Htype;
    cbn [ErrorHandler.err_name ErrorHandler.err_message ErrorHandler.err_props
         String.eqb Ascii.eqb Bool.eqb assoc ErrorHandler.is_string
         ErrorHandler.is_number mbind option_bind ErrorHandler.message
         ErrorHandler.statusCode ErrorHandler.stack truthy];
    destruct (String.eqb error ""); reflexivity.
Qed.

(** X20.  Once a request has reached the chat handler, whatever happens
    in the turn the answer is either 200 with the reply of the handler or
    500 with [success: false] and the message of the error: the errors
    [callOpenAI] throws for a rate limit or an exhausted quota carry
    neither a [statusCode] nor a [type], so the error handler maps none of
    them to 429 or 503. *)
Theorem chat_http_status host env development req (w : world service_state) :
  exists status body,
    ErrorHandler.chat_http host env development req w
    = Some (ErrorHandler.Http (JNum status) body)
    /\ ((status = 200
         /\ exists calls w', chat_service host env req w = Some (ResJson body, calls, w'))
        \/ (status = 500
            /\ get_field "success" body = JBool false
            /\ exists error calls w',
                 chat_service host env req w = Some (Next error, calls, w')
                 /\ get_field "error" body
                    = JStr (if String.eqb error "" then "Erreur serveur interne"
                            else error))).
Proof.
  unfold ErrorHandler.chat_http.
  destruct (chat_returns host env (callOpenAI host env) req w)
    as (out & calls & w' & Hrun & _).
  unfold chat_service. rewrite Hrun. destruct out as [body | error].
  - exists 200, body. split; [ reflexivity | ]. left. eauto.
  - rewrite errorHandler_plain. do 2 eexists. split; [ reflexivity | ].
    right. split; [ reflexivity | ]. split; [ reflexivity | ].
    exists error, calls, w'. split; reflexivity.
Qed.

(** X21.  The error handler fails only on a [ValidationError] whose
    [errors] cannot be listed; otherwise its reply has [success: false],
    a status and an [error] that are never empty, and an error with
    [statusCode] 429 is answered 429 with the rate-limit text whatever
    its name and type. *)
Theorem errorHandler_reply development err :
  (ErrorHandler.errorHandler development err = None ->
   ErrorHandler.err_name err = "ValidationError")
  /\ forall status body,
       ErrorHandler.errorHandler development err
       = Some (ErrorHandler.Http status body) ->
       get_field "success" body = JBool false
       /\ truthy (get_field "error" body) = true
       /\ truthy status = true
       /\ (assoc "statusCode" (ErrorHandler.err_props err) = JNum 429 ->
           status = JNum 429
           /\ get_field "error" body
              = JStr "Trop de requêtes, veuillez réessayer plus tard").
Proof.
  unfold ErrorHandler.errorHandler.
  match goal with |- context [ mbind _ ?first ] => destruct first as [error | ] eqn:Hfirst end;
    cbn [mbind option_bind].
  - split; [ discriminate | ]. cbv zeta.
    match goal with
    | |- context [ ErrorHandler.Http (if truthy (ErrorHandler.statusCode ?e) then _ else _) _ ] =>
        set (final := e)
    end.
    intros status body [= <- <-].
    split; [ reflexivity | ].
    split; [ cbn; destruct (truthy (ErrorHandler.message final)) eqn:Hm;
             [ exact Hm | reflexivity ] | ].
    split; [ destruct (truthy (ErrorHandler.statusCode final)) eqn:Hs;
             [ exact Hs | reflexivity ] | ].
    intros H429. unfold final. rewrite H429. split; reflexivity.
  - split; [ | discriminate ]. intros _.
    destruct (String.eqb_spec (ErrorHandler.err_name err) "ValidationError")
      as [Hname | _]; [ exact Hname | discriminate Hfirst ].
Qed.

(** ** The guard of the cache routes *)

Lemma some_role_admin userRoles :
  Auth.some_role ["admin"] userRoles
  = match Auth.roles_include userRoles "admin" with
    | Some b => Some b
    | None => None
    end.
Proof.
  cbn [Auth.some_role].
  destruct (Auth.roles_include userRoles "admin") as [[ | ] | ]; reflexivity.
Qed.

(** X22.  The routes that delete a key and flush the cache are closed to
    a request without a user (401) and to a user whose [roles] array
    does not hold [admin] (403), and leave the cache as it is; a user
    whose [roles] hold [admin] reaches [deleteKey]. *)
Theorem cache_routes_require_admin user key confirmed (memoryCache : memory_cache) :
  (truthy user = false ->
   Auth.delete_key_route user key memoryCache
   = (Auth.Refused 401 "Authentification requise", memoryCache)
   /\ Auth.flush_route user confirmed memoryCache
      = (Auth.Refused 401 "Authentification requise", memoryCache))
  /\ forall roles,
       get_field "roles" user = JArr roles ->
       (~ In (JStr "admin") roles ->
        Auth.delete_key_route user key memoryCache
        = (Auth.Refused 403 "Permissions insuffisantes", memoryCache)
        /\ Auth.flush_route user confirmed memoryCache
           = (Auth.Refused 403 "Permissions insuffisantes", memoryCache))
       /\ (In (JStr "admin") roles -> key <> "" ->
           Auth.delete_key_route user key memoryCache
           = (Auth.Handled (fst (CacheController.deleteKey key memoryCache)),
              snd (CacheController.deleteKey key memoryCache))).
Proof.
  split.
  - intros Huser. unfold Auth.delete_key_route, Auth.flush_route, Auth.requireRole.
    rewrite Huser. split; reflexivity.
  - intros roles Hroles.
    assert (Huser : truthy user = true).
    { destruct user; try discriminate Hroles; reflexivity. }
    assert (Hguard : Auth.requireRole ["admin"] user
                     = if existsb (fun v => match v with
                                            | JStr s => String.eqb s "admin"
                                            | _ => false
                                            end) roles
                       then Auth.Pass
                       else Auth.Deny 403 "Permissions insuffisantes").
    { unfold Auth.requireRole. rewrite Huser, Hroles, some_role_admin.
      cbn [negb truthy Auth.roles_include]. destruct (existsb _ roles); reflexivity. }
    unfold Auth.delete_key_route, Auth.flush_route. rewrite Hguard. split.
    + intros Hnot.
      destruct (existsb _ roles) eqn:Hex; [ | split; reflexivity ].
      apply existsb_exists in Hex as (v & Hin & Hv).
      destruct v; try discriminate Hv. apply String.eqb_eq in Hv. subst. contradiction.
    + intros Hin Hkey.
      assert (Hex : existsb (fun v => match v with
                                      | JStr s => String.eqb s "admin"
                                      | _ => false
                                      end) roles = true).
      { apply existsb_exists. exists (JStr "admin"). split; [ exact Hin | reflexivity ]. }
      rewrite Hex. destruct (String.eqb_spec key "") as [-> | _]; [ contradiction | ].
      destruct (CacheController.deleteKey key memoryCache). reflexivity.
Qed.

(** ** generateDashboard *)

Lemma assoc_set_field_eq name value fields :
  assoc name (Dashboard.set_field name value fields) = value.
Proof.
  induction fields as [ | [k v] fields IH ]; cbn [Dashboard.set_field assoc].
  - rewrite String.eqb_refl. reflexivity.
  - destruct (String.eqb name k) eqn:Hk; cbn [assoc]; rewrite Hk; [ reflexivity | exact IH ].
Qed.

Lemma assoc_set_field_ne name k value fields :
  k <> name ->
  assoc k (Dashboard.set_field name value fields) = assoc k fields.
Proof.
  intros Hne. apply String.eqb_neq in Hne.
  induction fields as [ | [k' v] fields IH ]; cbn [Dashboard.set_field assoc].
  - rewrite Hne. reflexivity.
  - destruct (String.eqb name k') eqn:Hk; cbn [assoc].
    + apply String.eqb_eq in Hk. subst k'. rewrite Hne. reflexivity.
    + rewrite IH. reflexivity.
Qed.

(** What [callOpenAI] returns is never [undefined] or [null]. *)
Lemma callOpenAI_returns_truthy host env prompt agentType options t s v :
  fst (callOpenAI host env prompt agentType options t s) = Returned v ->
  truthy v = true.
Proof.
  assert (Herror : forall code message s',
            fst (on_error host code message agentType prompt s') = Returned v ->
            truthy v = true).
  { intros code message s' Hv. apply on_error_shaped in Hv.
    apply (shaped_no_tool_calls v). rewrite Hv. apply orb_true_r. }
  unfold callOpenAI.
  destruct (cache_key_of host prompt agentType) as [key | ]; [ | apply Herror ].
  destruct (useCache env && truthy (aiCache_get key (memoryCache s))) eqn:Hhit.
  - cbn [fst]. intros [= <-]. apply andb_true_iff in Hhit as [_ Hhit]. exact Hhit.
  - destruct (completions_create env _ _) as [response | code message];
      [ | apply Herror ].
    destruct (invalid_response response); [ apply Herror | ].
    destruct (prop "total_tokens" (get_field "usage" response)); [ | apply Herror ].
    cbn [fst]. intros [= <-]. reflexivity.
Qed.

(** [enrichDashboard] on a well-formed configuration. *)
Lemma enrichDashboard_well_formed host config templateType t :
  well_formed_dashboard config ->
  exists enriched,
    Dashboard.enrichDashboard host config templateType t = Some enriched
    /\ get_field "title" (get_field "dashboard" enriched)
       = get_field "title" (get_field "dashboard" config)
    /\ get_field "blocks" (get_field "dashboard" enriched)
       = get_field "blocks" (get_field "dashboard" config)
    /\ truthy (get_field "metadata" (get_field "dashboard" enriched)) = true.
Proof.
  intros (dashboard & blocks & Hdashboard & Htitle & Hblocks & _).
  destruct dashboard as [ | | | | | | members ]; try discriminate Htitle.
  destruct config as [ | | | | | | fields ]; try discriminate Hdashboard.
  cbn [prop] in Hdashboard. injection Hdashboard as Hdashboard.
  unfold Dashboard.enrichDashboard. cbn [prop mbind option_bind]. rewrite Hdashboard.
  cbn [mbind option_bind prop].
  destruct (truthy (assoc "metadata" members)) eqn:Hmetadata.
  - eexists. split; [ reflexivity | ]. cbn [get_field]. rewrite Hdashboard.
    repeat split. exact Hmetadata.
  - eexists. split; [ reflexivity | ]. cbn [get_field].
    rewrite assoc_set_field_eq, Hdashboard. cbn [get_field].
    rewrite !assoc_set_field_ne by discriminate. rewrite assoc_set_field_eq.
    repeat split.
Qed.

(** X23.  [generateDashboard] never sends a generated configuration that
    fails [validateDashboardStructure]: when the answer of the service is
    not a fallback, an invalid [content] ends in the error
    ['Configuration dashboard générée invalide'] given to [next], and a
    valid one is sent with its title and its blocks as they were and with
    a [metadata] (its own, or the one [enrichDashboard] stamps). *)
Theorem generateDashboard_sends_valid_configuration host env build body t s
    requirements prompt aiResponse :
  prop "requirements" body = Some requirements ->
  is_Some (prop "length" requirements) ->
  build requirements (get_field "templateType" body) (get_field "complexity" body)
    (get_field "context" body) = Some prompt ->
  fst (callOpenAI host env (JStr prompt) "dashboard" {| cacheTTL := Some 7200 |} t s)
  = Returned aiResponse ->
  truthy (get_field "fallback" aiResponse) = false ->
  match Dashboard.validateDashboardStructure host (get_field "content" aiResponse) with
  | Dashboard.Invalid _ =>
      fst (Dashboard.generateDashboard host env build body t s)
      = Next "Configuration dashboard générée invalide"
  | Dashboard.Valid config =>
      exists reply,
        fst (Dashboard.generateDashboard host env build body t s) = ResJson reply
        /\ get_field "success" reply = JBool true
        /\ well_formed_dashboard (JObj [("dashboard", get_field "dashboard" reply)])
        /\ get_field "title" (get_field "dashboard" reply)
           = get_field "title" (get_field "dashboard" config)
        /\ get_field "blocks" (get_field "dashboard" reply)
           = get_field "blocks" (get_field "dashboard" config)
        /\ truthy (get_field "metadata" (get_field "dashboard" reply)) = true
  end.
Proof.
  intros Hrequirements [len Hlen] Hprompt Hanswer Hfallback.
  pose proof (callOpenAI_returns_truthy host env _ _ _ _ _ _ Hanswer) as Htruthy.
  assert (Hconfig : Dashboard.generated_config host aiResponse
                    = match Dashboard.validateDashboardStructure host
                              (get_field "content" aiResponse) with
                      | Dashboard.Valid data => inl data
                      | Dashboard.Invalid _ =>
                          inr "Configuration dashboard générée invalide"
                      end).
  { unfold Dashboard.generated_config.
    destruct aiResponse; try discriminate Htruthy; cbn [prop get_field] in *;
      rewrite ?Hfallback; reflexivity. }
  unfold Dashboard.generateDashboard.
  rewrite Hrequirements, Hlen, Hprompt.
  destruct (callOpenAI host env _ _ _ _ _) as [r s']. cbn [fst] in Hanswer. subst r.
  rewrite Hconfig.
  destruct (Dashboard.validateDashboardStructure host (get_field "content" aiResponse))
    as [config | error] eqn:Hvalid; [ | reflexivity ].
  apply validateDashboardStructure_valid in Hvalid as [_ Hwf].
  destruct (enrichDashboard_well_formed host config (get_field "templateType" body) t Hwf)
    as (enriched & -> & Htitle & Hblocks & Hmetadata).
  destruct Hwf as (dashboard & blocks & Hdashboard & Htitle' & Hblocks' & Hall).
  assert (Hfield : get_field "dashboard" config = dashboard).
  { destruct config; try discriminate Hdashboard; cbn [prop] in Hdashboard;
      try (injection Hdashboard as <-; discriminate Htitle').
    injection Hdashboard as <-. reflexivity. }
  eexists. split; [ reflexivity | ]. split; [ reflexivity | ].
  cbn [get_field assoc String.eqb Ascii.eqb Bool.eqb].
  split; [ | split; [ exact Htitle | split; [ exact Hblocks | exact Hmetadata ] ] ].
  exists (get_field "dashboard" enriched), blocks.
  split; [ reflexivity | ].
  rewrite Htitle, Hblocks, Hfield. auto.
Qed.

Lemma generateDashboard_sends_valid_configuration_witness :
  let env := Scenario.answering (Sample.completion "generated.json") in
  Dashboard.validateDashboardStructure Scenario.reading (JStr "generated.json")
  = Dashboard.Valid Scenario.generated_dashboard
  /\ exists reply,
       fst (Dashboard.generateDashboard Scenario.reading env
              Scenario.dashboard_prompt_of Scenario.dashboard_request 0
              Sample.empty_service)
       = ResJson reply
       /\ get_field "success" reply = JBool true
       /\ well_formed_dashboard (JObj [("dashboard", get_field "dashboard" reply)])
       /\ get_field "title" (get_field "dashboard" reply)
          = get_field "title" (get_field "dashboard" Scenario.generated_dashboard)
       /\ get_field "blocks" (get_field "dashboard" reply)
          = get_field "blocks" (get_field "dashboard" Scenario.generated_dashboard)
       /\ truthy (get_field "metadata" (get_field "dashboard" reply)) = true.
Proof.
  split; [ reflexivity | ].
  apply (generateDashboard_sends_valid_configuration Scenario.reading
           (Scenario.answering (Sample.completion "generated.json"))
           Scenario.dashboard_prompt_of Scenario.dashboard_request 0
           Sample.empty_service (JStr "latency of the API") "generate"
           (result_of Scenario.reading (Sample.completion "generated.json")
              "dashboard" 0)).
  - reflexivity.
  - eexists. reflexivity.
  - reflexivity.
  - reflexivity.
  - reflexivity.
Defined.

(** ** The [cached] flag *)

(** X24.  In every world the service can reach, no answer of
    [callOpenAI] has a [cached] property (nor [tool_calls]), whether it
    was served from the cache, computed, or a fallback: a hit returns the
    stored result, which was written without one.  So [quickStatus], like
    every handler that reports [!!aiResponse.cached], always says
    [cached: false]. *)
Theorem service_answer_has_no_cached_flag host env (w : world service_state)
    prompt agentType options v :
  reachable host env w ->
  fst (callOpenAI host env prompt agentType options (now w) (svc w)) = Returned v ->
  get_field "cached" v = JUndefined
  /\ prop "tool_calls" v = Some JUndefined
  /\ forall body user_id reply,
       fst (OpsStatus.quickStatus host env body user_id (now w) (svc w)) = ResJson reply ->
       get_field "cached" (get_field "metadata" reply) = JBool false.
Proof.
  intros Hreach Hanswer.
  pose proof (reachable_cache_shaped host env w Hreach) as Hcache.
  pose proof (callOpenAI_shaped host env _ _ _ _ _ _ Hcache Hanswer) as Hshape.
  apply shaped_no_tool_calls in Hshape as (Htools & Hcached & _).
  split; [ exact Hcached | ]. split; [ exact Htools | ].
  intros body user_id reply. unfold OpsStatus.quickStatus.
  destruct (prop "includeMetrics" body) as [im | ]; [ | discriminate ].
  destruct (prop "includeAlerts" body) as [ia | ]; [ | discriminate ].
  cbv zeta.
  match goal with
  | |- context [ callOpenAI host env ?p ?a ?o ?t ?s ] =>
      destruct (callOpenAI host env p a o t s) as [r s'] eqn:Hcall
  end.
  destruct r as [aiResponse | error]; [ | discriminate ].
  assert (Hfirst : fst (callOpenAI host env
                          (JStr (OpsStatus.quickStatus_prompt (OpsStatus.or_true im)
                                   (OpsStatus.or_true ia)))
                          (OpsStatus.quickStatus_agentType user_id)
                          {| cacheTTL := None |} (now w) (svc w))
                   = Returned aiResponse).
  { rewrite Hcall. reflexivity. }
  pose proof (callOpenAI_shaped host env _ _ _ _ _ _ Hcache Hfirst) as Hshape'.
  apply shaped_no_tool_calls in Hshape' as (_ & Hcached' & Htruthy).
  destruct aiResponse; try discriminate Htruthy; cbn [prop get_field] in *;
    try (intros [= <-]; reflexivity).
  rewrite Hcached'. intros [= <-]. reflexivity.
Qed.

Lemma service_answer_has_no_cached_flag_witness :
  let again := callOpenAI Sample.host Sample.env Scenario.status_prompt "opsAssistant"
                 Scenario.no_options (now Scenario.after_status_call)
                 (svc Scenario.after_status_call) in
  reachable Sample.host Sample.env Scenario.after_status_call
  /\ engineLog (snd again) = engineLog (svc Scenario.after_status_call)
  /\ exists v,
       fst again = Returned v
       /\ get_field "cached" v = JUndefined
       /\ prop "tool_calls" v = Some JUndefined
       /\ forall body user_id reply,
            fst (OpsStatus.quickStatus Sample.host Sample.env body user_id
                   (now Scenario.after_status_call) (svc Scenario.after_status_call))
            = ResJson reply ->
            get_field "cached" (get_field "metadata" reply) = JBool false.
Proof.
  assert (Hreach : reachable Sample.host Sample.env Scenario.after_status_call).
  { apply reachable_call, reachable_start. reflexivity. }
  split; [ exact Hreach | ]. split; [ vm_compute; reflexivity | ].
  eexists. split; [ vm_compute; reflexivity | ].
  apply (service_answer_has_no_cached_flag Sample.host Sample.env
           Scenario.after_status_call Scenario.status_prompt "opsAssistant"
           Scenario.no_options _ Hreach).
  vm_compute. reflexivity.
Defined.

(** ** Sample runs of the further properties *)

Lemma cache_keys_in_namespace_witness :
  reachable Sample.host Sample.env Scenario.after_status_call
  /\ is_Some (memoryCache (svc Scenario.after_status_call) !! "ai:opsAssistant:7")
  /\ startsWith "ai:" "ai:opsAssistant:7" = true
  /\ includes "ai:" "ai:opsAssistant:7" = true.
Proof.
  assert (Hreach : reachable Sample.host Sample.env Scenario.after_status_call).
  { apply reachable_call, reachable_start. reflexivity. }
  assert (Hkey : is_Some (memoryCache (svc Scenario.after_status_call)
                          !! "ai:opsAssistant:7")).
  { vm_compute. eexists. reflexivity. }
  split; [ exact Hreach | ]. split; [ exact Hkey | ].
  exact (cache_keys_in_namespace Sample.host Sample.env Scenario.after_status_call
           "ai:opsAssistant:7" Hreach Hkey).
Defined.

Lemma flushCache_empties_cache_witness :
  reachable Sample.host Sample.env Scenario.after_status_call
  /\ CacheController.flushCache (memoryCache (svc Scenario.after_status_call))
     = (CacheController.Json 200 true "Cache IA vidé avec succès", ∅).
Proof.
  assert (Hreach : reachable Sample.host Sample.env Scenario.after_status_call).
  { apply reachable_call, reachable_start. reflexivity. }
  split; [ exact Hreach | ].
  exact (flushCache_empties_cache Sample.host Sample.env Scenario.after_status_call
           Hreach).
Defined.

Lemma deleteKey_of_service_key_witness :
  cache_key_of Sample.host Scenario.status_prompt "opsAssistant"
  = Some "ai:opsAssistant:7"
  /\ let s := svc Scenario.after_status_call in
     let deleted := CacheController.deleteKey "ai:opsAssistant:7" (memoryCache s) in
     fst deleted
     = (if bool_decide (is_Some (memoryCache s !! "ai:opsAssistant:7"))
        then CacheController.Json 200 true "Clé supprimée avec succès"
        else CacheController.Json 404 false "Clé non trouvée")
     /\ snd deleted = delete "ai:opsAssistant:7" (memoryCache s)
     /\ engineLog (snd (callOpenAI Sample.host Sample.env Scenario.status_prompt
                          "opsAssistant" Scenario.no_options 60
                          (with_cache (snd deleted) s)))
        = engineLog s ++ [messages_of Scenario.status_prompt "opsAssistant"].
Proof.
  split; [ reflexivity | ].
  apply (deleteKey_of_service_key Sample.host Sample.env Scenario.status_prompt
           "opsAssistant" Scenario.no_options 60 (svc Scenario.after_status_call)
           "ai:opsAssistant:7").
  reflexivity.
Defined.

Lemma callOpenAI_memoises_witness :
  let first := callOpenAI Sample.host Sample.env Scenario.status_prompt "opsAssistant"
                 Scenario.no_options 0 Sample.empty_service in
  fst first
  = Returned (result_of Sample.host (Sample.completion "All services are up.")
                "opsAssistant" 0)
  /\ engineLog (snd first)
     = engineLog Sample.empty_service
       ++ [messages_of Scenario.status_prompt "opsAssistant"]
  /\ forall options' t',
       callOpenAI Sample.host Sample.env Scenario.status_prompt "opsAssistant"
         options' t' (snd first)
       = (Returned (json_norm
                      (result_of Sample.host (Sample.completion "All services are up.")
                         "opsAssistant" 0)),
          recordAICall "opsAssistant" "success" true (snd first)).
Proof.
  apply (callOpenAI_memoises Sample.host Sample.env Scenario.status_prompt
           "opsAssistant" Scenario.no_options 0 Sample.empty_service
           "ai:opsAssistant:7" (Sample.completion "All services are up.")).
  - reflexivity.
  - reflexivity.
  - reflexivity.
  - reflexivity.
  - reflexivity.
  - eexists. reflexivity.
Defined.

Lemma callOpenAI_without_cache_witness :
  let r := callOpenAI Sample.host Scenario.uncached Scenario.status_prompt
             "opsAssistant" Scenario.no_options 0 Sample.empty_service in
  memoryCache (snd r) = memoryCache Sample.empty_service
  /\ (is_Some (cache_key_of Sample.host Scenario.status_prompt "opsAssistant") ->
      engineLog (snd r)
      = engineLog Sample.empty_service
        ++ [messages_of Scenario.status_prompt "opsAssistant"]).
Proof.
  apply (callOpenAI_without_cache Sample.host Scenario.uncached Scenario.status_prompt
           "opsAssistant" Scenario.no_options 0 Sample.empty_service).
  reflexivity.
Defined.

Lemma callOpenAI_completion_without_usage_witness :
  let env := Scenario.answering Scenario.unmetered_completion in
  let first := callOpenAI Sample.host env Scenario.status_prompt "opsAssistant"
                 Scenario.no_options 0 Sample.empty_service in
  fst first
  = Returned (getFallbackResponse Sample.host "opsAssistant" Scenario.status_prompt)
  /\ aiCalls (snd first)
     = aiCalls Sample.empty_service
       ++ [("opsAssistant", "success", false); ("opsAssistant", "error", false)]
  /\ aiCache_get "ai:opsAssistant:7" (memoryCache (snd first))
     = json_norm (result_of Sample.host Scenario.unmetered_completion "opsAssistant" 0)
  /\ forall options' t',
       fst (callOpenAI Sample.host env Scenario.status_prompt "opsAssistant"
              options' t' (snd first))
       = Returned (json_norm
                     (result_of Sample.host Scenario.unmetered_completion
                        "opsAssistant" 0)).
Proof.
  apply (callOpenAI_completion_without_usage Sample.host
           (Scenario.answering Scenario.unmetered_completion) Scenario.status_prompt
           "opsAssistant" Scenario.no_options 0 Sample.empty_service
           "ai:opsAssistant:7" Scenario.unmetered_completion).
  - reflexivity.
  - reflexivity.
  - reflexivity.
  - reflexivity.
  - reflexivity.
  - left. reflexivity.
Defined.

Lemma chat_failure_keeps_user_message_witness :
  let env := Sample.failing (Some "rate_limit_exceeded") in
  exists w',
    chat Sample.host env (callOpenAI Sample.host env) Sample.hello Sample.empty_world
    = Some (Next "Limite de taux API dépassée. Veuillez réessayer plus tard.",
            [(first_prompt env Sample.hello Sample.empty_world,
              agentType_of Sample.hello)], w')
    /\ history_of "s1" w'
       = history_of "s1" Sample.empty_world ++ [user_message Sample.hello]
    /\ first_prompt env Sample.hello w'
       = buildChatPrompt (history_of "s1" Sample.empty_world
                          ++ [user_message Sample.hello; user_message Sample.hello]).
Proof.
  apply (chat_failure_keeps_user_message Sample.host
           (Sample.failing (Some "rate_limit_exceeded"))
           (callOpenAI Sample.host (Sample.failing (Some "rate_limit_exceeded")))
           Sample.hello "s1" Sample.empty_world
           "Limite de taux API dépassée. Veuillez réessayer plus tard.").
  - reflexivity.
  - discriminate.
  - vm_compute. reflexivity.
Defined.

Lemma chat_service_answer_without_text_witness :
  let env := Scenario.answering Scenario.tool_request in
  requests_tools
    (get_field "message" (index0 (get_field "choices" Scenario.tool_request))) = true
  /\ exists w',
       chat_service Sample.host env Sample.hello Sample.empty_world
       = Some (Next "Réponse OpenAI invalide",
               [(first_prompt env Sample.hello Sample.empty_world,
                 agentType_of Sample.hello)], w')
       /\ aiCache_get "ai:chat-u1:164" (memoryCache (svc w'))
          = json_norm (result_of Sample.host Scenario.tool_request
                         (agentType_of Sample.hello) (now Sample.empty_world))
       /\ history_of (fst (currentSession env Sample.hello Sample.empty_world)) w'
          = history_of (fst (currentSession env Sample.hello Sample.empty_world))
              Sample.empty_world ++ [user_message Sample.hello]
       /\ forall tools,
            chat_service Sample.host (with_tools tools env) Sample.hello
              Sample.empty_world
            = chat_service Sample.host env Sample.hello Sample.empty_world.
Proof.
  split; [ reflexivity | ].
  apply (chat_service_answer_without_text Sample.host
           (Scenario.answering Scenario.tool_request) Sample.hello Sample.empty_world
           "ai:chat-u1:164" Scenario.tool_request).
  - reflexivity.
  - vm_compute. reflexivity.
  - reflexivity.
  - reflexivity.
  - reflexivity.
  - eexists. reflexivity.
  - reflexivity.
Defined.

Lemma quickStatus_engine_unavailable_witness :
  exists reply,
    fst (OpsStatus.quickStatus Sample.host (Sample.failing (Some "ETIMEDOUT"))
           (JObj []) (Some "u1") 0 Sample.empty_service)
    = ResJson reply
    /\ get_field "success" reply = JBool true
    /\ get_field "status" reply
       = (if includes "chat" (OpsStatus.userId (Some "u1"))
          then JStr fallback_chat_text
          else if includes "dashboard" (OpsStatus.userId (Some "u1"))
               then JSON_stringify Sample.host fallback_dashboard_doc
               else JStr fallback_opsAssistant_text)
    /\ get_field "cached" (get_field "metadata" reply) = JBool false.
Proof.
  apply (quickStatus_engine_unavailable Sample.host (Sample.failing (Some "ETIMEDOUT"))
           [] (Some "u1") 0 Sample.empty_service (Some "ETIMEDOUT")
           "connect ETIMEDOUT").
  - intros key _. apply andb_false_r.
  - reflexivity.
  - reflexivity.
Defined.

Lemma getDefaultLayout_geometry_witness :
  exists layout blocks,
    Dashboard.getDefaultLayout (JArr Scenario.metrics) = Some layout
    /\ get_field "columns" (get_field "layout" layout) = JNum 12
    /\ get_field "blocks" (get_field "layout" layout) = JArr blocks
    /\ List.length blocks = List.length Scenario.metrics
    /\ (forall i block,
          blocks !! i = Some block ->
          let '(x, y, w, h) := position_of block in
          0 <= x /\ x + w <= 12 /\ 0 <= y /\ 0 < w /\ 0 < h)
    /\ (forall i j bi bj,
          blocks !! i = Some bi -> blocks !! j = Some bj -> i <> j ->
          overlap (position_of bi) (position_of bj) = false
          /\ get_field "id" bi <> get_field "id" bj).
Proof.
  apply (getDefaultLayout_geometry Scenario.metrics).
  repeat constructor; discriminate.
Defined.

Lemma suggestTemplates_fallback_is_empty_witness :
  exists reply,
    fst (Dashboard.suggestTemplates Sample.host (Sample.failing (Some "ETIMEDOUT"))
           Scenario.prompt_of Scenario.templates_request 0 Sample.empty_service)
    = ResJson reply
    /\ get_field "success" reply = JBool true
    /\ get_field "suggestions" reply = JArr [].
Proof.
  apply (suggestTemplates_fallback_is_empty Sample.host
           (Sample.failing (Some "ETIMEDOUT")) Scenario.prompt_of
           Scenario.templates_request 0 Sample.empty_service
           (JStr "Monitoring d'infrastructure")
           (fallback_of (JStr fallback_opsAssistant_text))).
  - reflexivity.
  - vm_compute. reflexivity.
  - reflexivity.
Defined.

Lemma recommendBlocks_fallback_is_empty_witness :
  exists reply,
    fst (Dashboard.recommendBlocks Sample.host (Sample.failing (Some "ETIMEDOUT"))
           Scenario.prompt_of Scenario.blocks_request 0 Sample.empty_service)
    = ResJson reply
    /\ get_field "success" reply = JBool true
    /\ get_field "recommendations" reply = JArr [].
Proof.
  apply (recommendBlocks_fallback_is_empty Sample.host
           (Sample.failing (Some "ETIMEDOUT")) Scenario.prompt_of
           Scenario.blocks_request 0 Sample.empty_service
           (JStr "Surveillance des performances d'une API")
           (fallback_of (JStr fallback_opsAssistant_text))).
  - reflexivity.
  - vm_compute. reflexivity.
  - reflexivity.
Defined.
